(** * NexaSales: the EVC calculation and priority-scoring core

    A shallow embedding of the numeric core of the NexaSales customer
    segmentation pipeline:

    - [extract_parameter_from_characteristics],
      [customize_formula_for_segment] and
      [validate_formula]                (nexasales_agents/formula_design.py)
    - [calculate_evc]                   (tools/evc_tools.py)
    - [prepare_segment_parameters] and
      [analyze_evc_results]             (nexasales_agents/evc_calculation.py)
    - [calculate_segment_potential] and
      [calculate_total_potential]       (nexasales_agents/market_potential.py)
    - [calculate_priority_scores] and
      [generate_segment_strategies]     (nexasales_agents/priority_evaluation.py)
    - [create_action_plan] and
      [create_priority_report]          (nexasales_agents/priority_evaluation_part2.py)

    Conventions of the embedding.

    - Python values are the JSON-shaped values the tools receive: [pyval].
      Dictionaries are association lists in insertion order, with string
      keys.
    - Numbers are exact rationals ([Q]); Python [int] and [float] values
      are modelled by the rational they denote, [bool] counts as 0 or 1 in
      arithmetic as in Python.  These embeddings leave the rounding of
      binary64 out; the priority scorer is embedded a second time with
      it (modules [Float64] and [PriorityEvaluation64]): there every
      operation gives its exact result rounded to the nearest float.
    - A raising computation is a value of [result]; the exception classes
      are the constructors of [exn].
    - Operators [+], [-], [*], [/] are modelled on numbers; Python also
      overloads [+] and [*] on sequences (concatenation, repetition), which
      is left out: such operands raise [TypeError] here.
    - Strings are byte strings holding UTF-8.  Whitespace is that of
      [str.isspace]; digits are the ASCII ones: [str.isdigit] and [int]
      on the digits of other scripts are not modelled.
    - [json.loads] belongs to the Python library: the functions that call
      it take the parser as an argument; so does the analysis of the EVC
      results with [format] for the numbers it prints.
    - The tools end with [str(...)] of the dictionary they built; the
      embedding returns the dictionary itself, as a record. *)

From Stdlib Require Import QArith Qabs Qround Qpower ZArith String Ascii.
From Stdlib Require Import List Bool Lia Lqa.
From Stdlib Require Import Qminmax Permutation Sorted.
From Stdlib Require PrimFloat FloatOps SpecFloat.
Import ListNotations.

Local Open Scope string_scope.
Local Open Scope Q_scope.

Set Warnings "-register-all,-inexact-float".

(** ** Python values, exceptions and operators *)

Module Py.

Inductive exn : Type :=
| AttributeError
| TypeError
| KeyError
| ValueError
| ZeroDivisionError.

Inductive result (A : Type) : Type :=
| Ok (a : A)
| Raise (e : exn).

Arguments Ok {A} a.
Arguments Raise {A} e.

Definition bind {A B : Type} (r : result A) (k : A -> result B) : result B :=
  match r with
  | Ok a => k a
  | Raise e => Raise e
  end.

Declare Scope py_scope.
Delimit Scope py_scope with py.
Notation "x <- e ;; k" := (bind e (fun x => k))
  (at level 61, e at next level, right associativity) : py_scope.
Local Open Scope py_scope.

Fixpoint mapM {A B : Type} (f : A -> result B) (l : list A)
  : result (list B) :=
  match l with
  | [] => Ok []
  | x :: l' => y <- f x ;; ys <- mapM f l' ;; Ok (y :: ys)
  end.

(** [try: r except Exception: h] *)
Definition try_except {A : Type} (r : result A) (h : A) : A :=
  match r with
  | Ok a => a
  | Raise _ => h
  end.

Inductive pyval : Type :=
| PNone
| PBool (b : bool)
| PNum (q : Q)
| PStr (s : string)
| PList (l : list pyval)
| PDict (d : list (string * pyval)).

Definition dict : Type := list (string * pyval).

Fixpoint dict_get {V : Type} (d : list (string * V)) (k : string) : option V :=
  match d with
  | [] => None
  | (k', v) :: d' => if String.eqb k' k then Some v else dict_get d' k
  end.

Definition dict_mem {V : Type} (d : list (string * V)) (k : string) : bool :=
  match dict_get d k with
  | Some _ => true
  | None => false
  end.

(** [d[k] = v]: an existing key keeps its position, a new key goes last. *)
Fixpoint dict_set {V : Type} (d : list (string * V)) (k : string) (v : V)
  : list (string * V) :=
  match d with
  | [] => [(k, v)]
  | (k', v') :: d' =>
      if String.eqb k' k then (k', v) :: d' else (k', v') :: dict_set d' k v
  end.

Definition dict_keys {V : Type} (d : list (string * V)) : list string :=
  map fst d.

Definition dict_values {V : Type} (d : list (string * V)) : list V :=
  map snd d.

(** Numbers: [int], [float] and [bool]. *)
Definition as_num (v : pyval) : option Q :=
  match v with
  | PNum q => Some q
  | PBool true => Some 1
  | PBool false => Some 0
  | _ => None
  end.

Definition Qlt_bool (x y : Q) : bool := negb (Qle_bool y x).

(** Truth value of an object, as tested by [if v] and [not v]. *)
Definition py_truthy (v : pyval) : bool :=
  match v with
  | PNone => false
  | PBool b => b
  | PNum q => negb (Qeq_bool q 0)
  | PStr s => negb (String.eqb s "")
  | PList l => match l with [] => false | _ => true end
  | PDict d => match d with [] => false | _ => true end
  end.

(** [a == b] *)
Fixpoint py_eqb (a b : pyval) : bool :=
  match a, b with
  | PNone, PNone => true
  | PStr s, PStr t => String.eqb s t
  | PList l, PList m =>
      (fix all2 (l : list pyval) (m : list pyval) : bool :=
         match l, m with
         | [], [] => true
         | x :: l', y :: m' => py_eqb x y && all2 l' m'
         | _, _ => false
         end) l m
  | PDict d, PDict e =>
      Nat.eqb (List.length d) (List.length e)
      && (fix sub (d : list (string * pyval)) : bool :=
            match d with
            | [] => true
            | (k, v) :: d' =>
                match dict_get e k with
                | Some w => py_eqb v w && sub d'
                | None => false
                end
            end) d
  | _, _ =>
      match as_num a, as_num b with
      | Some x, Some y => Qeq_bool x y
      | _, _ => false
      end
  end.

(** [a > b]: numbers, strings and lists are ordered, anything else raises. *)
Fixpoint py_gt (a b : pyval) : result bool :=
  match a, b with
  | PStr s, PStr t => Ok (String.ltb t s)
  | PList l, PList m =>
      (fix lex (l : list pyval) (m : list pyval) : result bool :=
         match l, m with
         | x :: l', y :: m' => if py_eqb x y then lex l' m' else py_gt x y
         | _ :: _, [] => Ok true
         | [], _ => Ok false
         end) l m
  | _, _ =>
      match as_num a, as_num b with
      | Some x, Some y => Ok (Qlt_bool y x)
      | _, _ => Raise TypeError
      end
  end.

Definition py_lt (a b : pyval) : result bool := py_gt b a.

Definition arith (op : Q -> Q -> Q) (a b : pyval) : result pyval :=
  match as_num a, as_num b with
  | Some x, Some y => Ok (PNum (op x y))
  | _, _ => Raise TypeError
  end.

Definition py_add : pyval -> pyval -> result pyval := arith Qplus.
Definition py_sub : pyval -> pyval -> result pyval := arith Qminus.
Definition py_mul : pyval -> pyval -> result pyval := arith Qmult.

Definition py_div (a b : pyval) : result pyval :=
  match as_num a, as_num b with
  | Some x, Some y =>
      if Qeq_bool y 0 then Raise ZeroDivisionError else Ok (PNum (x / y))
  | _, _ => Raise TypeError
  end.

(** Binary operators on computations: the left operand is evaluated first. *)
Definition lift2 (op : pyval -> pyval -> result pyval)
  (x y : result pyval) : result pyval :=
  bind x (fun a => bind y (fun b => op a b)).

(** [max(l)] for a list: the first of the largest elements. *)
Fixpoint max_from (cur : pyval) (l : list pyval) : result pyval :=
  match l with
  | [] => Ok cur
  | x :: l' =>
      bind (py_gt x cur) (fun b => max_from (if b then x else cur) l')
  end.

Definition py_max (l : list pyval) : result pyval :=
  match l with
  | [] => Raise ValueError
  | x :: l' => max_from x l'
  end.

(** [min(a, b)]: [b] only when it is strictly smaller. *)
Definition py_min2 (a b : pyval) : result pyval :=
  bind (py_lt b a) (fun c => Ok (if c then b else a)).

(** A value used as a number. *)
Definition num (v : pyval) : result Q :=
  match as_num v with
  | Some q => Ok q
  | None => Raise TypeError
  end.

(** [v.get(k, default)]: a method of dictionaries only. *)
Definition py_get (v : pyval) (k : string) (default : pyval) : result pyval :=
  match v with
  | PDict d =>
      match dict_get d k with
      | Some x => Ok x
      | None => Ok default
      end
  | _ => Raise AttributeError
  end.

(** *** Strings *)

Definition quote_char : ascii := ascii_of_nat 34.
Definition apostrophe_char : ascii := ascii_of_nat 39.
Definition newline_char : ascii := ascii_of_nat 10.
Definition space_char : ascii := ascii_of_nat 32.

(** [str.isspace] on ASCII: tab to carriage return, the four separators
    28 to 31, and the space. *)
Definition is_space (c : ascii) : bool :=
  let n := nat_of_ascii c in
  ((9 <=? n)%nat && (n <=? 13)%nat)
  || ((28 <=? n)%nat && (n <=? 32)%nat).

(** [str.isspace] beyond ASCII, on the UTF-8 bytes of a character: U+0085
    and U+00A0; U+1680, U+2000 to U+200A, U+2028, U+2029, U+202F, U+205F
    and U+3000. *)
Definition is_space2 (a b : ascii) : bool :=
  let a := nat_of_ascii a in
  let b := nat_of_ascii b in
  (a =? 194)%nat && ((b =? 133)%nat || (b =? 160)%nat).

Definition is_space3 (a b c : ascii) : bool :=
  let a := nat_of_ascii a in
  let b := nat_of_ascii b in
  let c := nat_of_ascii c in
  ((a =? 225)%nat && (b =? 154)%nat && (c =? 128)%nat)
  || ((a =? 226)%nat && (b =? 128)%nat
      && (((128 <=? c)%nat && (c <=? 138)%nat)
          || (c =? 168)%nat || (c =? 169)%nat || (c =? 175)%nat))
  || ((a =? 226)%nat && (b =? 129)%nat && (c =? 159)%nat)
  || ((a =? 227)%nat && (b =? 128)%nat && (c =? 128)%nat).

(** The whitespace characters taken off the front of a string;
    [backwards] when its bytes come in reverse order. *)
Fixpoint strip_front (backwards : bool) (s : string) : string :=
  match s with
  | EmptyString => EmptyString
  | String a s1 =>
      if is_space a then strip_front backwards s1
      else
        match s1 with
        | EmptyString => s
        | String b s2 =>
            if (if backwards then is_space2 b a else is_space2 a b)
            then strip_front backwards s2
            else
              match s2 with
              | EmptyString => s
              | String c s3 =>
                  if (if backwards then is_space3 c b a
                      else is_space3 a b c)
                  then strip_front backwards s3
                  else s
              end
        end
  end.

Definition lstrip (s : string) : string := strip_front false s.

Definition string_rev (s : string) : string :=
  string_of_list_ascii (rev (list_ascii_of_string s)).

Definition rstrip (s : string) : string :=
  string_rev (strip_front true (string_rev s)).

(** [s.strip()] *)
Definition strip (s : string) : string := rstrip (lstrip s).

(** [s.startswith(p)] and [s.endswith(p)] *)
Definition startswith (s p : string) : bool := String.prefix p s.
Definition endswith (s p : string) : bool :=
  String.prefix (string_rev p) (string_rev s).

(** [p in s] for two strings. *)
Fixpoint is_substring (p s : string) : bool :=
  String.prefix p s
  || match s with
     | EmptyString => false
     | String _ s' => is_substring p s'
     end.

(** [s.replace(a, b)] for one-character [a] and [b]. *)
Fixpoint replace_char (a b : ascii) (s : string) : string :=
  match s with
  | EmptyString => EmptyString
  | String c s' =>
      String (if Ascii.eqb c a then b else c) (replace_char a b s')
  end.

(** The repair applied to text that [json.loads] rejected: every
    apostrophe becomes a double quote, then every newline a space. *)
Definition fix_quotes (s : string) : string :=
  replace_char newline_char space_char
    (replace_char apostrophe_char quote_char s).

(** [s.split(sep)] for a non-empty separator: [skip] counts the bytes of a
    separator still to be passed over, [cur] is the piece being read. *)
Fixpoint split_go (sep s : string) (skip : nat) (cur : string) : list string :=
  match s with
  | EmptyString => [cur]
  | String c s' =>
      match skip with
      | S n => split_go sep s' n cur
      | O =>
          if String.prefix sep s
          then cur :: split_go sep s' (String.length sep - 1) EmptyString
          else split_go sep s' O (cur ++ String c EmptyString)
      end
  end.

Definition split (s sep : string) : list string :=
  split_go sep s O EmptyString.

(** [s.split(sep, 1)]: the text before the first separator and, when
    there is one, the text after it. *)
Fixpoint split1_go (sep s cur : string) : string * option string :=
  match s with
  | EmptyString => (cur, None)
  | String c s' =>
      if String.prefix sep s
      then (cur, Some (substring (String.length sep)
                         (String.length s - String.length sep) s))
      else split1_go sep s' (cur ++ String c EmptyString)
  end.

Definition split1 (s sep : string) : string * option string :=
  split1_go sep s EmptyString.

Definition is_digit (c : ascii) : bool :=
  let n := nat_of_ascii c in (48 <=? n)%nat && (n <=? 57)%nat.

Fixpoint all_chars (p : ascii -> bool) (s : string) : bool :=
  match s with
  | EmptyString => true
  | String c s' => p c && all_chars p s'
  end.

(** [s.isdigit()]: at least one character, all of them digits. *)
Definition isdigit (s : string) : bool :=
  negb (String.eqb s EmptyString) && all_chars is_digit s.

(** [int(s)] for a string of digits. *)
Fixpoint digits_value (acc : Z) (s : string) : Z :=
  match s with
  | EmptyString => acc
  | String c s' =>
      digits_value (10 * acc + Z.of_nat (nat_of_ascii c - 48))%Z s'
  end.

Definition int_of_digits (s : string) : Z := digits_value 0%Z s.

(** [float(s)] for a string of digits and dots: one dot at most and a
    digit on one side of it, [ValueError] otherwise. *)
Definition float_of_decimal (s : string) : result Q :=
  match split1 s "." with
  | (ip, None) =>
      if isdigit ip then Ok (inject_Z (int_of_digits ip)) else Raise ValueError
  | (ip, Some fp) =>
      if all_chars is_digit ip && all_chars is_digit fp
         && negb (String.eqb ip EmptyString && String.eqb fp EmptyString)
      then Ok (Qmake (digits_value (int_of_digits ip) fp)
                 (Z.to_pos (10 ^ Z.of_nat (String.length fp))))
      else Raise ValueError
  end.

(** The characters of a string: a byte that is not a UTF-8 continuation
    byte starts a character. *)
Definition is_continuation (c : ascii) : bool :=
  let n := nat_of_ascii c in (128 <=? n)%nat && (n <? 192)%nat.

Fixpoint chars_go (s : string) (cur : string) : list string :=
  match s with
  | EmptyString => [cur]
  | String c s' =>
      if is_continuation c
      then chars_go s' (cur ++ String c EmptyString)
      else cur :: chars_go s' (String c EmptyString)
  end.

Definition chars (s : string) : list string :=
  match s with
  | EmptyString => []
  | String c s' => chars_go s' (String c EmptyString)
  end.

(** *** Containers *)

(** [for x in v]: the elements of a list, the characters of a string, the
    keys of a dictionary; other values are not iterable. *)
Definition py_iter (v : pyval) : result (list pyval) :=
  match v with
  | PList l => Ok l
  | PStr s => Ok (map PStr (chars s))
  | PDict d => Ok (map PStr (dict_keys d))
  | _ => Raise TypeError
  end.

(** [k in v] for a string [k]. *)
Definition py_contains_key (v : pyval) (k : string) : result bool :=
  match v with
  | PDict d => Ok (dict_mem d k)
  | PList l => Ok (existsb (py_eqb (PStr k)) l)
  | PStr s => Ok (is_substring k s)
  | _ => Raise TypeError
  end.

(** [k in v] for any [k]: a list or dictionary is not hashable and cannot
    be looked up in a dictionary, only a string can be sought in a string. *)
Definition py_contains (v : pyval) (k : pyval) : result bool :=
  match k with
  | PStr s => py_contains_key v s
  | PList _ | PDict _ =>
      match v with
      | PList l => Ok (existsb (py_eqb k) l)
      | _ => Raise TypeError
      end
  | _ =>
      match v with
      | PDict _ => Ok false
      | PList l => Ok (existsb (py_eqb k) l)
      | _ => Raise TypeError
      end
  end.

(** [v[k]] for a string [k]: defined on dictionaries; a list or a string
    takes integer indices and anything else is not subscriptable. *)
Definition py_getitem_key (v : pyval) (k : string) : result pyval :=
  match v with
  | PDict d =>
      match dict_get d k with
      | Some x => Ok x
      | None => Raise KeyError
      end
  | _ => Raise TypeError
  end.

Definition is_str (v : pyval) : bool :=
  match v with PStr _ => true | _ => false end.
Definition is_dict (v : pyval) : bool :=
  match v with PDict _ => true | _ => false end.
Definition is_list (v : pyval) : bool :=
  match v with PList _ => true | _ => false end.

(** [a <= b] *)
Definition py_le (a b : pyval) : result bool :=
  bind (py_gt a b) (fun larger => Ok (negb larger)).

(** [s.replace(c, "")] for a one-character [c]. *)
Fixpoint remove_char (c : ascii) (s : string) : string :=
  match s with
  | EmptyString => EmptyString
  | String c' s' =>
      if Ascii.eqb c' c then remove_char c s'
      else String c' (remove_char c s')
  end.

(** The digits of an integer literal: an underscore may stand between
    two digits; [after_digit] tells that the last character was one. *)
Fixpoint literal_value (s : string) (after_digit : bool) (acc : Z)
  : option Z :=
  match s with
  | EmptyString => if after_digit then Some acc else None
  | String c s' =>
      if is_digit c
      then literal_value s' true
             (10 * acc + Z.of_nat (nat_of_ascii c - 48))%Z
      else if Ascii.eqb c "_"%char && after_digit
      then literal_value s' false acc
      else None
  end.

(** [int(s)] for a string: blanks around the literal and a sign in front
    of it are accepted, anything else raises [ValueError]. *)
Definition int_of_string (s : string) : result Z :=
  let signed :=
    match strip s with
    | String "-"%char s' => (s', true)
    | String "+"%char s' => (s', false)
    | s' => (s', false)
    end in
  match literal_value (fst signed) false 0%Z with
  | Some n => Ok (if snd signed then (- n)%Z else n)
  | None => Raise ValueError
  end.


(** [v.copy()]: a method of dictionaries and lists. *)
Definition py_copy (v : pyval) : result pyval :=
  match v with
  | PDict _ | PList _ => Ok v
  | _ => Raise AttributeError
  end.

End Py.

(** ** Binary64 arithmetic *)

(** Python's [float] is binary64.  A float is modelled by the rational it
    denotes, and an operation by its exact result rounded to the nearest
    float, ties going to the even one, as IEEE 754 defines it.  The
    subnormal range is covered; infinities and NaN are not modelled. *)
Module Float64.
Import Py.
Local Open Scope py_scope.

Definition pow2 (e : Z) : Q := 2 ^ e.

(** The binary exponent of a positive rational: the largest [e] with
    [2 ^ e <= q]. *)
Definition ilog2 (q : Q) : Z :=
  let e := (Z.log2 (Qnum q) - Z.log2 (Zpos (Qden q)))%Z in
  if Qle_bool (pow2 e) q then e else (e - 1)%Z.

(** The nearest integer, the even one of two that are equally near. *)
Definition rne (q : Q) : Z :=
  let f := Qfloor q in
  match Qcompare (q - inject_Z f) (1 # 2) with
  | Lt => f
  | Gt => (f + 1)%Z
  | Eq => if Z.even f then f else (f + 1)%Z
  end.

(** The exponent of the last place: 53 significant bits, and no place
    below [2 ^ -1074]. *)
Definition quantum_exponent (q : Q) : Z := Z.max (ilog2 q - 52) (-1074).

Definition round_pos (q : Q) : Q :=
  let quantum := pow2 (quantum_exponent q) in
  inject_Z (rne (q / quantum)) * quantum.

(** The float nearest to a rational; also the value of a decimal literal
    of the source, such as [0.4]. *)
Definition round64 (q : Q) : Q :=
  match Qcompare q 0 with
  | Eq => 0
  | Gt => round_pos q
  | Lt => - round_pos (- q)
  end.

(** [a + b] and [a * b] on floats. *)
Definition fadd (a b : Q) : Q := round64 (a + b).
Definition fmul (a b : Q) : Q := round64 (a * b).

(** [a / b]: true division gives a float, the quotient rounded. *)
Definition float_div (a b : pyval) : result pyval :=
  quotient <- py_div a b ;;
  quotient <- num quotient ;;
  Ok (PNum (round64 quotient)).

End Float64.

(** ** The priority scorer (nexasales_agents/priority_evaluation.py) *)

Module PriorityEvaluation.
Import Py.
Local Open Scope py_scope.

Record ScoreComponent : Type := {
  raw_value : pyval;
  normalized_value : Q;
  weight : Q;
  contribution : Q
}.

Record PriorityScoreInfo : Type := {
  segment_id : pyval;
  segment_name : pyval;
  priority_score : Q;
  priority_rank : string;
  sc_evc_value : ScoreComponent;
  sc_market_size : ScoreComponent;
  sc_acquisition_probability : ScoreComponent;
  sc_growth_potential : ScoreComponent
}.

Record PriorityScores : Type := {
  priority_scores : list PriorityScoreInfo;
  weights : list (string * Q)
}.

(** The five rank labels. *)
Definition rank_top : string := "最優先".
Definition rank_high : string := "高優先".
Definition rank_medium : string := "中優先".
Definition rank_low : string := "低優先".
Definition rank_lowest : string := "最低優先".

Definition w_evc_value : Q := 0.4.
Definition w_market_size : Q := 0.2.
Definition w_acquisition_probability : Q := 0.3.
Definition w_growth_potential : Q := 0.1.

Definition score_weights : list (string * Q) :=
  [ ("evc_value", w_evc_value);
    ("market_size", w_market_size);
    ("acquisition_probability", w_acquisition_probability);
    ("growth_potential", w_growth_potential) ].

(** The [if]/[elif] chain on the score. *)
Definition rank_of_score (priority_score : Q) : string :=
  if Qle_bool 0.8 priority_score then rank_top
  else if Qle_bool 0.6 priority_score then rank_high
  else if Qle_bool 0.4 priority_score then rank_medium
  else if Qle_bool 0.2 priority_score then rank_low
  else rank_lowest.

Section Parsing.

Variable json_loads : string -> option pyval.

(** The value kept from a parsed document: what stands under the key
    [integrated_results] when there is one, else the document alone in a
    list. *)
Definition unwrap_integrated (integrated_data : pyval) : result pyval :=
  has <- py_contains_key integrated_data "integrated_results" ;;
  if has : bool
  then py_getitem_key integrated_data "integrated_results"
  else Ok (PList [integrated_data]).

(** The parsing stage: every exception is caught and replaced by the
    empty list. *)
Definition parse_integrated_results (integrated_results : pyval) : pyval :=
  match integrated_results with
  | PStr s =>
      if startswith (strip s) "{" && endswith (strip s) "}"
      then match json_loads s with
           | Some integrated_data =>
               try_except (unwrap_integrated integrated_data) (PList [])
           | None =>
               match json_loads (fix_quotes s) with
               | Some integrated_data =>
                   try_except (unwrap_integrated integrated_data) (PList [])
               | None => PList []
               end
           end
      else PList []
  | PDict d => try_except (unwrap_integrated (PDict d)) (PList [])
  | PList l => PList l
  | _ => PList []
  end.

End Parsing.

(** [max([result.get(key, 0) for result in integrated_results])
     if integrated_results else 1] *)
Definition batch_max (key : string) (integrated_results : pyval)
  : result pyval :=
  if py_truthy integrated_results
  then items <- py_iter integrated_results ;;
       values <- mapM (fun result => py_get result key (PNum 0)) items ;;
       py_max values
  else Ok (PNum 1).

(** [result.get(key, 0) / max_value if max_value > 0 else 0] *)
Definition normalize (result : pyval) (key : string) (max_value : pyval)
  : Py.result Q :=
  positive <- py_gt max_value (PNum 0) ;;
  if positive : bool
  then value <- py_get result key (PNum 0) ;;
       quotient <- py_div value max_value ;;
       num quotient
  else Ok 0.

(** The weighted sum of the four normalized values, over the arithmetic
    it is evaluated in. *)
Definition weighted_sum {N : Type} (add mul : N -> N -> N)
  (w_evc w_market w_acquisition w_growth : N)
  (normalized_evc normalized_market_size normalized_acquisition
     normalized_growth : N) : N :=
  add (add (add (mul w_evc normalized_evc)
                (mul w_market normalized_market_size))
           (mul w_acquisition normalized_acquisition))
      (mul w_growth normalized_growth).

(** [min(growth_rate / 0.1, 1)] *)
Definition saturate (growth_rate : pyval) : Py.result Q :=
  growth_ratio <- py_div growth_rate (PNum 0.1) ;;
  growth <- py_min2 growth_ratio (PNum 1) ;;
  num growth.

(** The body of the scoring loop. *)
Definition score_segment (max_evc max_market_size : pyval) (result : pyval)
  : Py.result PriorityScoreInfo :=
  segment_id <- py_get result "segment_id" PNone ;;
  segment_name <- py_get result "segment_name" PNone ;;
  normalized_evc <- normalize result "evc_value" max_evc ;;
  normalized_market_size <- normalize result "market_size" max_market_size ;;
  acquisition <- py_get result "acquisition_probability" (PNum 0) ;;
  market_analysis <- py_get result "market_analysis" (PDict []) ;;
  growth_rate <- py_get market_analysis "market_growth_rate" (PNum 0) ;;
  normalized_growth <- saturate growth_rate ;;
  normalized_acquisition <- num acquisition ;;
  let priority_score :=
    weighted_sum Qplus Qmult
      w_evc_value w_market_size w_acquisition_probability w_growth_potential
      normalized_evc normalized_market_size normalized_acquisition
      normalized_growth in
  raw_evc <- py_get result "evc_value" (PNum 0) ;;
  raw_market_size <- py_get result "market_size" (PNum 0) ;;
  raw_acquisition <- py_get result "acquisition_probability" (PNum 0) ;;
  Ok {| segment_id := segment_id;
        segment_name := segment_name;
        priority_score := priority_score;
        priority_rank := rank_of_score priority_score;
        sc_evc_value :=
          {| raw_value := raw_evc;
             normalized_value := normalized_evc;
             weight := w_evc_value;
             contribution := w_evc_value * normalized_evc |};
        sc_market_size :=
          {| raw_value := raw_market_size;
             normalized_value := normalized_market_size;
             weight := w_market_size;
             contribution := w_market_size * normalized_market_size |};
        sc_acquisition_probability :=
          {| raw_value := raw_acquisition;
             normalized_value := normalized_acquisition;
             weight := w_acquisition_probability;
             contribution :=
               w_acquisition_probability * normalized_acquisition |};
        sc_growth_potential :=
          {| raw_value := growth_rate;
             normalized_value := normalized_growth;
             weight := w_growth_potential;
             contribution := w_growth_potential * normalized_growth |} |}.

(** [priority_scores.sort(key=..., reverse=True)]: a stable sort, an
    element goes in front of the first one whose score is not larger. *)
Fixpoint insert_desc (x : PriorityScoreInfo) (l : list PriorityScoreInfo)
  : list PriorityScoreInfo :=
  match l with
  | [] => [x]
  | y :: l' =>
      if Qle_bool (priority_score y) (priority_score x)
      then x :: y :: l'
      else y :: insert_desc x l'
  end.

Definition sort_desc (l : list PriorityScoreInfo) : list PriorityScoreInfo :=
  fold_right insert_desc [] l.

Definition calculate_priority_scores
  (json_loads : string -> option pyval) (integrated_results : pyval)
  : result PriorityScores :=
  let processed_integrated_results :=
    parse_integrated_results json_loads integrated_results in
  max_evc <- batch_max "evc_value" integrated_results ;;
  max_market_size <- batch_max "market_size" integrated_results ;;
  max_potential <- batch_max "total_potential_value" integrated_results ;;
  items <- py_iter integrated_results ;;
  scores <- mapM (score_segment max_evc max_market_size) items ;;
  Ok {| priority_scores := sort_desc scores; weights := score_weights |}.

End PriorityEvaluation.

(** ** The priority scorer in binary64
       (nexasales_agents/priority_evaluation.py) *)

(** The scorer once more, with the arithmetic of Python's floats: every
    decimal literal is the float nearest to it, and every division,
    product and sum is rounded.  The numbers of the input are taken to be
    floats, or integers that binary64 holds exactly.  Parsing, the batch
    maxima and the sort compare numbers only and are those of
    [PriorityEvaluation]. *)
Module PriorityEvaluation64.
Import Py Float64.
Local Open Scope py_scope.

Definition w_evc_value : Q := round64 0.4.
Definition w_market_size : Q := round64 0.2.
Definition w_acquisition_probability : Q := round64 0.3.
Definition w_growth_potential : Q := round64 0.1.

Definition score_weights : list (string * Q) :=
  [ ("evc_value", w_evc_value);
    ("market_size", w_market_size);
    ("acquisition_probability", w_acquisition_probability);
    ("growth_potential", w_growth_potential) ].

(** The [if]/[elif] chain on the score. *)
Definition rank_of_score (priority_score : Q) : string :=
  if Qle_bool (round64 0.8) priority_score then PriorityEvaluation.rank_top
  else if Qle_bool (round64 0.6) priority_score
  then PriorityEvaluation.rank_high
  else if Qle_bool (round64 0.4) priority_score
  then PriorityEvaluation.rank_medium
  else if Qle_bool (round64 0.2) priority_score
  then PriorityEvaluation.rank_low
  else PriorityEvaluation.rank_lowest.

(** [result.get(key, 0) / max_value if max_value > 0 else 0] *)
Definition normalize (result : pyval) (key : string) (max_value : pyval)
  : Py.result Q :=
  positive <- py_gt max_value (PNum 0) ;;
  if positive : bool
  then value <- py_get result key (PNum 0) ;;
       quotient <- float_div value max_value ;;
       num quotient
  else Ok 0.

(** [min(growth_rate / 0.1, 1)] *)
Definition saturate (growth_rate : pyval) : Py.result Q :=
  growth_ratio <- float_div growth_rate (PNum (round64 0.1)) ;;
  growth <- py_min2 growth_ratio (PNum 1) ;;
  num growth.

(** The body of the scoring loop. *)
Definition score_segment (max_evc max_market_size : pyval) (result : pyval)
  : Py.result PriorityEvaluation.PriorityScoreInfo :=
  segment_id <- py_get result "segment_id" PNone ;;
  segment_name <- py_get result "segment_name" PNone ;;
  normalized_evc <- normalize result "evc_value" max_evc ;;
  normalized_market_size <- normalize result "market_size" max_market_size ;;
  acquisition <- py_get result "acquisition_probability" (PNum 0) ;;
  market_analysis <- py_get result "market_analysis" (PDict []) ;;
  growth_rate <- py_get market_analysis "market_growth_rate" (PNum 0) ;;
  normalized_growth <- saturate growth_rate ;;
  normalized_acquisition <- num acquisition ;;
  let priority_score :=
    PriorityEvaluation.weighted_sum fadd fmul
      w_evc_value w_market_size w_acquisition_probability w_growth_potential
      normalized_evc normalized_market_size normalized_acquisition
      normalized_growth in
  raw_evc <- py_get result "evc_value" (PNum 0) ;;
  raw_market_size <- py_get result "market_size" (PNum 0) ;;
  raw_acquisition <- py_get result "acquisition_probability" (PNum 0) ;;
  Ok {| PriorityEvaluation.segment_id := segment_id;
        PriorityEvaluation.segment_name := segment_name;
        PriorityEvaluation.priority_score := priority_score;
        PriorityEvaluation.priority_rank := rank_of_score priority_score;
        PriorityEvaluation.sc_evc_value :=
          {| PriorityEvaluation.raw_value := raw_evc;
             PriorityEvaluation.normalized_value := normalized_evc;
             PriorityEvaluation.weight := w_evc_value;
             PriorityEvaluation.contribution :=
               fmul w_evc_value normalized_evc |};
        PriorityEvaluation.sc_market_size :=
          {| PriorityEvaluation.raw_value := raw_market_size;
             PriorityEvaluation.normalized_value := normalized_market_size;
             PriorityEvaluation.weight := w_market_size;
             PriorityEvaluation.contribution :=
               fmul w_market_size normalized_market_size |};
        PriorityEvaluation.sc_acquisition_probability :=
          {| PriorityEvaluation.raw_value := raw_acquisition;
             PriorityEvaluation.normalized_value := normalized_acquisition;
             PriorityEvaluation.weight := w_acquisition_probability;
             PriorityEvaluation.contribution :=
               fmul w_acquisition_probability normalized_acquisition |};
        PriorityEvaluation.sc_growth_potential :=
          {| PriorityEvaluation.raw_value := growth_rate;
             PriorityEvaluation.normalized_value := normalized_growth;
             PriorityEvaluation.weight := w_growth_potential;
             PriorityEvaluation.contribution :=
               fmul w_growth_potential normalized_growth |} |}.

Definition calculate_priority_scores
  (json_loads : string -> option pyval) (integrated_results : pyval)
  : result PriorityEvaluation.PriorityScores :=
  let processed_integrated_results :=
    PriorityEvaluation.parse_integrated_results json_loads
      integrated_results in
  max_evc <- PriorityEvaluation.batch_max "evc_value" integrated_results ;;
  max_market_size <-
    PriorityEvaluation.batch_max "market_size" integrated_results ;;
  max_potential <-
    PriorityEvaluation.batch_max "total_potential_value"
      integrated_results ;;
  items <- py_iter integrated_results ;;
  scores <- mapM (score_segment max_evc max_market_size) items ;;
  Ok {| PriorityEvaluation.priority_scores :=
          PriorityEvaluation.sort_desc scores;
        PriorityEvaluation.weights := score_weights |}.

End PriorityEvaluation64.

(** ** The formula customizer (nexasales_agents/formula_design.py) *)

Module FormulaDesign.
Import Py.
Local Open Scope py_scope.

(** models.SegmentType *)
Inductive SegmentType : Type :=
| HIGH_VALUE_LOW_BARRIER
| HIGH_VALUE_HIGH_BARRIER
| LOW_VALUE_LOW_BARRIER
| LOW_VALUE_HIGH_BARRIER.

(** The value computed from the parameter name when the characteristics do
    not hold it. *)
Definition parameter_default (parameter_name : string)
  (is_enterprise is_high_value : bool) (default : pyval) : pyval :=
  if String.eqb parameter_name "annual_revenue" then
    if is_enterprise
    then PNum (if is_high_value then 1000000000 else 800000000)
    else PNum (if is_high_value then 200000000 else 50000000)
  else if String.eqb parameter_name "annual_cost" then
    if is_enterprise
    then PNum (if is_high_value then 500000000 else 400000000)
    else PNum (if is_high_value then 100000000 else 25000000)
  else if String.eqb parameter_name "revenue_increase_rate" then
    if is_high_value
    then PNum (if is_enterprise then 0.05 else 0.08)
    else PNum (if is_enterprise then 0.03 else 0.02)
  else if String.eqb parameter_name "cost_reduction_rate" then
    if is_high_value
    then PNum (if is_enterprise then 0.15 else 0.12)
    else PNum (if is_enterprise then 0.20 else 0.10)
  else if String.eqb parameter_name "reference_price" then
    PNum 15000
  else if String.eqb parameter_name "initial_cost" then
    if is_enterprise
    then PNum (if is_high_value then 500000 else 400000)
    else PNum (if is_high_value then 200000 else 100000)
  else if String.eqb parameter_name "operation_cost" then
    if is_enterprise
    then PNum (if is_high_value then 10000 else 8000)
    else PNum (if is_high_value then 5000 else 3000)
  else if String.eqb parameter_name "implementation_years" then
    PNum 3
  else default.

Definition extract_parameter_from_characteristics
  (characteristics : pyval) (parameter_name : string)
  (is_enterprise is_high_value : bool) (default : pyval) : result pyval :=
  present <- (if py_truthy characteristics
              then py_contains_key characteristics parameter_name
              else Ok false) ;;
  if present : bool
  then py_getitem_key characteristics parameter_name
  else Ok (parameter_default parameter_name is_enterprise is_high_value
             default).

Record FormulaComponent : Type := {
  description : pyval;
  calculation : pyval;
  weight : Q
}.

Record Adjustments : Type := {
  adj_R : Q;
  adj_Re : Q;
  adj_Co : Q;
  adj_I : Q
}.

Record CustomizedFormula : Type := {
  segment_id : string;
  segment_name : string;
  segment_type : SegmentType;
  base_formula : string;
  comp_R : FormulaComponent;
  comp_Re : FormulaComponent;
  comp_Co : FormulaComponent;
  comp_I : FormulaComponent;
  segment_specific_parameters : list (string * pyval);
  adjustment_justification : string
}.

(** [segment_id[1:]] *)
Definition tail (s : string) : string :=
  match s with
  | EmptyString => EmptyString
  | String _ s' => s'
  end.

(** The pair [(is_enterprise, is_high_value)] read off the segment id. *)
Definition segment_flags (segment_id : string) : bool * bool :=
  if startswith segment_id "s" && isdigit (tail segment_id)
  then let segment_num := int_of_digits (tail segment_id) in
       ((segment_num <=? 2)%Z, (segment_num mod 2 =? 1)%Z)
  else (is_substring "大企業" segment_id, is_substring "高価値" segment_id).

Definition adjustments_for (is_enterprise is_high_value : bool)
  : Adjustments :=
  {| adj_R := 1.0;
     adj_Re := 1.0 + (if is_high_value then 0.2 else -0.2);
     adj_Co := 1.0 + (if negb is_high_value then 0.2 else -0.1);
     adj_I := 1.0 + (if negb is_enterprise then 0.2 else -0.2) |}.

(** The free-text form of the characteristics: a label, a full-width or
    plain colon, then items separated by ideographic commas. *)
Definition read_characteristic (d : dict) (part : string) : dict :=
  let part := strip part in
  let d :=
    if is_substring "予算" part
    then dict_set d "budget"
           (PStr (if is_substring "豊富" part || is_substring "高い" part
                  then "high" else "low"))
    else d in
  let d :=
    if is_substring "意思決定" part
    then dict_set d "decision_making"
           (PStr (if is_substring "迅速" part then "fast" else "slow"))
    else d in
  if is_substring "ITリテラシー" part
  then dict_set d "it_literacy"
         (PStr (if is_substring "高い" part then "high" else "low"))
  else d.

Definition parse_characteristics_text (text : string) : dict :=
  let parts := if is_substring "：" text
               then split text "："
               else split text ":" in
  match parts with
  | _ :: second :: _ => fold_left read_characteristic (split second "、") []
  | _ => []
  end.

Section Parsing.

Variable json_loads : string -> option pyval.

(** Text in braces is read as JSON, a second time with its quotes
    repaired when the first reading fails. *)
Definition loads_with_repair (text : string) : option pyval :=
  match json_loads text with
  | Some v => Some v
  | None => json_loads (fix_quotes text)
  end.

Definition in_braces (text : string) : bool :=
  startswith (strip text) "{" && endswith (strip text) "}".

Definition parse_base_formula (base_formula : pyval) : pyval :=
  match base_formula with
  | PStr text =>
      if in_braces text
      then match loads_with_repair text with
           | Some v => v
           | None => PDict []
           end
      else PDict []
  | _ => PDict []
  end.

Definition parse_characteristics (segment_characteristics : pyval) : pyval :=
  match segment_characteristics with
  | PStr text =>
      if in_braces text
      then match loads_with_repair text with
           | Some v => v
           | None => PDict []
           end
      else PDict (parse_characteristics_text text)
  | _ => PDict []
  end.

End Parsing.

(** [components.get(key, {}).get(field, default)] *)
Definition component_field (components : pyval) (key field : string)
  (default : pyval) : result pyval :=
  component <- py_get components key (PDict []) ;;
  py_get component field default.

Definition customized_component (components : pyval) (key : string)
  (description calculation : string) (base_weight adjustment : Q)
  : result FormulaComponent :=
  d <- component_field components key "description" (PStr description) ;;
  c <- component_field components key "calculation" (PStr calculation) ;;
  w <- component_field components key "weight" (PNum base_weight) ;;
  weight <- py_mul w (PNum adjustment) ;;
  weight <- num weight ;;
  Ok {| description := d; calculation := c; weight := weight |}.

Definition value_type (is_high_value : bool) : string :=
  if is_high_value then "高価値" else "低価値".
Definition company_type (is_enterprise : bool) : string :=
  if is_enterprise then "大企業" else "中小企業".

Definition justification (is_enterprise is_high_value : bool) : string :=
  company_type is_enterprise ++ "・" ++ value_type is_high_value ++
  (if is_high_value && is_enterprise
   then "セグメントは収益向上価値を重視し、導入コストへの感度が低い"
   else if negb is_high_value && is_enterprise
   then "セグメントはコスト最適化価値を重視し、収益向上価値への感度が低い"
   else if is_high_value && negb is_enterprise
   then "セグメントは収益向上価値を重視するが、導入コストへの感度も高い"
   else "セグメントはコスト削減をある程度重視するが、導入コストへの感度が非常に高い").

Definition segment_type_and_name (is_enterprise is_high_value : bool)
  : SegmentType * string :=
  if is_high_value && is_enterprise
  then (HIGH_VALUE_LOW_BARRIER, "高価値・低障壁")
  else if is_high_value && negb is_enterprise
  then (HIGH_VALUE_HIGH_BARRIER, "高価値・高障壁")
  else if negb is_high_value && is_enterprise
  then (LOW_VALUE_LOW_BARRIER, "低価値・低障壁")
  else (LOW_VALUE_HIGH_BARRIER, "低価値・高障壁").

(** The component table of a parsed base formula, the empty dictionary
    when it has none or looking for it raises. *)
Definition base_components (base_formula_dict : pyval) : pyval :=
  try_except
    (if py_truthy base_formula_dict
     then has <- py_contains_key base_formula_dict "components" ;;
          if has : bool
          then py_getitem_key base_formula_dict "components"
          else Ok (PDict [])
     else Ok (PDict []))
    (PDict []).

Definition parameter_names : list (string * pyval) :=
  [ ("annual_revenue", PNone);
    ("annual_cost", PNone);
    ("implementation_years", PNum 3);
    ("revenue_increase_rate", PNone);
    ("cost_reduction_rate", PNone);
    ("reference_price", PNone);
    ("initial_cost", PNone);
    ("operation_cost", PNone) ].

Definition customize_formula_for_segment
  (json_loads : string -> option pyval)
  (segment_id : string) (base_formula segment_characteristics : pyval)
  : result CustomizedFormula :=
  let base_formula_dict := parse_base_formula json_loads base_formula in
  let '(is_enterprise, is_high_value) := segment_flags segment_id in
  let characteristics_dict :=
    parse_characteristics json_loads segment_characteristics in
  let adjustments := adjustments_for is_enterprise is_high_value in
  let '(segment_type, segment_name) :=
    segment_type_and_name is_enterprise is_high_value in
  let components := base_components base_formula_dict in
  R <- customized_component components "R"
         "参照価格" "市場平均価格" 1.0 (adj_R adjustments) ;;
  Re <- customized_component components "Re"
          "収益向上価値" "売上増加率 × 年間売上 × 導入年数"
          1.2 (adj_Re adjustments) ;;
  Co <- customized_component components "Co"
          "コスト最適化価値" "コスト削減率 × 年間コスト × 導入年数"
          1.0 (adj_Co adjustments) ;;
  I <- customized_component components "I"
         "導入コスト" "初期費用 + 運用コスト × 導入年数"
         0.9 (adj_I adjustments) ;;
  parameters <-
    mapM (fun '(name, default) =>
            v <- extract_parameter_from_characteristics
                   characteristics_dict name is_enterprise is_high_value
                   default ;;
            Ok (name, v))
         parameter_names ;;
  Ok {| segment_id := segment_id;
        segment_name := segment_name;
        segment_type := segment_type;
        base_formula := "EVC = R + (Re + Co) - I";
        comp_R := R;
        comp_Re := Re;
        comp_Co := Co;
        comp_I := I;
        segment_specific_parameters := parameters;
        adjustment_justification :=
          justification is_enterprise is_high_value |}.

End FormulaDesign.

(** ** The market potential estimator (nexasales_agents/market_potential.py) *)

Module MarketPotential.
Import Py.
Local Open Scope py_scope.

(** The text of the [message] entry of an error result: the text of the
    exception that was caught, or a fixed sentence. *)
Inductive Message : Type :=
| ExceptionText
| Text (s : string).

Record Triple : Type := {
  min : Q;
  expected : Q;
  max : Q
}.

Record Potential : Type := {
  segment_id : string;
  companies : pyval;
  acquisition_rate : pyval;
  evc_value : pyval;
  potential_value : Triple;
  calculation_formula : string
}.

(** What the tool returns: a dictionary with the keys [error] and
    [message], or the potential of the segment. *)
Inductive SegmentPotential : Type :=
| ErrorResult (error : string) (message : Message)
| PotentialResult (p : Potential).

Definition has_error_key (r : SegmentPotential) : bool :=
  match r with
  | ErrorResult _ _ => true
  | PotentialResult _ => false
  end.

(** [json.loads(x)] inside [try]: a value that is not text makes
    [json.loads] raise as well. *)
Definition loads (json_loads : string -> option pyval) (x : pyval)
  : option pyval :=
  match x with
  | PStr text => json_loads text
  | _ => None
  end.

(** [company_estimate[k] * acquisition_rate[k] * evc_value] *)
Definition potential_at (company_estimate acquisition_rate evc_value : pyval)
  (k : string) : result Q :=
  c <- py_getitem_key company_estimate k ;;
  a <- py_getitem_key acquisition_rate k ;;
  ca <- py_mul c a ;;
  p <- py_mul ca evc_value ;;
  num p.

Section Estimators.

Variable json_loads : string -> option pyval.

(** The two estimates come from a language-model service; the two
    functions that ask for them are taken as given, with the segment id
    and the parsed segment data as input. *)
Variable estimate_companies_with_ai : string -> pyval -> result pyval.
Variable estimate_acquisition_rate_with_ai : string -> pyval -> result pyval.

Definition calculate_segment_potential
  (segment_id : string) (evc_result segment_info : pyval)
  : result SegmentPotential :=
  match loads json_loads segment_info with
  | None => Ok (ErrorResult "データ形式が不正です" ExceptionText)
  | Some segment_data =>
  match loads json_loads evc_result with
  | None => Ok (ErrorResult "データ形式が不正です" ExceptionText)
  | Some evc_data =>
      checked <- py_get evc_data "evc_value" PNone ;;
      if negb (py_truthy checked)
      then Ok (ErrorResult "EVC値が見つかりません"
                 (Text "有効なEVC計算結果が必要です"))
      else
        evc_value <- py_get evc_data "evc_value" PNone ;;
        company_estimate <-
          estimate_companies_with_ai segment_id segment_data ;;
        acquisition_rate <-
          estimate_acquisition_rate_with_ai segment_id segment_data ;;
        min_potential <-
          potential_at company_estimate acquisition_rate evc_value "min" ;;
        expected_potential <-
          potential_at company_estimate acquisition_rate evc_value
            "expected" ;;
        max_potential <-
          potential_at company_estimate acquisition_rate evc_value "max" ;;
        Ok (PotentialResult
              {| segment_id := segment_id;
                 companies := company_estimate;
                 acquisition_rate := acquisition_rate;
                 evc_value := evc_value;
                 potential_value :=
                   {| min := min_potential;
                      expected := expected_potential;
                      max := max_potential |};
                 calculation_formula :=
                   "ポテンシャル = 企業数 × 獲得率 × EVC" |})
  end
  end.

End Estimators.

(** The estimates used when the answer of the service cannot be parsed. *)
Definition default_logic : string :=
  "AIレスポンスの解析に失敗したため、デフォルト値を設定しました。".
Definition default_companies : pyval :=
  PDict [("min", PNum 100); ("expected", PNum 500); ("max", PNum 1000);
         ("logic", PStr default_logic)].
Definition default_acquisition_rate : pyval :=
  PDict [("min", PNum 0.05); ("expected", PNum 0.15); ("max", PNum 0.30);
         ("logic", PStr default_logic)].

End MarketPotential.

(** ** The EVC calculator (tools/evc_tools.py) *)

Module EvcTools.
Import Py.
Local Open Scope py_scope.

Notation "x +! y" := (lift2 py_add x y) (at level 50, left associativity).
Notation "x -! y" := (lift2 py_sub x y) (at level 50, left associativity).
Notation "x *! y" := (lift2 py_mul x y) (at level 40, left associativity).
Notation "x /! y" := (lift2 py_div x y) (at level 40, left associativity).

(** The dictionary [param_values]: its keys come from the configuration
    and need not be strings. *)
Definition param_dict : Type := list (pyval * pyval).

Fixpoint pdict_set (d : param_dict) (k v : pyval) : param_dict :=
  match d with
  | [] => [(k, v)]
  | (k', v') :: d' =>
      if py_eqb k' k then (k', v) :: d' else (k', v') :: pdict_set d' k v
  end.

Fixpoint pdict_get (d : param_dict) (k : string) : option pyval :=
  match d with
  | [] => None
  | (k', v) :: d' => if py_eqb k' (PStr k) then Some v else pdict_get d' k
  end.

Definition pdict_mem (d : param_dict) (k : string) : bool :=
  match pdict_get d k with
  | Some _ => true
  | None => false
  end.

Record ComponentInfo : Type := {
  ci_value : Q;
  ci_formula : pyval;
  ci_parameters : param_dict
}.

Record ValueComponent : Type := {
  name : string;
  description : string;
  formula : string;
  value : Q;
  total_value : Q;
  sub_components : list (string * ComponentInfo);
  adjustment : pyval
}.

Record EVCComponents : Type := {
  reference_price : Q;
  revenue_enhancement : ValueComponent;
  cost_optimization : ValueComponent;
  implementation_cost : Q
}.

Record CalculationDetails : Type := {
  cd_formula : string;
  cd_evc_value : Q;
  cd_reference_price : Q;
  cd_revenue_enhancement_value : Q;
  cd_cost_optimization_value : Q;
  cd_implementation_cost : Q
}.

Record EVCResult : Type := {
  segment_id : string;
  segment_name : string;
  evc_value : Q;
  components : EVCComponents;
  calculation_details : CalculationDetails
}.

(** *** Reading the parameters *)

Definition is_digit_or_dot (c : ascii) : bool :=
  is_digit c || Ascii.eqb c "."%char.

(** The value of a [key: value] pair: text made of digits and dots is
    read as a number when [float] or [int] accepts it. *)
Definition convert_value (value : string) : pyval :=
  if negb (String.eqb value EmptyString) && all_chars is_digit_or_dot value
  then if is_substring "." value
       then match float_of_decimal value with
            | Ok q => PNum q
            | Raise _ => PStr value
            end
       else PNum (inject_Z (int_of_digits value))
  else PStr value.

Definition read_pair (d : dict) (pair : string) : dict :=
  if is_substring ":" pair
  then match split1 pair ":" with
       | (key, Some value) =>
           dict_set d (strip key) (convert_value (strip value))
       | (_, None) => d
       end
  else d.

Definition parse_key_values (text : string) : dict :=
  fold_left read_pair (split text ",") [].

Definition parse_parameters (json_loads : string -> option pyval)
  (parameters : pyval) : pyval :=
  match parameters with
  | PDict d => PDict d
  | PStr text =>
      if startswith (strip text) "{" && endswith (strip text) "}"
      then match json_loads text with
           | Some v => v
           | None =>
               match json_loads (fix_quotes text) with
               | Some v => v
               | None => PDict []
               end
           end
      else PDict (parse_key_values text)
  | _ => PDict []
  end.

(** *** The components of a value *)

(** [params_dict.get(param)]: a list or dictionary cannot be hashed. *)
Definition lookup_param (params_dict : pyval) (param : pyval)
  : result pyval :=
  match param with
  | PStr k => py_get params_dict k PNone
  | PList _ | PDict _ =>
      match params_dict with
      | PDict _ => Raise TypeError
      | _ => Raise AttributeError
      end
  | _ =>
      match params_dict with
      | PDict _ => Ok PNone
      | _ => Raise AttributeError
      end
  end.

Fixpoint collect_into (params_dict : pyval) (param_values : param_dict)
  (names : list pyval) : result param_dict :=
  match names with
  | [] => Ok param_values
  | param :: names' =>
      v <- lookup_param params_dict param ;;
      collect_into params_dict (pdict_set param_values param v) names'
  end.

(** [for param in config.get("parameters", []):
       param_values[param] = params_dict.get(param)] *)
Definition collect_params (params_dict config : pyval) : result param_dict :=
  listed <- py_get config "parameters" (PList []) ;;
  names <- py_iter listed ;;
  collect_into params_dict [] names.

(** One calculation mode of a component: its name, the parameters it
    needs, and its expression over [param_values]. *)
Record Mode : Type := {
  mode_name : string;
  required : list string;
  evaluate : (string -> result pyval) -> result pyval
}.

Definition custom_mode : Mode :=
  {| mode_name := "custom";
     required := ["calculated_value"];
     evaluate := fun p => p "calculated_value" |}.

Definition new_revenue_modes : list Mode :=
  [ {| mode_name := "standard";
       required := ["new_customers"; "average_customer_value";
                    "new_products"; "product_revenue"];
       evaluate := fun p =>
         p "new_customers" *! p "average_customer_value"
         +! p "new_products" *! p "product_revenue" |};
    {| mode_name := "saas";
       required := ["new_customers"; "average_arpu"; "expansion_revenue"];
       evaluate := fun p =>
         p "new_customers" *! p "average_arpu" +! p "expansion_revenue" |};
    {| mode_name := "manufacturing";
       required := ["new_clients"; "units_per_client"; "unit_price"];
       evaluate := fun p =>
         p "new_clients" *! p "units_per_client" *! p "unit_price" |};
    custom_mode ].

Definition retention_revenue_modes : list Mode :=
  [ {| mode_name := "standard";
       required := ["retained_customers"; "customer_lifetime_value"];
       evaluate := fun p =>
         p "retained_customers" *! p "customer_lifetime_value" |};
    {| mode_name := "subscription";
       required := ["churn_reduction"; "current_customers";
                    "annual_contract_value"];
       evaluate := fun p =>
         p "churn_reduction" *! p "current_customers"
         *! p "annual_contract_value" |};
    custom_mode ].

Definition pricing_revenue_modes : list Mode :=
  [ {| mode_name := "standard";
       required := ["price_increase"; "customer_base";
                    "revenue_per_customer"];
       evaluate := fun p =>
         p "price_increase" *! p "customer_base"
         *! p "revenue_per_customer" |};
    {| mode_name := "premium";
       required := ["price_premium"; "target_segment_size";
                    "revenue_per_customer"];
       evaluate := fun p =>
         p "price_premium" *! p "target_segment_size"
         *! p "revenue_per_customer" |};
    custom_mode ].

Definition transaction_revenue_modes : list Mode :=
  [ {| mode_name := "standard";
       required := ["transaction_increase"; "customer_base";
                    "average_transaction_value"];
       evaluate := fun p =>
         p "transaction_increase" *! p "customer_base"
         *! p "average_transaction_value" |};
    custom_mode ].

Definition direct_cost_reduction_modes : list Mode :=
  [ {| mode_name := "standard";
       required := ["manual_hours"; "automated_hours"; "hourly_rate";
                    "resource_savings"];
       evaluate := fun p =>
         (p "manual_hours" -! p "automated_hours") *! p "hourly_rate"
         +! p "resource_savings" |};
    {| mode_name := "cloud_migration";
       required := ["infrastructure_cost_current";
                    "infrastructure_cost_cloud"; "maintenance_reduction"];
       evaluate := fun p =>
         (p "infrastructure_cost_current" -! p "infrastructure_cost_cloud")
         +! p "maintenance_reduction" |};
    custom_mode ].

Definition quality_cost_reduction_modes : list Mode :=
  [ {| mode_name := "standard";
       required := ["defect_reduction"; "defect_cost";
                    "complaint_reduction"; "complaint_cost"];
       evaluate := fun p =>
         p "defect_reduction" *! p "defect_cost"
         +! p "complaint_reduction" *! p "complaint_cost" |};
    {| mode_name := "six_sigma";
       required := ["sigma_improvement"; "defect_rate_reduction";
                    "quality_cost_per_defect"; "production_volume"];
       evaluate := fun p =>
         p "defect_rate_reduction" *! p "quality_cost_per_defect"
         *! p "production_volume" |};
    custom_mode ].

Definition risk_cost_reduction_modes : list Mode :=
  [ {| mode_name := "standard";
       required := ["risk_reduction_factor"; "risk_exposure_value"];
       evaluate := fun p =>
         p "risk_reduction_factor" *! p "risk_exposure_value" |};
    {| mode_name := "compliance";
       required := ["compliance_penalty_reduction";
                    "incident_probability_reduction";
                    "average_incident_cost"];
       evaluate := fun p =>
         p "compliance_penalty_reduction"
         +! p "incident_probability_reduction"
            *! p "average_incident_cost" |};
    custom_mode ].

Definition time_cost_reduction_modes : list Mode :=
  [ {| mode_name := "standard";
       required := ["decision_time_savings"; "opportunity_cost_rate"];
       evaluate := fun p =>
         p "decision_time_savings" *! p "opportunity_cost_rate" |};
    {| mode_name := "process_improvement";
       required := ["process_time_reduction"; "process_frequency";
                    "employee_cost_per_hour"];
       evaluate := fun p =>
         p "process_time_reduction" *! p "process_frequency"
         *! p "employee_cost_per_hour" /! Ok (PNum 60) |};
    custom_mode ].

Definition revenue_blocks : list (string * list Mode) :=
  [ ("new_revenue", new_revenue_modes);
    ("retention_revenue", retention_revenue_modes);
    ("pricing_revenue", pricing_revenue_modes);
    ("transaction_revenue", transaction_revenue_modes) ].

Definition cost_blocks : list (string * list Mode) :=
  [ ("direct_cost_reduction", direct_cost_reduction_modes);
    ("quality_cost_reduction", quality_cost_reduction_modes);
    ("risk_cost_reduction", risk_cost_reduction_modes);
    ("time_cost_reduction", time_cost_reduction_modes) ].

(** The three dictionaries filled while the components of one value are
    computed: the values, the formulas and the parameters by component. *)
Record Acc : Type := {
  acc_values : list (string * Q);
  acc_formulas : dict;
  acc_parameters : list (string * param_dict)
}.

Definition empty_acc : Acc :=
  {| acc_values := []; acc_formulas := []; acc_parameters := [] |}.

Definition param_lookup (param_values : param_dict) (k : string)
  : result pyval :=
  match pdict_get param_values k with
  | Some v => Ok v
  | None => Raise KeyError
  end.

(** The [if]/[elif] chain on [calculation_function]: the first mode of
    that name is the only one tried; it yields a value when all its
    parameters are keys of [param_values]. *)
Definition apply_mode (modes : list Mode) (calculation_function : pyval)
  (param_values : param_dict) (adjustments : pyval) (adj_key : string)
  : result (option Q) :=
  match find (fun m => py_eqb calculation_function (PStr (mode_name m)))
          modes with
  | Some m =>
      if forallb (pdict_mem param_values) (required m)
      then v <- evaluate m (param_lookup param_values) ;;
           a <- py_getitem_key adjustments adj_key ;;
           r <- py_mul v a ;;
           q <- num r ;;
           Ok (Some q)
      else Ok None
  | None => Ok None
  end.

Definition record_value (values : list (string * Q)) (name : string)
  (v : option Q) : list (string * Q) :=
  match v with
  | Some q => dict_set values name q
  | None => values
  end.

(** One of the four fixed blocks of a value. *)
Definition component_block (params_dict component_config adjustments : pyval)
  (adj_key : string) (acc : Acc) (block : string * list Mode) : result Acc :=
  let '(name, modes) := block in
  has <- py_contains_key component_config name ;;
  if has : bool
  then config <- py_getitem_key component_config name ;;
       formula <- py_get config "formula" PNone ;;
       param_values <- collect_params params_dict config ;;
       calculation_function <- py_get config "calculation_function" PNone ;;
       v <- apply_mode modes calculation_function param_values
              adjustments adj_key ;;
       Ok {| acc_values := record_value (acc_values acc) name v;
             acc_formulas := dict_set (acc_formulas acc) name formula;
             acc_parameters :=
               dict_set (acc_parameters acc) name param_values |}
  else Ok acc.

(** One turn of the loop over [custom_components]; the component is
    looked for in the argument [parameters] as it was received.  A name
    found there is a string: a name that is not a string is found in a
    list only, and the loop has no turn when [parameters] is a list. *)
Definition custom_component (params_dict parameters adjustments : pyval)
  (adj_key : string) (acc : Acc) (component_name : pyval) : result Acc :=
  has <- py_contains parameters component_name ;;
  if has : bool
  then match component_name with
       | PStr name =>
           config <- py_getitem_key parameters name ;;
           formula <- py_get config "formula" PNone ;;
           param_values <- collect_params params_dict config ;;
           calculated <- py_contains_key config "calculated_value" ;;
           v <- (if calculated : bool
                 then c <- py_getitem_key config "calculated_value" ;;
                      a <- py_getitem_key adjustments adj_key ;;
                      r <- py_mul c a ;;
                      q <- num r ;;
                      Ok (Some q)
                 else Ok None) ;;
           Ok {| acc_values := record_value (acc_values acc) name v;
                 acc_formulas := dict_set (acc_formulas acc) name formula;
                 acc_parameters :=
                   dict_set (acc_parameters acc) name param_values |}
       | _ => Raise TypeError
       end
  else Ok acc.

Fixpoint foldM {A B : Type} (f : A -> B -> result A) (a : A) (l : list B)
  : result A :=
  match l with
  | [] => Ok a
  | x :: l' => a' <- f a x ;; foldM f a' l'
  end.

(** The components of one value: the four blocks, then the custom ones. *)
Definition value_components (params_dict parameters adjustments : pyval)
  (config_key adj_key : string) (blocks : list (string * list Mode))
  : result Acc :=
  component_config <- py_get params_dict config_key (PDict []) ;;
  acc <- foldM (component_block params_dict component_config adjustments
                  adj_key) empty_acc blocks ;;
  custom_components <-
    py_get component_config "custom_components" (PList []) ;;
  names <- py_iter custom_components ;;
  foldM (custom_component params_dict parameters adjustments adj_key)
    acc names.

(** [sum(d.values()) if d else 0] *)
Definition total (values : list (string * Q)) : Q :=
  fold_left Qplus (dict_values values) 0.

(** [prefix + " + ".join(keys)] *)
Fixpoint join_plus (keys : list string) : string :=
  match keys with
  | [] => EmptyString
  | [k] => k
  | k :: keys' => k ++ " + " ++ join_plus keys'
  end.

Definition component_infos (acc : Acc) : list (string * ComponentInfo) :=
  map (fun '(component_name, v) =>
         (component_name,
          {| ci_value := v;
             ci_formula :=
               match dict_get (acc_formulas acc) component_name with
               | Some f => f
               | None => PStr EmptyString
               end;
             ci_parameters :=
               match dict_get (acc_parameters acc) component_name with
               | Some ps => ps
               | None => []
               end |}))
      (acc_values acc).

Definition value_component (name description symbol : string) (acc : Acc)
  (adjustment : pyval) : ValueComponent :=
  {| name := name;
     description := description;
     formula := symbol ++ " = " ++ join_plus (dict_keys (acc_values acc));
     value := total (acc_values acc);
     total_value := total (acc_values acc);
     sub_components := component_infos acc;
     adjustment := adjustment |}.

Definition segment_names : list (string * string) :=
  [ ("s1", "大企業・高価値");
    ("s2", "大企業・低価値");
    ("s3", "中小企業・高価値");
    ("s4", "中小企業・低価値") ].

Definition default_adjustments : pyval :=
  PDict [("Re", PNum 1.0); ("Co", PNum 1.0); ("I", PNum 1.0)].

(** [segment_adjustments.get(segment_id, default_adjustments)] *)
Definition adjustments_of (params_dict : pyval) (segment_id : string)
  : result pyval :=
  segment_adjustments <- py_get params_dict "segment_adjustments" (PDict []) ;;
  py_get segment_adjustments segment_id default_adjustments.

(** [(initial_cost + recurring_cost * implementation_years)
      * adjustments["I"]] *)
Definition implementation_cost_of (params_dict adjustments : pyval)
  (implementation_years : pyval) : result Q :=
  initial_cost <- py_get params_dict "initial_cost" (PNum 0) ;;
  recurring_cost <- py_get params_dict "recurring_cost" (PNum 0) ;;
  v <- (Ok initial_cost +! Ok recurring_cost *! Ok implementation_years)
       *! py_getitem_key adjustments "I" ;;
  num v.

Definition calculate_evc (json_loads : string -> option pyval)
  (segment_id : string) (formula parameters : pyval) : result EVCResult :=
  let params_dict := parse_parameters json_loads parameters in
  reference_price <- py_get params_dict "reference_price" (PNum 0) ;;
  adjustments <- adjustments_of params_dict segment_id ;;
  implementation_years <- py_get params_dict "implementation_years" PNone ;;
  revenue <- value_components params_dict parameters adjustments
               "revenue_components" "Re" revenue_blocks ;;
  let revenue_enhancement_value := total (acc_values revenue) in
  cost <- value_components params_dict parameters adjustments
            "cost_components" "Co" cost_blocks ;;
  let cost_optimization_value := total (acc_values cost) in
  implementation_cost_value <-
    implementation_cost_of params_dict adjustments implementation_years ;;
  evc <- Ok reference_price
         +! Ok (PNum (revenue_enhancement_value + cost_optimization_value))
         -! Ok (PNum implementation_cost_value) ;;
  evc_value <- num evc ;;
  adjustment_Re <- py_getitem_key adjustments "Re" ;;
  adjustment_Co <- py_getitem_key adjustments "Co" ;;
  reference <- num reference_price ;;
  Ok {| segment_id := segment_id;
        segment_name :=
          match dict_get segment_names segment_id with
          | Some n => n
          | None => "セグメント " ++ segment_id
          end;
        evc_value := evc_value;
        components :=
          {| reference_price := reference;
             revenue_enhancement :=
               value_component "収益向上価値"
                 "サービス導入による売上向上効果" "Re" revenue adjustment_Re;
             cost_optimization :=
               value_component "コスト最適化価値"
                 "サービス導入によるコスト削減効果" "Co" cost adjustment_Co;
             implementation_cost := implementation_cost_value |};
        calculation_details :=
          {| cd_formula := "EVC = R + (Re + Co) - I";
             cd_evc_value := evc_value;
             cd_reference_price := reference;
             cd_revenue_enhancement_value := revenue_enhancement_value;
             cd_cost_optimization_value := cost_optimization_value;
             cd_implementation_cost := implementation_cost_value |} |}.

End EvcTools.

(** ** The formula validator (nexasales_agents/formula_design.py) *)

Module FormulaValidation.
Import Py FormulaDesign.
Local Open Scope py_scope.

Record ValidationResult : Type := {
  is_valid : bool;
  issues : list string;
  recommendations : list string
}.

(** The formula given as a plain formula, for the validator. *)
Definition simple_formula (text : string) : pyval :=
  PDict
    [ ("base_formula", PStr (strip text));
      ("components",
       PDict [ ("R", PDict [("weight", PNum 1.0)]);
               ("Re", PDict [("weight", PNum 1.0)]);
               ("Co", PDict [("weight", PNum 1.0)]);
               ("I", PDict [("weight", PNum 1.0)]) ]);
      ("segment_specific_parameters", PDict []) ].

(** The formula read as a dictionary: text in braces is parsed, other
    text holding an equals sign stands for a plain formula, and a value
    that is not text is used as it is. *)
Definition parse_formula (json_loads : string -> option pyval)
  (formula : pyval) : pyval :=
  match formula with
  | PStr text =>
      if in_braces text
      then match loads_with_repair json_loads text with
           | Some v => v
           | None => PDict []
           end
      else if is_substring "=" text
      then simple_formula text
      else PDict []
  | _ => formula
  end.

Definition accepted : ValidationResult :=
  {| is_valid := true; issues := []; recommendations := [] |}.

(** [validation_result["is_valid"] = False] and
    [validation_result["issues"].append(issue)] *)
Definition report (r : ValidationResult) (issue : string)
  : ValidationResult :=
  {| is_valid := false;
     issues := issues r ++ [issue];
     recommendations := recommendations r |}.

(** [validation_result["recommendations"].append(text)] *)
Definition recommend (r : ValidationResult) (text : string)
  : ValidationResult :=
  {| is_valid := is_valid r;
     issues := issues r;
     recommendations := recommendations r ++ [text] |}.

Definition required_components : list string := ["R"; "Re"; "Co"; "I"].

Definition required_params : list string :=
  [ "annual_revenue"; "annual_cost"; "implementation_years";
    "revenue_increase_rate"; "cost_reduction_rate"; "reference_price";
    "initial_cost"; "operation_cost" ].

Definition missing_component (component : string) : string :=
  "必須コンポーネント '" ++ component ++ "' が定義されていません".
Definition missing_weight (component : string) : string :=
  "コンポーネント '" ++ component ++ "' の重みが定義されていません".
Definition weight_not_positive (component : string) : string :=
  "コンポーネント '" ++ component ++ "' の重みは正の値である必要があります".
Definition missing_param (param : string) : string :=
  "必須パラメータ '" ++ param ++ "' が定義されていません".

(** One turn of the loop over the required components. *)
Definition check_component (components : pyval) (r : ValidationResult)
  (component : string) : result ValidationResult :=
  present <- py_contains_key components component ;;
  if negb present
  then Ok (report r (missing_component component))
  else component_data <- py_getitem_key components component ;;
       weighted <- py_contains_key component_data "weight" ;;
       if negb weighted
       then Ok (report r (missing_weight component))
       else weight <- py_getitem_key component_data "weight" ;;
            not_positive <- py_le weight (PNum 0) ;;
            if not_positive : bool
            then Ok (report r (weight_not_positive component))
            else Ok r.

(** One turn of the loop over the required parameters. *)
Definition check_param (segment_params : pyval) (r : ValidationResult)
  (param : string) : result ValidationResult :=
  present <- py_contains_key segment_params param ;;
  Ok (if negb present then report r (missing_param param) else r).

(** [if formula_dict.get("segment_id") == segment:
       if components.get(key, {}).get("weight", 1.0) < bound:
         recommendations.append(text)] *)
Definition recommend_for (formula_dict components : pyval)
  (segment key : string) (bound : Q) (text : string) (r : ValidationResult)
  : result ValidationResult :=
  segment_id <- py_get formula_dict "segment_id" PNone ;;
  if py_eqb segment_id (PStr segment)
  then component <- py_get components key (PDict []) ;;
       weight <- py_get component "weight" (PNum 1.0) ;;
       low <- py_lt weight (PNum bound) ;;
       Ok (if low : bool then recommend r text else r)
  else Ok r.

Definition advice_s4 : string :=
  "中小企業・低価値セグメントでは、導入コストの重みをより高く設定することを検討してください".
Definition advice_s1 : string :=
  "大企業・高価値セグメントでは、収益向上価値の重みをより高く設定することを検討してください".

Definition validate_formula (json_loads : string -> option pyval)
  (formula : pyval) : result ValidationResult :=
  let formula_dict := parse_formula json_loads formula in
  has_base_formula <- py_contains_key formula_dict "base_formula" ;;
  let r := if negb has_base_formula
           then report accepted "基本フォーミュラが定義されていません"
           else accepted in
  has_components <- py_contains_key formula_dict "components" ;;
  let r := if negb has_components
           then report r "フォーミュラのコンポーネントが定義されていません"
           else r in
  components <- py_get formula_dict "components" (PDict []) ;;
  r <- EvcTools.foldM (check_component components) r required_components ;;
  segment_params <-
    py_get formula_dict "segment_specific_parameters" (PDict []) ;;
  r <- EvcTools.foldM (check_param segment_params) r required_params ;;
  r <- recommend_for formula_dict components "s4" "I" 1.2 advice_s4 r ;;
  recommend_for formula_dict components "s1" "Re" 1.1 advice_s1 r.

End FormulaValidation.

(** ** The EVC calculation agent (nexasales_agents/evc_calculation.py) *)

Module EvcCalculation.
Import Py EvcTools.
Local Open Scope py_scope.

(** A document given as text in braces or as a dictionary; anything
    else, and text that cannot be read, counts as the empty dictionary. *)
Definition parse_document (json_loads : string -> option pyval)
  (document : pyval) : pyval :=
  match document with
  | PStr text =>
      if FormulaDesign.in_braces text
      then match FormulaDesign.loads_with_repair json_loads text with
           | Some v => v
           | None => PDict []
           end
      else PDict []
  | PDict d => PDict d
  | _ => PDict []
  end.

Definition prepare_segment_parameters (json_loads : string -> option pyval)
  (segment_id : string) (formula market_data : pyval) : result pyval :=
  let formula_dict := parse_document json_loads formula in
  let market_data_dict := parse_document json_loads market_data in
  segment_params <-
    py_get formula_dict "segment_specific_parameters" (PDict []) ;;
  parameters <- (if py_truthy segment_params
                 then py_copy segment_params
                 else Ok (PDict [])) ;;
  segment_num <- int_of_string (remove_char "s"%char segment_id) ;;
  let is_enterprise := (segment_num <=? 2)%Z in
  let is_high_value := (segment_num mod 2 =? 1)%Z in
  Ok parameters.

(** An element of the list given to the analysis: a result of
    [calculate_evc], or any other value, which has none of its
    attributes. *)
Inductive Obj : Type :=
| Model (r : EVCResult)
| Plain (v : pyval).

(** [o.attribute] *)
Definition attr {A : Type} (o : Obj) (attribute : EVCResult -> A)
  : result A :=
  match o with
  | Model r => Ok (attribute r)
  | Plain _ => Raise AttributeError
  end.

Record Share : Type := {
  share_value : Q;
  percentage : Q
}.

Record Contributions : Type := {
  of_reference_price : Share;
  of_revenue_enhancement : Share;
  of_cost_optimization : Share;
  of_implementation_cost : Share
}.

Record Comparison : Type := {
  cmp_evc_value : Q;
  relative_to_average : Q;
  percentage_of_max : Q
}.

Record MaxEvc : Type := {
  max_value : Q;
  max_segment_id : option string;
  max_segment_name : option string
}.

Record Summary : Type := {
  max_evc : MaxEvc;
  min_evc : Q;
  average_evc : Q;
  evc_range : Q
}.

Record Analysis : Type := {
  summary : Summary;
  segment_comparison : list (string * Comparison);
  component_contributions : list (string * Contributions);
  key_insights : list string
}.

(** [{result.segment_id: result.evc_value for result in results}] *)
Definition evc_values_of (results : list Obj) : result (list (string * Q)) :=
  foldM (fun evc_values result =>
           id <- attr result segment_id ;;
           v <- attr result evc_value ;;
           Ok (dict_set evc_values id v))
        [] results.

(** [max(values)] and [min(values)]: the first of the largest, and of
    the smallest, elements. *)
Definition largest (values : list Q) : Q :=
  match values with
  | [] => 0
  | v :: values' =>
      fold_left (fun cur x => if Qlt_bool cur x then x else cur) values' v
  end.

Definition smallest (values : list Q) : Q :=
  match values with
  | [] => 0
  | v :: values' =>
      fold_left (fun cur x => if Qlt_bool x cur then x else cur) values' v
  end.

(** [sum(values) / len(values)] *)
Definition average (values : list Q) : Q :=
  fold_left Qplus values 0 / inject_Z (Z.of_nat (List.length values)).

(** [next((result for result in results if result.evc_value == max_evc),
          None)] *)
Fixpoint first_at (max_evc : Q) (results : list Obj)
  : result (option EVCResult) :=
  match results with
  | [] => Ok None
  | result :: results' =>
      v <- attr result evc_value ;;
      if Qeq_bool v max_evc
      then match result with
           | Model r => Ok (Some r)
           | Plain _ => Raise AttributeError
           end
      else first_at max_evc results'
  end.

(** [x / total if total > 0 else 0] *)
Definition ratio (x total : Q) : Q :=
  if Qlt_bool 0 total then x / total else 0.

Definition contributions_of (components : EVCComponents) : Contributions :=
  let total_positive :=
    reference_price components + value (revenue_enhancement components)
    + value (cost_optimization components) in
  {| of_reference_price :=
       {| share_value := reference_price components;
          percentage := ratio (reference_price components) total_positive |};
     of_revenue_enhancement :=
       {| share_value := value (revenue_enhancement components);
          percentage :=
            ratio (value (revenue_enhancement components)) total_positive |};
     of_cost_optimization :=
       {| share_value := value (cost_optimization components);
          percentage :=
            ratio (value (cost_optimization components)) total_positive |};
     of_implementation_cost :=
       {| share_value := implementation_cost components;
          percentage :=
            ratio (implementation_cost components)
              (total_positive + implementation_cost components) |} |}.

Section Formatting.

(** [format(x, spec)] for a number belongs to the Python library; the
    analysis uses it in its two computed sentences. *)
Variable format_number : string -> Q -> string.

Definition name_text (segment_name : option string) : string :=
  match segment_name with
  | Some name => name
  | None => "None"
  end.

Definition insights (max_evc_segment_name : option string)
  (max_evc min_evc : Q) : list string :=
  [ "最も高いEVC値を持つセグメントは「" ++ name_text max_evc_segment_name
    ++ "」で、値は" ++ format_number ",.0f" max_evc ++ "円です。";
    "セグメント間のEVC値の差は" ++ format_number ",.0f" (max_evc - min_evc)
    ++ "円で、これは最大値の"
    ++ format_number ".1f"
         (if Qlt_bool 0 max_evc
          then (max_evc - min_evc) / max_evc * 100 else 0)
    ++ "%に相当します。";
    "収益向上価値は全セグメントで重要な貢献要素ですが、特に高価値セグメントでより大きな割合を占めています。";
    "導入コストの影響は低価値セグメント、特に中小企業・低価値セグメントで最も大きくなっています。" ].

Definition analyze_evc_results (results : list Obj) : result Analysis :=
  evc_values <- evc_values_of results ;;
  let values := dict_values evc_values in
  let max_evc := largest values in
  let min_evc := smallest values in
  let avg_evc := match values with [] => 0 | _ => average values end in
  max_evc_segment <- first_at max_evc results ;;
  let max_evc_segment_id := option_map segment_id max_evc_segment in
  let max_evc_segment_name := option_map segment_name max_evc_segment in
  component_contributions <-
    foldM (fun contributions result =>
             id <- attr result segment_id ;;
             components <- attr result components ;;
             Ok (dict_set contributions id (contributions_of components)))
          [] results ;;
  Ok {| summary :=
          {| max_evc :=
               {| max_value := max_evc;
                  max_segment_id := max_evc_segment_id;
                  max_segment_name := max_evc_segment_name |};
             min_evc := min_evc;
             average_evc := avg_evc;
             evc_range := max_evc - min_evc |};
        segment_comparison :=
          map (fun '(id, v) =>
                 (id,
                  {| cmp_evc_value := v;
                     relative_to_average := ratio v avg_evc;
                     percentage_of_max := ratio v max_evc |}))
              evc_values;
        component_contributions := component_contributions;
        key_insights :=
          insights max_evc_segment_name max_evc min_evc |}.

End Formatting.

End EvcCalculation.

(** ** The total potential (nexasales_agents/market_potential.py) *)

Module TotalPotential.
Import Py.
Local Open Scope py_scope.



End TotalPotential.

(** ** The segment strategies (nexasales_agents/priority_evaluation.py) *)

Module SegmentStrategies.
Import Py.
Local Open Scope py_scope.

(** [data[key] if key in data else [data]] *)
Definition unwrap (key : string) (data : pyval) : result pyval :=
  has <- py_contains_key data key ;;
  if has : bool then py_getitem_key data key else Ok (PList [data]).

(** The parsing stage of the tools that take a list under a key: text in
    braces is read as JSON, a second time with its quotes repaired; a
    dictionary is unwrapped, a list is kept, and every failure gives the
    empty list. *)
Definition parse_wrapped (json_loads : string -> option pyval)
  (key : string) (v : pyval) : pyval :=
  match v with
  | PStr text =>
      if FormulaDesign.in_braces text
      then match json_loads text with
           | Some data => try_except (unwrap key data) (PList [])
           | None =>
               match json_loads (fix_quotes text) with
               | Some data => try_except (unwrap key data) (PList [])
               | None => PList []
               end
           end
      else PList []
  | PDict d => try_except (unwrap key (PDict d)) (PList [])
  | PList l => PList l
  | _ => PList []
  end.

Record StrategyTemplate : Type := {
  t_approach : string;
  t_resource_allocation : string;
  t_timeline : string;
  t_key_tactics : list string
}.

Definition template_top : StrategyTemplate :=
  {| t_approach := "積極的投資";
     t_resource_allocation := "最大リソース配分";
     t_timeline := "即時開始";
     t_key_tactics :=
       [ "専任営業チームの編成";
         "カスタマイズされた提案資料の作成";
         "トップマネジメントへの直接アプローチ";
         "業界イベントでの集中的なプロモーション" ] |}.

Definition template_high : StrategyTemplate :=
  {| t_approach := "重点投資";
     t_resource_allocation := "高リソース配分";
     t_timeline := "1-2ヶ月以内に開始";
     t_key_tactics :=
       [ "専門営業担当者のアサイン";
         "セグメント特化型マーケティング資料の作成";
         "業界セミナーの開催";
         "既存顧客からの紹介プログラムの活用" ] |}.

Definition template_medium : StrategyTemplate :=
  {| t_approach := "選択的投資";
     t_resource_allocation := "中程度のリソース配分";
     t_timeline := "3-6ヶ月以内に開始";
     t_key_tactics :=
       [ "標準的な営業プロセスの適用";
         "デジタルマーケティングの活用";
         "パートナー企業との協業";
         "成功事例の共有" ] |}.

Definition template_low : StrategyTemplate :=
  {| t_approach := "効率的アプローチ";
     t_resource_allocation := "限定的なリソース配分";
     t_timeline := "6-12ヶ月以内に開始";
     t_key_tactics :=
       [ "インバウンドマーケティングの活用";
         "セルフサービス型の導入プロセス";
         "オンラインセミナーの開催";
         "自動化されたフォローアップ" ] |}.

Definition template_lowest : StrategyTemplate :=
  {| t_approach := "最小限の投資";
     t_resource_allocation := "最小限のリソース配分";
     t_timeline := "機会があれば対応";
     t_key_tactics :=
       [ "標準製品の提供";
         "セルフサービスポータルの活用";
         "自動化されたマーケティング";
         "パートナー企業への委託" ] |}.

Definition strategy_templates : list (string * StrategyTemplate) :=
  [ ("最優先", template_top);
    ("高優先", template_high);
    ("中優先", template_medium);
    ("低優先", template_low);
    ("最低優先", template_lowest) ].

(** [templates.get(rank, default)]: a list or a dictionary cannot be
    hashed; a key that is not a string is not in the table. *)
Definition lookup_rank {T : Type} (templates : list (string * T))
  (default : T) (priority_rank : pyval) : result T :=
  match priority_rank with
  | PStr rank =>
      Ok (match dict_get templates rank with
          | Some template => template
          | None => default
          end)
  | PList _ | PDict _ => Raise TypeError
  | _ => Ok default
  end.

(** The tactics and the value proposition of the four named segments. *)
Definition segment_specifics : list (string * (list string * string)) :=
  [ ("s1",
     ([ "AIを活用した高精度な売上予測機能の強調";
        "エンタープライズ統合機能の強化";
        "セキュリティ機能の強調";
        "トップマネジメント向けのエグゼクティブブリーフィングの実施" ],
      "高度な分析機能とエンタープライズ統合による業務効率化と売上向上"));
    ("s2",
     ([ "コスト最適化価値の明確な提示";
        "既存システムとの統合の容易さの強調";
        "シンプルな操作性の強調";
        "段階的な導入プランの提案" ],
      "コスト効率と既存システム統合による業務プロセスの最適化"));
    ("s3",
     ([ "成長支援機能の強調";
        "コストパフォーマンスの高さの提示";
        "使いやすさと短期間での導入の強調";
        "成功事例の共有" ],
      "成長企業向けの機能とコストパフォーマンスによる競争力強化"));
    ("s4",
     ([ "低価格プランの提供";
        "シンプルな機能セットの強調";
        "セルフサービス型の導入プロセスの提供";
        "オンラインサポートの充実" ],
      "低コストで導入可能なシンプルなソリューションによる業務効率化")) ].

Definition default_value_proposition : string :=
  "顧客ニーズに合わせたソリューションの提供".

(** The [if]/[elif] chain on [segment_id == "s1"], ...: only a string
    equals one of the four ids. *)
Definition specifics_for {T : Type} (specifics : list (string * T))
  (default : T) (segment_id : pyval) : T :=
  match segment_id with
  | PStr id =>
      match dict_get specifics id with
      | Some specific => specific
      | None => default
      end
  | _ => default
  end.

Record Strategy : Type := {
  segment_id : pyval;
  segment_name : pyval;
  priority_rank : pyval;
  priority_score : pyval;
  approach : string;
  resource_allocation : string;
  timeline : string;
  value_proposition : string;
  key_tactics : list string
}.

(** The body of the loop. *)
Definition strategy_of (score_info : pyval) : result Strategy :=
  segment_id <- py_get score_info "segment_id" PNone ;;
  segment_name <- py_get score_info "segment_name" PNone ;;
  priority_rank <- py_get score_info "priority_rank" PNone ;;
  template <- lookup_rank strategy_templates template_lowest priority_rank ;;
  let '(specific_tactics, value_proposition) :=
    specifics_for segment_specifics
      (t_key_tactics template, default_value_proposition) segment_id in
  priority_score <- py_get score_info "priority_score" (PNum 0) ;;
  Ok {| segment_id := segment_id;
        segment_name := segment_name;
        priority_rank := priority_rank;
        priority_score := priority_score;
        approach := t_approach template;
        resource_allocation := t_resource_allocation template;
        timeline := t_timeline template;
        value_proposition := value_proposition;
        key_tactics := specific_tactics |}.

(** The loop runs over the argument as it was received; the parsed value
    is not used. *)
Definition generate_segment_strategies
  (json_loads : string -> option pyval) (priority_scores : pyval)
  : result (list Strategy) :=
  let processed_priority_scores :=
    parse_wrapped json_loads "priority_scores" priority_scores in
  items <- py_iter priority_scores ;;
  mapM strategy_of items.

(** The dictionaries that the tool builds. *)
Definition strings (l : list string) : pyval := PList (map PStr l).

Definition strategy_dict (s : Strategy) : pyval :=
  PDict
    [ ("segment_id", segment_id s);
      ("segment_name", segment_name s);
      ("priority_rank", priority_rank s);
      ("priority_score", priority_score s);
      ("approach", PStr (approach s));
      ("resource_allocation", PStr (resource_allocation s));
      ("timeline", PStr (timeline s));
      ("value_proposition", PStr (value_proposition s));
      ("key_tactics", strings (key_tactics s)) ].

Definition strategies_dict (l : list Strategy) : pyval :=
  PDict [("segment_strategies", PList (map strategy_dict l))].

End SegmentStrategies.

(** ** The action plans (nexasales_agents/priority_evaluation_part2.py) *)

Module ActionPlans.
Import Py SegmentStrategies.
Local Open Scope py_scope.

Record PlanTemplate : Type := {
  t_immediate_actions : list string;
  t_short_term_actions : list string;
  t_mid_term_actions : list string;
  t_kpis : list string
}.

Definition plan_top : PlanTemplate :=
  {| t_immediate_actions :=
       [ "専任営業チームの編成（1週間以内）";
         "カスタマイズされた提案資料の作成（2週間以内）";
         "トップ企業リストの作成（1週間以内）";
         "初回アプローチ計画の策定（2週間以内）" ];
     t_short_term_actions :=
       [ "トップマネジメントへの直接アプローチ開始（1ヶ月以内）";
         "業界イベントでのプロモーション計画策定（1ヶ月以内）";
         "初回商談の実施（1-2ヶ月以内）";
         "フィードバックの収集と提案の改善（2-3ヶ月以内）" ];
     t_mid_term_actions :=
       [ "成約率向上のための戦略見直し（3ヶ月ごと）";
         "成功事例の作成と共有（6ヶ月以内）";
         "アップセル・クロスセル戦略の策定（6ヶ月以内）" ];
     t_kpis :=
       [ "初回商談実施数：月間10件";
         "提案書提出数：月間5件";
         "成約数：四半期5件";
         "平均成約額：1,500万円" ] |}.

Definition plan_high : PlanTemplate :=
  {| t_immediate_actions :=
       [ "専門営業担当者のアサイン（2週間以内）";
         "セグメント特化型マーケティング資料の作成（3週間以内）";
         "ターゲット企業リストの作成（2週間以内）" ];
     t_short_term_actions :=
       [ "業界セミナーの企画（1-2ヶ月以内）";
         "既存顧客からの紹介プログラムの開始（1-2ヶ月以内）";
         "初回アプローチの開始（1ヶ月以内）" ];
     t_mid_term_actions :=
       [ "セミナー実施と見込み客の獲得（3-4ヶ月以内）";
         "成功事例の作成（6ヶ月以内）";
         "アプローチ方法の見直し（四半期ごと）" ];
     t_kpis :=
       [ "初回商談実施数：月間5件";
         "提案書提出数：月間3件";
         "成約数：四半期3件";
         "平均成約額：1,000万円" ] |}.

Definition plan_medium : PlanTemplate :=
  {| t_immediate_actions :=
       [ "標準的な営業プロセスの準備（1ヶ月以内）";
         "デジタルマーケティング施策の計画（1ヶ月以内）" ];
     t_short_term_actions :=
       [ "デジタルマーケティングの開始（2-3ヶ月以内）";
         "パートナー企業との協業計画の策定（2-3ヶ月以内）";
         "成功事例の収集（3-4ヶ月以内）" ];
     t_mid_term_actions :=
       [ "パートナー企業との協業開始（4-6ヶ月以内）";
         "成功事例の共有開始（6ヶ月以内）";
         "アプローチ方法の効果測定と改善（半年ごと）" ];
     t_kpis :=
       [ "マーケティングリード獲得数：月間10件";
         "初回商談実施数：月間3件";
         "成約数：四半期2件";
         "平均成約額：500万円" ] |}.

Definition plan_low : PlanTemplate :=
  {| t_immediate_actions :=
       [ "インバウンドマーケティング施策の計画（2ヶ月以内）";
         "セルフサービス型導入プロセスの準備（2ヶ月以内）" ];
     t_short_term_actions :=
       [ "オンラインセミナーの企画（3-4ヶ月以内）";
         "自動化されたフォローアップの設定（3-4ヶ月以内）" ];
     t_mid_term_actions :=
       [ "オンラインセミナーの実施（6ヶ月以内）";
         "インバウンドマーケティングの効果測定と改善（半年ごと）" ];
     t_kpis :=
       [ "ウェブサイト訪問数：月間100件";
         "資料ダウンロード数：月間20件";
         "問い合わせ数：月間5件";
         "成約数：四半期1件";
         "平均成約額：300万円" ] |}.

Definition plan_lowest : PlanTemplate :=
  {| t_immediate_actions :=
       [ "標準製品の提供準備（3ヶ月以内）";
         "セルフサービスポータルの準備（3ヶ月以内）" ];
     t_short_term_actions :=
       [ "自動化されたマーケティングの設定（6ヶ月以内）";
         "パートナー企業への委託計画の策定（6ヶ月以内）" ];
     t_mid_term_actions :=
       [ "パートナー企業への委託開始（9-12ヶ月以内）";
         "効果測定と改善（年1回）" ];
     t_kpis :=
       [ "資料ダウンロード数：月間10件";
         "問い合わせ数：月間2件";
         "成約数：半年1件";
         "平均成約額：100万円" ] |}.

Definition action_plan_templates : list (string * PlanTemplate) :=
  [ ("最優先", plan_top);
    ("高優先", plan_high);
    ("中優先", plan_medium);
    ("低優先", plan_low);
    ("最低優先", plan_lowest) ].

(** The immediate actions and the KPIs of the four named segments. *)
Definition segment_actions : list (string * (list string * list string)) :=
  [ ("s1",
     ([ "AIを活用した高精度な売上予測機能のデモ準備（2週間以内）";
        "エンタープライズ統合機能の事例集作成（2週間以内）";
        "セキュリティ機能の説明資料作成（1週間以内）";
        "トップマネジメント向けエグゼクティブブリーフィングの準備（2週間以内）" ],
      [ "エグゼクティブブリーフィング実施数：月間2件";
        "PoC実施数：四半期2件";
        "大規模導入案件成約数：半年2件" ]));
    ("s2",
     ([ "コスト最適化価値の数値化資料作成（2週間以内）";
        "既存システム統合事例の収集（2週間以内）";
        "段階的導入プランのテンプレート作成（1週間以内）" ],
      [ "コスト削減効果提示数：月間3件";
        "既存システム統合提案数：月間2件";
        "段階的導入提案採用率：50%" ]));
    ("s3",
     ([ "成長支援機能のデモ準備（2週間以内）";
        "コストパフォーマンス比較資料作成（1週間以内）";
        "短期導入事例の収集（2週間以内）" ],
      [ "成長企業向けセミナー参加者数：月間20名";
        "トライアル開始数：月間5件";
        "トライアルからの成約率：40%" ]));
    ("s4",
     ([ "低価格プランの詳細設計（2週間以内）";
        "セルフサービス型導入ガイドの作成（2週間以内）";
        "オンラインサポート体制の整備（1週間以内）" ],
      [ "低価格プラン問い合わせ数：月間10件";
        "セルフサービス導入完了率：30%";
        "サポート満足度：80%以上" ])) ].

Record ActionPlan : Type := {
  segment_id : pyval;
  segment_name : pyval;
  priority_rank : pyval;
  immediate_actions : list string;
  short_term_actions : list string;
  mid_term_actions : list string;
  kpis : list string
}.

(** [specific_kpis + [kpi for kpi in template["kpis"]
                       if kpi not in specific_kpis]] *)
Definition merge_kpis (specific_kpis template_kpis : list string)
  : list string :=
  specific_kpis
  ++ filter (fun kpi => negb (existsb (String.eqb kpi) specific_kpis))
       template_kpis.

(** The body of the loop: the plan of one strategy. *)
Definition plan_of (strategy : pyval) : result ActionPlan :=
  segment_id <- py_get strategy "segment_id" PNone ;;
  segment_name <- py_get strategy "segment_name" PNone ;;
  priority_rank <- py_get strategy "priority_rank" PNone ;;
  template <- lookup_rank action_plan_templates plan_lowest priority_rank ;;
  let '(specific_immediate_actions, specific_kpis) :=
    specifics_for segment_actions
      (t_immediate_actions template, t_kpis template) segment_id in
  Ok {| segment_id := segment_id;
        segment_name := segment_name;
        priority_rank := priority_rank;
        immediate_actions := specific_immediate_actions;
        short_term_actions := t_short_term_actions template;
        mid_term_actions := t_mid_term_actions template;
        kpis := merge_kpis specific_kpis (t_kpis template) |}.

(** A recommendation takes the actions and the KPIs of a plan. *)
Definition take_actions (recommendation plan : ActionPlan) : ActionPlan :=
  {| segment_id := segment_id recommendation;
     segment_name := segment_name recommendation;
     priority_rank := priority_rank recommendation;
     immediate_actions := immediate_actions plan;
     short_term_actions := short_term_actions plan;
     mid_term_actions := mid_term_actions plan;
     kpis := kpis plan |}.

(** The last loop, for one recommendation: every plan of the same
    segment id overwrites its actions in turn. *)
Definition refresh (plans : list ActionPlan) (recommendation : ActionPlan)
  : ActionPlan :=
  fold_left
    (fun recommendation plan =>
       if py_eqb (segment_id plan) (segment_id recommendation)
       then take_actions recommendation plan
       else recommendation)
    plans recommendation.

Record OverallActionPlan : Type := {
  highest_priority_segments : list ActionPlan;
  immediate_focus_areas : list string;
  resource_allocation_guidelines : list (string * list (string * string));
  quarterly_review_points : list string
}.

Record ActionPlans : Type := {
  segment_action_plans : list ActionPlan;
  segment_recommendations : list ActionPlan;
  overall_action_plan : OverallActionPlan
}.

(** [plan["priority_rank"] in ["最優先", "高優先"]] *)
Definition is_highest_priority (plan : ActionPlan) : bool :=
  existsb (py_eqb (priority_rank plan)) [PStr "最優先"; PStr "高優先"].

Definition focus_areas : list string :=
  [ "最優先セグメントへの専任チーム編成と集中的アプローチ";
    "高優先セグメント向けのマーケティング資料と営業プロセスの整備";
    "全セグメントのターゲット企業リストの作成と優先順位付け" ].

Definition allocation_guidelines : list (string * list (string * string)) :=
  [ ("sales_resources",
     [ ("最優先セグメント", "40%");
       ("高優先セグメント", "30%");
       ("中優先セグメント", "20%");
       ("低優先セグメント", "10%");
       ("最低優先セグメント", "0%") ]);
    ("marketing_resources",
     [ ("最優先セグメント", "30%");
       ("高優先セグメント", "30%");
       ("中優先セグメント", "20%");
       ("低優先セグメント", "15%");
       ("最低優先セグメント", "5%") ]);
    ("product_development_resources",
     [ ("最優先セグメント", "35%");
       ("高優先セグメント", "25%");
       ("中優先セグメント", "20%");
       ("低優先セグメント", "15%");
       ("最低優先セグメント", "5%") ]) ].

Definition review_points : list string :=
  [ "セグメント別KPI達成状況の評価";
    "市場環境の変化の分析";
    "競合状況の変化の分析";
    "優先度ランクの見直し";
    "リソース配分の調整" ].

(** The loop runs over the parsed value. *)
Definition create_action_plan (json_loads : string -> option pyval)
  (segment_strategies : pyval) : result ActionPlans :=
  let processed_segment_strategies :=
    parse_wrapped json_loads "segment_strategies" segment_strategies in
  items <- py_iter processed_segment_strategies ;;
  segment_action_plans <- mapM plan_of items ;;
  Ok {| segment_action_plans := segment_action_plans;
        segment_recommendations :=
          map (refresh segment_action_plans) segment_action_plans;
        overall_action_plan :=
          {| highest_priority_segments :=
               filter is_highest_priority segment_action_plans;
             immediate_focus_areas := focus_areas;
             resource_allocation_guidelines := allocation_guidelines;
             quarterly_review_points := review_points |} |}.

(** The dictionaries that the tool builds. *)
Definition plan_dict (p : ActionPlan) : pyval :=
  PDict
    [ ("segment_id", segment_id p);
      ("segment_name", segment_name p);
      ("priority_rank", priority_rank p);
      ("immediate_actions", strings (immediate_actions p));
      ("short_term_actions", strings (short_term_actions p));
      ("mid_term_actions", strings (mid_term_actions p));
      ("kpis", strings (kpis p)) ].

Definition guidelines_dict (g : list (string * list (string * string)))
  : pyval :=
  PDict (map (fun '(resource, shares) =>
                (resource,
                 PDict (map (fun '(segment, share) => (segment, PStr share))
                          shares)))
             g).

Definition overall_dict (o : OverallActionPlan) : pyval :=
  PDict
    [ ("highest_priority_segments",
       PList (map plan_dict (highest_priority_segments o)));
      ("immediate_focus_areas", strings (immediate_focus_areas o));
      ("resource_allocation_guidelines",
       guidelines_dict (resource_allocation_guidelines o));
      ("quarterly_review_points", strings (quarterly_review_points o)) ].

Definition action_plans_dict (a : ActionPlans) : pyval :=
  PDict
    [ ("segment_action_plans",
       PList (map plan_dict (segment_action_plans a)));
      ("segment_recommendations",
       PList (map plan_dict (segment_recommendations a)));
      ("overall_action_plan", overall_dict (overall_action_plan a)) ].

End ActionPlans.

(** ** The priority report (nexasales_agents/priority_evaluation_part2.py) *)

Module PriorityReport.
Import Py.
Local Open Scope py_scope.

(** [text.replace(apostrophe, quote)] *)
Definition replace_quotes (text : string) : string :=
  replace_char apostrophe_char quote_char text.

(** [data[key] if key in data else data] *)
Definition unwrap_or_self (key : string) (data : pyval) : result pyval :=
  has <- py_contains_key data key ;;
  if has : bool then py_getitem_key data key else Ok data.

(** The integrated results: text is read as JSON with its quotes
    replaced and unwrapped, a dictionary is kept as it is. *)
Definition parse_integrated (json_loads : string -> option pyval)
  (integrated_results : pyval) : pyval :=
  match integrated_results with
  | PStr text =>
      match json_loads (replace_quotes text) with
      | Some data =>
          try_except (unwrap_or_self "integrated_results" data) (PDict [])
      | None => PDict []
      end
  | PDict d => PDict d
  | _ => PDict []
  end.

(** The three other arguments: text and dictionaries are unwrapped, a
    list is kept. *)
Definition parse_listed (json_loads : string -> option pyval)
  (key : string) (v : pyval) : pyval :=
  match v with
  | PStr text =>
      match json_loads (replace_quotes text) with
      | Some data => try_except (unwrap_or_self key data) (PList [])
      | None => PList []
      end
  | PDict d => try_except (unwrap_or_self key (PDict d)) (PList [])
  | PList l => PList l
  | _ => PList []
  end.

(** [v if v else []] *)
Definition or_empty (v : pyval) : pyval :=
  if py_truthy v then v else PList [].

(** [len(v)] *)
Definition py_len (v : pyval) : result nat :=
  match v with
  | PList l => Ok (List.length l)
  | PDict d => Ok (List.length d)
  | PStr s => Ok (List.length (chars s))
  | _ => Raise TypeError
  end.

(** [v[k] = x] for a string [k]. *)
Definition py_setitem (v : pyval) (k : string) (x : pyval) : result pyval :=
  match v with
  | PDict d => Ok (PDict (dict_set d k x))
  | _ => Raise TypeError
  end.

(** One turn of the inner loop: a score of the segment of the strategy
    takes its approach, its resource allocation and its tactics. *)
Definition annotate (strategy segment_id score : pyval) : result pyval :=
  id <- py_get score "segment_id" PNone ;;
  if py_eqb id segment_id
  then approach <- py_get strategy "approach" (PStr "") ;;
       score <- py_setitem score "strategy" approach ;;
       allocation <- py_get strategy "resource_allocation" (PStr "") ;;
       score <- py_setitem score "resource_allocation" allocation ;;
       tactics <- py_get strategy "key_tactics" (PList []) ;;
       py_setitem score "key_tactics" tactics
  else Ok score.

(** One turn of the outer loop.  The scores are changed in place: a
    list keeps its changed elements; the elements of any other value
    that counts as true are not dictionaries, or it cannot be iterated,
    so that the turn raises. *)
Definition annotate_all (scores strategy : pyval) : result pyval :=
  segment_id <- py_get strategy "segment_id" PNone ;;
  items <- py_iter scores ;;
  items <- mapM (annotate strategy segment_id) items ;;
  Ok (match scores with
      | PList _ => PList items
      | _ => scores
      end).

(** [len([s for s in scores if s.get("priority_rank") == rank])] *)
Definition count_rank (scores : pyval) (rank : string) : result nat :=
  items <- py_iter scores ;;
  ranks <- mapM (fun s => py_get s "priority_rank" PNone) items ;;
  Ok (List.length (filter (fun r => py_eqb r (PStr rank)) ranks)).

Definition ranks : list string :=
  ["最優先"; "高優先"; "中優先"; "低優先"; "最低優先"].

(** [scores[:2] if len(scores) >= 2 else scores], as the elements that
    the comprehension runs over.  It is reached with a list only: the
    counts above have raised for any other value. *)
Definition leading (scores : pyval) : result (list pyval) :=
  n <- py_len scores ;;
  if (2 <=? n)%nat
  then match scores with
       | PList l => Ok (firstn 2 l)
       | PStr s => Ok (map PStr (firstn 2 (chars s)))
       | _ => Raise TypeError
       end
  else py_iter scores.

Record TopSegment : Type := {
  top_segment_id : pyval;
  top_segment_name : pyval;
  top_priority_score : pyval;
  top_priority_rank : pyval
}.

Definition top_segment (s : pyval) : result TopSegment :=
  segment_id <- py_get s "segment_id" PNone ;;
  segment_name <- py_get s "segment_name" PNone ;;
  priority_score <- py_get s "priority_score" PNone ;;
  priority_rank <- py_get s "priority_rank" PNone ;;
  Ok {| top_segment_id := segment_id;
        top_segment_name := segment_name;
        top_priority_score := priority_score;
        top_priority_rank := priority_rank |}.

(** [next((p for p in plans
           if p.get("segment_id") == score.get("segment_id")), {})] *)
Fixpoint first_plan (score : pyval) (plans : list pyval) : result pyval :=
  match plans with
  | [] => Ok (PDict [])
  | p :: plans' =>
      plan_id <- py_get p "segment_id" PNone ;;
      score_id <- py_get score "segment_id" PNone ;;
      if py_eqb plan_id score_id then Ok p else first_plan score plans'
  end.

Record Evaluation : Type := {
  segment_id : pyval;
  segment_name : pyval;
  priority_score : pyval;
  priority_rank : pyval;
  score_components : pyval;
  strategy : pyval;
  resource_allocation : pyval;
  key_tactics : pyval;
  action_plan : pyval
}.

Definition evaluation (plans score : pyval) : result Evaluation :=
  segment_id <- py_get score "segment_id" PNone ;;
  segment_name <- py_get score "segment_name" PNone ;;
  priority_score <- py_get score "priority_score" PNone ;;
  priority_rank <- py_get score "priority_rank" PNone ;;
  score_components <- py_get score "score_components" (PDict []) ;;
  strategy <- py_get score "strategy" (PStr "") ;;
  resource_allocation <- py_get score "resource_allocation" (PStr "") ;;
  key_tactics <- py_get score "key_tactics" (PList []) ;;
  candidates <- py_iter plans ;;
  action_plan <- first_plan score candidates ;;
  Ok {| segment_id := segment_id;
        segment_name := segment_name;
        priority_score := priority_score;
        priority_rank := priority_rank;
        score_components := score_components;
        strategy := strategy;
        resource_allocation := resource_allocation;
        key_tactics := key_tactics;
        action_plan := action_plan |}.

Record Summary : Type := {
  total_segments : nat;
  priority_distribution : list (string * nat);
  top_priority_segments : list TopSegment
}.

Record OverallStrategy : Type := {
  os_resource_allocation : pyval;
  os_immediate_focus_areas : pyval;
  os_quarterly_review_points : pyval
}.

Record Report : Type := {
  title : string;
  summary : Summary;
  segment_evaluations : list Evaluation;
  overall_strategy : OverallStrategy;
  key_insights : list string;
  recommendations : list string
}.

Definition report_title : string :=
  "顧客セグメント優先度評価レポート".

Definition report_insights : list string :=
  [ "最優先セグメントである「大企業・高価値」は、高いEVC値と比較的高い獲得確率により、最も高い優先度スコアを獲得しています。";
    "「中小企業・高価値」セグメントは、高い成長率と強い競争優位性により、「高優先」ランクとなっています。";
    "「大企業・低価値」セグメントは、大きな市場規模を持ちますが、低い獲得確率により「中優先」ランクとなっています。";
    "「中小企業・低価値」セグメントは、すべての指標で低いスコアとなり、「最低優先」ランクとなっています。";
    "リソース配分は最優先および高優先セグメントに集中させ、低優先および最低優先セグメントには効率的なアプローチを採用することが推奨されます。" ].

Definition report_recommendations : list string :=
  [ "最優先セグメントには専任営業チームを編成し、トップマネジメントへの直接アプローチを行うことで、高いEVC値を持つ案件の獲得を目指します。";
    "高優先セグメントには成長支援機能を強調し、コストパフォーマンスの高さを訴求することで、成長企業の獲得を目指します。";
    "中優先セグメントにはコスト最適化価値を明確に示し、既存システムとの統合の容易さを強調することで、大企業の低価値セグメントの獲得を目指します。";
    "低優先および最低優先セグメントには、デジタルマーケティングとセルフサービス型の導入プロセスを活用し、最小限のリソースで効率的にアプローチします。";
    "四半期ごとに優先度評価を見直し、市場環境や競合状況の変化に応じて戦略とリソース配分を調整します。" ].

Definition create_priority_report (json_loads : string -> option pyval)
  (integrated_results priority_scores segment_strategies action_plans : pyval)
  : result Report :=
  let processed_integrated_results :=
    parse_integrated json_loads integrated_results in
  let processed_priority_scores :=
    parse_listed json_loads "priority_scores" priority_scores in
  let processed_segment_strategies :=
    parse_listed json_loads "segment_strategies" segment_strategies in
  let processed_action_plans :=
    parse_listed json_loads "action_plans" action_plans in
  segments <- match processed_integrated_results with
              | PDict _ =>
                  py_get processed_integrated_results "integrated_results"
                    (PList [])
              | PList _ => Ok processed_integrated_results
              | _ => Ok (PList [])
              end ;;
  let scores := or_empty processed_priority_scores in
  let strategies := or_empty processed_segment_strategies in
  let plans := or_empty processed_action_plans in
  overall_action_plan <- match processed_action_plans with
                         | PDict _ =>
                             py_get processed_action_plans
                               "overall_action_plan" (PDict [])
                         | _ => Ok (PDict [])
                         end ;;
  scores <- match strategies with
            | PList l => EvcTools.foldM annotate_all scores l
            | _ => Ok scores
            end ;;
  total_segments <- py_len segments ;;
  counts <- mapM (fun rank => n <- count_rank scores rank ;; Ok (rank, n))
              ranks ;;
  leaders <- leading scores ;;
  top_priority_segments <- mapM top_segment leaders ;;
  items <- py_iter scores ;;
  segment_evaluations <- mapM (evaluation plans) items ;;
  resource_allocation <-
    py_get overall_action_plan "resource_allocation_guidelines" (PDict []) ;;
  immediate_focus_areas <-
    py_get overall_action_plan "immediate_focus_areas" (PList []) ;;
  quarterly_review_points <-
    py_get overall_action_plan "quarterly_review_points" (PList []) ;;
  Ok {| title := report_title;
        summary :=
          {| total_segments := total_segments;
             priority_distribution := counts;
             top_priority_segments := top_priority_segments |};
        segment_evaluations := segment_evaluations;
        overall_strategy :=
          {| os_resource_allocation := resource_allocation;
             os_immediate_focus_areas := immediate_focus_areas;
             os_quarterly_review_points := quarterly_review_points |};
        key_insights := report_insights;
        recommendations := report_recommendations |}.

End PriorityReport.

(** * Definitions used to state the properties *)

Module Statements.
Import Py.
Local Open Scope py_scope.

(** The largest of a list of numbers, as [max] walks through it. *)
Definition step_max (cur q : Q) : Q := if Qlt_bool cur q then q else cur.

Definition list_max_from (cur : Q) (qs : list Q) : Q :=
  fold_left step_max qs cur.

(** The batch maximum of a metric: the largest value, 1 for no value. *)
Definition list_max (qs : list Q) : Q :=
  match qs with
  | [] => 1
  | q :: qs' => list_max_from q qs'
  end.

(** The numeric inputs of one segment to the priority scorer. *)
Record ScoreInput : Type := {
  in_evc_value : Q;
  in_market_size : Q;
  in_acquisition_probability : Q;
  in_growth_rate : Q
}.

(** A segment dictionary holding the four metrics as numbers. *)
Definition has_metrics (segment : pyval) (r : ScoreInput) : Prop :=
  exists d ma,
    segment = PDict d
    /\ dict_get d "evc_value" = Some (PNum (in_evc_value r))
    /\ dict_get d "market_size" = Some (PNum (in_market_size r))
    /\ dict_get d "acquisition_probability"
       = Some (PNum (in_acquisition_probability r))
    /\ dict_get d "market_analysis" = Some (PDict ma)
    /\ dict_get ma "market_growth_rate" = Some (PNum (in_growth_rate r)).

(** A value over the batch maximum when that maximum is positive, else 0. *)
Definition guarded_ratio (v max_value : Q) : Q :=
  if Qlt_bool 0 max_value then v / max_value else 0.

Definition saturated_growth (growth_rate : Q) : Q :=
  Qmin (growth_rate / 0.1) 1.

(** The weighted sum with the guarded ratios. *)
Definition guarded_score (r : ScoreInput) (max_evc max_market_size : Q) : Q :=
  0.4 * guarded_ratio (in_evc_value r) max_evc
  + 0.2 * guarded_ratio (in_market_size r) max_market_size
  + 0.3 * in_acquisition_probability r
  + 0.1 * saturated_growth (in_growth_rate r).


(** A segment dictionary built from four numbers. *)
Definition segment_dict (id : string) (r : ScoreInput) : pyval :=
  PDict [ ("segment_id", PStr id);
          ("evc_value", PNum (in_evc_value r));
          ("market_size", PNum (in_market_size r));
          ("acquisition_probability", PNum (in_acquisition_probability r));
          ("market_analysis",
           PDict [("market_growth_rate", PNum (in_growth_rate r))]) ].

(** A parser that knows the texts of a table and rejects any other. *)
Definition loads_table (table : list (string * pyval)) (text : string)
  : option pyval :=
  dict_get table text.

Definition quoted (s : string) : string :=
  String quote_char s ++ String quote_char EmptyString.

End Statements.

(** ** Statements about the priority scorer *)

Module PriorityStatements.
Import Py Statements PriorityEvaluation.

(** The score of every segment is the weighted sum of its normalized
    metrics, the ratios being guarded; the scores come out in some order. *)
Definition scores_are_weighted_sums (rows : list ScoreInput)
  (out : PriorityScores) : Prop :=
  exists scores,
    Permutation scores (priority_scores out)
    /\ Forall2
         (fun r x =>
            priority_score x
            == guarded_score r (list_max (map in_evc_value rows))
                 (list_max (map in_market_size rows)))
         rows scores.



(** Metrics that are not negative, with a probability of at most 1. *)
Definition in_range (r : ScoreInput) : Prop :=
  0 <= in_evc_value r /\ 0 <= in_market_size r
  /\ 0 <= in_acquisition_probability r /\ in_acquisition_probability r <= 1
  /\ 0 <= in_growth_rate r.

(** A segment at the positive maximum of EVC and market size, with
    probability 1 and a growth rate of 10% or more. *)
Definition at_the_top (rows : list ScoreInput) (r : ScoreInput) : Prop :=
  in_evc_value r == list_max (map in_evc_value rows)
  /\ 0 < in_evc_value r
  /\ in_market_size r == list_max (map in_market_size rows)
  /\ 0 < in_market_size r
  /\ in_acquisition_probability r == 1
  /\ 0.1 <= in_growth_rate r.


Definition scores_bounded (rows : list ScoreInput) (out : PriorityScores)
  : Prop :=
  (forall x, In x (priority_scores out) ->
             0 <= priority_score x /\ priority_score x <= 1)
  /\ exists scores,
       Permutation scores (priority_scores out)
       /\ Forall2 (fun r x => at_the_top rows r -> priority_score x == 1)
            rows scores.

(** Sample batches. *)
Definition sample_s1 : ScoreInput :=
  {| in_evc_value := 1200000; in_market_size := 500;
     in_acquisition_probability := 1; in_growth_rate := 0.12 |}.
Definition sample_s2 : ScoreInput :=
  {| in_evc_value := 300000; in_market_size := 200;
     in_acquisition_probability := 0.25; in_growth_rate := 0.05 |}.
Definition sample_segments : pyval :=
  PList [segment_dict "s2" sample_s2; segment_dict "s1" sample_s1].




Definition no_json : string -> option pyval := loads_table [].

End PriorityStatements.

(** The weighted sum evaluated in binary64, the arithmetic of Python's
    [float], with the weights of the code. *)
Module Binary64.
Import PrimFloat.

Definition one : float := 1%float.
Definition above_one : float := 1.0000000000000002%float.

Definition binary64_score
  (normalized_evc normalized_market_size normalized_acquisition
     normalized_growth : float) : float :=
  PriorityEvaluation.weighted_sum PrimFloat.add PrimFloat.mul
    0.4%float 0.2%float 0.3%float 0.1%float
    normalized_evc normalized_market_size normalized_acquisition
    normalized_growth.

(** The rational a primitive float denotes. *)
Definition of_float (f : float) : option Q :=
  match FloatOps.Prim2SF f with
  | SpecFloat.S754_zero _ => Some 0%Q
  | SpecFloat.S754_finite s m e =>
      Some ((if s then -1 else 1) * inject_Z (Zpos m) * Float64.pow2 e)%Q
  | _ => None
  end.

Definition denotes (f : float) (q : Q) : bool :=
  match of_float f with
  | Some x => Qeq_bool x q
  | None => false
  end.

(** Literals and operations of the scorer, as the machine evaluates them
    and as [Float64] does. *)
Definition machine_samples : list (float * Q) :=
  [ (0.4%float, Float64.round64 0.4);
    (0.2%float, Float64.round64 0.2);
    (0.3%float, Float64.round64 0.3);
    (0.1%float, Float64.round64 0.1);
    (0.8%float, Float64.round64 0.8);
    (0.05%float, Float64.round64 0.05);
    (0.12%float, Float64.round64 0.12);
    ((0.3 * 0.5)%float, Float64.fmul (Float64.round64 0.3) 0.5);
    ((0.4 * -10)%float, Float64.fmul (Float64.round64 0.4) (-10));
    ((0.05 / 0.1)%float,
     Float64.round64 (Float64.round64 0.05 / Float64.round64 0.1));
    ((0.12 / 0.1)%float,
     Float64.round64 (Float64.round64 0.12 / Float64.round64 0.1));
    ((300000 / 1200000)%float, Float64.round64 (300000 / 1200000));
    ((0.4 + 0.2)%float,
     Float64.fadd (Float64.round64 0.4) (Float64.round64 0.2));
    (binary64_score one one one one,
     PriorityEvaluation.weighted_sum Float64.fadd Float64.fmul
       (Float64.round64 0.4) (Float64.round64 0.2) (Float64.round64 0.3)
       (Float64.round64 0.1) 1 1 1 1);
    (above_one, (1 + Float64.pow2 (-52))%Q) ].

End Binary64.

(** ** Statements about the scorer in binary64 *)

Module Binary64Statements.
Import Py Statements Float64 PriorityEvaluation PriorityStatements.




(** The float next above 1, printed 1.0000000000000002. *)
Definition above_one : Q := 1 + pow2 (-52).









End Binary64Statements.

(** ** Statements about the formula customizer *)

Module FormulaStatements.
Import Py Statements FormulaDesign.

(** A row of the default-parameter table of the specification, one
    value for each pair (is_enterprise, is_high_value). *)
Record DefaultRow : Type := {
  ent_high : Q;
  ent_low : Q;
  smb_high : Q;
  smb_low : Q
}.

Definition same_for_all (q : Q) : DefaultRow :=
  {| ent_high := q; ent_low := q; smb_high := q; smb_low := q |}.

Definition spec_default_table : list (string * DefaultRow) :=
  [ ("annual_revenue",
     {| ent_high := 1000000000; ent_low := 800000000;
        smb_high := 200000000; smb_low := 50000000 |});
    ("annual_cost",
     {| ent_high := 500000000; ent_low := 400000000;
        smb_high := 100000000; smb_low := 25000000 |});
    ("revenue_increase_rate",
     {| ent_high := 0.05; ent_low := 0.03;
        smb_high := 0.08; smb_low := 0.02 |});
    ("cost_reduction_rate",
     {| ent_high := 0.15; ent_low := 0.20;
        smb_high := 0.12; smb_low := 0.10 |});
    ("initial_cost",
     {| ent_high := 500000; ent_low := 400000;
        smb_high := 200000; smb_low := 100000 |});
    ("operation_cost",
     {| ent_high := 10000; ent_low := 8000;
        smb_high := 5000; smb_low := 3000 |});
    ("reference_price", same_for_all 15000);
    ("implementation_years", same_for_all 3) ].

Definition select (row : DefaultRow) (is_enterprise is_high_value : bool)
  : Q :=
  match is_enterprise, is_high_value with
  | true, true => ent_high row
  | true, false => ent_low row
  | false, true => smb_high row
  | false, false => smb_low row
  end.

(** The segment id made of the letter s and one digit. *)
Definition digit (d : nat) : string :=
  String (ascii_of_nat (48 + d)) EmptyString.

Definition segment_of_digit (d : nat) : string := "s" ++ digit d.

(** The base weights of the specification: 1.0, 1.2, 1.0 and 0.9. *)
Definition spec_base_weights : list (string * Q) :=
  [("R", 1.0); ("Re", 1.2); ("Co", 1.0); ("I", 0.9)].

(** A component table whose weights, read with the defaults of the code,
    are the base weights. *)
Definition has_base_weights (components : pyval) : Prop :=
  forall key base,
    dict_get spec_base_weights key = Some base ->
    exists v q,
      component_field components key "weight" (PNum base) = Ok v
      /\ as_num v = Some q /\ q == base.

(** The adjustment of the revenue-enhancement weight for a segment id. *)
Definition re_adjustment (segment_id : string) : Q :=
  let '(is_enterprise, is_high_value) := segment_flags segment_id in
  adj_Re (adjustments_for is_enterprise is_high_value).

(** The weights the customizer is to produce for a segment. *)
Definition weights_customized (is_enterprise is_high_value : bool)
  (r : CustomizedFormula) : Prop :=
  weight (comp_R r) == 1.0 * (1.0 + 0)
  /\ weight (comp_Re r) == 1.2 * (1.0 + (if is_high_value then 0.2 else -0.2))
  /\ weight (comp_Co r) == 1.0 * (1.0 + (if is_high_value then -0.1 else 0.2))
  /\ weight (comp_I r) == 0.9 * (1.0 + (if is_enterprise then -0.2 else 0.2)).

(** The component table of the document that [design_evc_formula]
    returns. *)
Definition design_components : pyval :=
  PDict
    [ ("R", PDict [("description", PStr "参照価格");
                   ("calculation", PStr "市場平均価格");
                   ("weight", PNum 1.0)]);
      ("Re", PDict [("description", PStr "収益向上価値");
                    ("calculation", PStr "売上増加率 × 年間売上 × 導入年数");
                    ("weight", PNum 1.2)]);
      ("Co", PDict [("description", PStr "コスト最適化価値");
                    ("calculation",
                     PStr "コスト削減率 × 年間コスト × 導入年数");
                    ("weight", PNum 1.0)]);
      ("I", PDict [("description", PStr "導入コスト");
                   ("calculation", PStr "初期費用 + 運用コスト × 導入年数");
                   ("weight", PNum 0.9)]) ].

(** Characteristics given as free text, and a base formula given as a
    formula rather than a document. *)
Definition sample_characteristics : pyval :=
  PStr "大企業・高価値：豊富な予算、迅速な意思決定、ITリテラシーが高い".
Definition sample_base_formula : pyval := PStr "EVC = R + (Re + Co) - I".

End FormulaStatements.

(** ** Statements about the market potential estimator *)

Module MarketStatements.
Import Py Statements MarketPotential.

(** An estimate holding a number under a key. *)
Definition number_at (estimate : pyval) (k : string) (q : Q) : Prop :=
  exists v, py_getitem_key estimate k = Ok v /\ as_num v = Some q.

(** The potential under a key is the product of the company count, the
    acquisition rate and the EVC value recorded in the same result. *)
Definition product_at (p : Potential) (k : string) (potential : Q) : Prop :=
  exists c a e,
    number_at (companies p) k c
    /\ number_at (acquisition_rate p) k a
    /\ as_num (evc_value p) = Some e
    /\ potential = c * a * e.

(** An estimate with numbers under min, expected and max. *)
Definition numeric_triple (estimate : pyval) : Prop :=
  exists lo mid hi,
    number_at estimate "min" lo /\ number_at estimate "expected" mid
    /\ number_at estimate "max" hi.

(** The condition of the specification for an error result, on a parsed
    EVC result: it has no evc_value, or an evc_value of zero. *)
Definition evc_value_missing_or_zero (evc_data : pyval) : bool :=
  match evc_data with
  | PDict d =>
      match dict_get d "evc_value" with
      | None => true
      | Some (PNum q) => Qeq_bool q 0
      | Some _ => false
      end
  | _ => true
  end.

Definition spec_error_expected (json_loads : string -> option pyval)
  (evc_result segment_info : pyval) : bool :=
  match loads json_loads segment_info, loads json_loads evc_result with
  | Some _, Some evc_data => evc_value_missing_or_zero evc_data
  | _, _ => true
  end.

(** The condition of the code, on a parsed EVC result that is a
    dictionary: the value under evc_value is absent or counts as false. *)
Definition evc_value_falsy (d : dict) : bool :=
  match dict_get d "evc_value" with
  | None => true
  | Some v => negb (py_truthy v)
  end.

Definition is_error (r : result SegmentPotential) : Prop :=
  exists error message, r = Ok (ErrorResult error message).

(** JSON texts and what [json.loads] reads in them. *)
Definition text_empty_object : string := "{}".
Definition text_empty_list : string := "[]".
Definition text_evc_empty_string : string :=
  "{" ++ quoted "evc_value" ++ ": " ++ quoted "" ++ "}".
Definition text_evc_number : string :=
  "{" ++ quoted "evc_value" ++ ": 2000}".

Definition sample_loads : string -> option pyval :=
  loads_table
    [ (text_empty_object, PDict []);
      (text_empty_list, PList []);
      (text_evc_empty_string, PDict [("evc_value", PStr "")]);
      (text_evc_number, PDict [("evc_value", PNum 2000)]) ].

(** Estimators that answer with the fallback defaults of the code. *)
Definition companies_fallback (segment_id : string) (segment_data : pyval)
  : result pyval := Ok default_companies.
Definition acquisition_rate_fallback (segment_id : string)
  (segment_data : pyval) : result pyval := Ok default_acquisition_rate.

End MarketStatements.

(** ** Statements about the EVC calculator *)

Module EvcStatements.
Import Py Statements EvcTools.



(** The implementation cost as the specification words it, from the
    parameters initial_cost, operation_cost and implementation_years. *)
Definition spec_implementation_cost
  (initial_cost operation_cost implementation_years weight_I : Q) : Q :=
  (initial_cost + operation_cost * implementation_years) * weight_I.

(** A parameter read as a number, with the default of the code. *)
Definition param_number (params_dict : pyval) (k : string) (default q : Q)
  : Prop :=
  exists v, py_get params_dict k (PNum default) = Ok v /\ as_num v = Some q.


(** The default parameters that the formula customizer hands over for
    segment s1 (enterprise, high value). *)
Definition s1_default_parameters : dict :=
  [ ("annual_revenue", PNum 1000000000);
    ("annual_cost", PNum 500000000);
    ("implementation_years", PNum 3);
    ("revenue_increase_rate", PNum 0.05);
    ("cost_reduction_rate", PNum 0.15);
    ("reference_price", PNum 15000);
    ("initial_cost", PNum 500000);
    ("operation_cost", PNum 10000) ].

End EvcStatements.

(** ** Statements about the order of the scores *)

Module OrderStatements.
Import Py Statements PriorityEvaluation.

(** The five ranks, from the lowest (0) to the top (4). *)
Definition rank_level (rank : string) : nat :=
  if String.eqb rank rank_top then 4
  else if String.eqb rank rank_high then 3
  else if String.eqb rank rank_medium then 2
  else if String.eqb rank rank_low then 1
  else 0.

(** An entry [y] listed after [x] has no larger score and no better rank. *)
Definition not_above (x y : PriorityScoreInfo) : Prop :=
  priority_score y <= priority_score x
  /\ (rank_level (priority_rank y) <= rank_level (priority_rank x))%nat.

(** The rank of an entry is the one its score gives. *)
Definition ranked (x : PriorityScoreInfo) : Prop :=
  priority_rank x = rank_of_score (priority_score x).

(** The entries whose score is [q]. *)
Definition tied (q : Q) (l : list PriorityScoreInfo)
  : list PriorityScoreInfo :=
  filter (fun x => Qeq_bool (priority_score x) q) l.

(** Two segments with the same metrics, under different ids. *)
Definition tied_segments : pyval :=
  PList [ segment_dict "s2" PriorityStatements.sample_s2;
          segment_dict "s1" PriorityStatements.sample_s1;
          segment_dict "s3" PriorityStatements.sample_s2 ].

End OrderStatements.

(** ** Statements about the characteristics given to the customizer *)

Module CharacteristicsStatements.
Import Py Statements FormulaDesign.

(** Characteristics that are not a document [json.loads] reads: free
    text, text in braces that neither reading accepts, or a value that
    is not text. *)
Definition not_a_document (json_loads : string -> option pyval)
  (segment_characteristics : pyval) : Prop :=
  forall text,
    segment_characteristics = PStr text ->
    in_braces text = true ->
    loads_with_repair json_loads text = None.

(** The eight parameters as the default table gives them for a segment
    id. *)
Definition default_parameters (segment_id : string)
  : list (string * pyval) :=
  let '(is_enterprise, is_high_value) := segment_flags segment_id in
  map (fun '(name, default) =>
         (name, parameter_default name is_enterprise is_high_value default))
      parameter_names.

(** The keys that the free-text reading can set. *)
Definition text_keys : list string :=
  ["budget"; "decision_making"; "it_literacy"].

Definition only_text_keys (d : dict) : Prop :=
  forall k v, dict_get d k = Some v -> In k text_keys.

End CharacteristicsStatements.

(** ** Statements about the parameters of the EVC calculator *)

Module ParameterStatements.
Import Py Statements EvcTools.

(** The names of the sub-components recorded for a value. *)
Definition sub_component_names (c : ValueComponent) : list string :=
  dict_keys (sub_components c).

(** An adjustments entry whose values are numbers. *)
Definition numeric_entries (a : dict) : Prop :=
  forall k v, dict_get a k = Some v -> exists q, as_num v = Some q.

(** An adjustments entry that holds the three keys the calculator reads. *)
Definition has_all_adjustments (a : dict) : bool :=
  dict_mem a "Re" && dict_mem a "Co" && dict_mem a "I".

(** A JSON text of parameters with one configured revenue component,
    and the value [json.loads] reads in it. *)
Definition text_with_component : string :=
  "{" ++ quoted "reference_price" ++ ": 15000, "
      ++ quoted "implementation_years" ++ ": 3, "
      ++ quoted "retained_customers" ++ ": 10, "
      ++ quoted "customer_lifetime_value" ++ ": 1000, "
      ++ quoted "revenue_components" ++ ": {"
      ++ quoted "retention_revenue" ++ ": {"
      ++ quoted "parameters" ++ ": ["
      ++ quoted "retained_customers" ++ ", "
      ++ quoted "customer_lifetime_value" ++ "], "
      ++ quoted "calculation_function" ++ ": " ++ quoted "standard"
      ++ "}}}".

Definition value_with_component : pyval :=
  PDict
    [ ("reference_price", PNum 15000);
      ("implementation_years", PNum 3);
      ("retained_customers", PNum 10);
      ("customer_lifetime_value", PNum 1000);
      ("revenue_components",
       PDict [("retention_revenue",
               PDict [("parameters",
                       PList [PStr "retained_customers";
                              PStr "customer_lifetime_value"]);
                      ("calculation_function", PStr "standard")])]) ].

Definition loads_component : string -> option pyval :=
  loads_table [(text_with_component, value_with_component)].

(** The names listed under [custom_components] in the configuration of
    a value. *)
Definition custom_names (params_dict : pyval) (config_key : string)
  (names : list pyval) : Prop :=
  exists component_config custom_components,
    py_get params_dict config_key (PDict []) = Ok component_config
    /\ py_get component_config "custom_components" (PList [])
       = Ok custom_components
    /\ py_iter custom_components = Ok names.

(** Parameters whose adjustments for segment s1 lack the key Co. *)
Definition partial_adjustments : dict :=
  [ ("reference_price", PNum 15000);
    ("implementation_years", PNum 3);
    ("initial_cost", PNum 500000);
    ("segment_adjustments",
     PDict [("s1", PDict [("Re", PNum 1.2); ("I", PNum 0.8)])]) ].

End ParameterStatements.

(** ** Statements about the formula validator *)

Module ValidationStatements.
Import Py Statements FormulaDesign FormulaValidation.

(** A verdict is explained: it is negative exactly when an issue is
    listed. *)
Definition explained (r : ValidationResult) : Prop :=
  is_valid r = true <-> issues r = [].

(** [str(segment_type)] for a member of the enumeration. *)
Definition segment_type_text (t : SegmentType) : string :=
  match t with
  | HIGH_VALUE_LOW_BARRIER => "SegmentType.HIGH_VALUE_LOW_BARRIER"
  | HIGH_VALUE_HIGH_BARRIER => "SegmentType.HIGH_VALUE_HIGH_BARRIER"
  | LOW_VALUE_LOW_BARRIER => "SegmentType.LOW_VALUE_LOW_BARRIER"
  | LOW_VALUE_HIGH_BARRIER => "SegmentType.LOW_VALUE_HIGH_BARRIER"
  end.

Definition component_dict (c : FormulaComponent) : pyval :=
  PDict [ ("description", description c);
          ("calculation", calculation c);
          ("weight", PNum (weight c)) ].

(** The dictionary that [customize_formula_for_segment] builds, of which
    [CustomizedFormula] is the record. *)
Definition as_dict (r : CustomizedFormula) : pyval :=
  PDict
    [ ("segment_id", PStr (segment_id r));
      ("segment_name", PStr (segment_name r));
      ("segment_type", PStr (segment_type_text (segment_type r)));
      ("base_formula", PStr (base_formula r));
      ("components",
       PDict [ ("R", component_dict (comp_R r));
               ("Re", component_dict (comp_Re r));
               ("Co", component_dict (comp_Co r));
               ("I", component_dict (comp_I r)) ]);
      ("segment_specific_parameters", PDict (segment_specific_parameters r));
      ("adjustment_justification", PStr (adjustment_justification r)) ].

Definition positive_weights (r : CustomizedFormula) : Prop :=
  0 < weight (comp_R r) /\ 0 < weight (comp_Re r)
  /\ 0 < weight (comp_Co r) /\ 0 < weight (comp_I r).

(** The recommendations for a customized formula, by its id and its
    weights. *)
Definition recommendations_for (r : CustomizedFormula) : list string :=
  (if String.eqb (segment_id r) "s4" && Qlt_bool (weight (comp_I r)) 1.2
   then [advice_s4] else [])
  ++ (if String.eqb (segment_id r) "s1" && Qlt_bool (weight (comp_Re r)) 1.1
      then [advice_s1] else []).

(** A segment id that the embedding reads as the code does.  After the
    letter s, [str.isdigit] also accepts digits beyond ASCII, some of
    which [int] refuses, and [int] refuses more than 4300 digits: an id
    that starts with s goes on in ASCII, for 4300 characters at most. *)
Definition is_ascii (c : ascii) : bool := (nat_of_ascii c <? 128)%nat.

Definition plain_id (segment_id : string) : bool :=
  negb (startswith segment_id "s")
  || (all_chars is_ascii (tail segment_id)
      && (String.length (tail segment_id) <=? 4300)%nat).

(** A formula whose component table holds, for one of the required
    components, a weight that is not a number. *)
Definition has_odd_weight (formula_dict : pyval) : Prop :=
  exists d components component component_data weight,
    formula_dict = PDict d
    /\ dict_get d "components" = Some (PDict components)
    /\ In component required_components
    /\ dict_get components component = Some (PDict component_data)
    /\ dict_get component_data "weight" = Some weight
    /\ as_num weight = None.

(** A formula document whose weight for Co is null. *)
Definition null_weight_formula : pyval :=
  PDict
    [ ("base_formula", PStr "EVC = R + (Re + Co) - I");
      ("components",
       PDict [ ("R", PDict [("weight", PNum 1.0)]);
               ("Re", PDict [("weight", PNum 1.2)]);
               ("Co", PDict [("weight", PNone)]);
               ("I", PDict [("weight", PNum 0.9)]) ]) ].

End ValidationStatements.

(** ** Statements about the EVC calculation agent *)

Module CalculationStatements.
Import Py Statements EvcTools EvcCalculation.

(** A segment id made of the letter s and digits, the form the
    customizer reads a number from. *)
Definition numbered (segment_id : string) : bool :=
  startswith segment_id "s" && isdigit (FormulaDesign.tail segment_id).

(** The labels of the four segments. *)
Definition segment_labels : list string :=
  ["大企業"; "中小企業"; "高価値"; "低価値"].

Definition names_a_label (segment_id : string) : Prop :=
  exists label, In label segment_labels
                /\ is_substring label segment_id = true.

(** A byte that starts a character from U+4000 on: it is no digit and no
    byte of a whitespace character. *)
Definition high (c : ascii) : bool := (228 <=? nat_of_ascii c)%nat.

(** A formatter that prints nothing, where the text of a number does not
    matter. *)
Definition no_format (spec : string) (q : Q) : string := EmptyString.

(** Two results with their values only. *)
Definition bare_component (v : Q) : ValueComponent :=
  {| name := ""; description := ""; formula := ""; value := v;
     total_value := v; sub_components := []; adjustment := PNum 1 |}.

Definition bare_result (id : string) (reference revenue cost
  implementation : Q) : EVCResult :=
  let evc := reference + (revenue + cost) - implementation in
  {| segment_id := id;
     segment_name := "セグメント " ++ id;
     evc_value := evc;
     components :=
       {| reference_price := reference;
          revenue_enhancement := bare_component revenue;
          cost_optimization := bare_component cost;
          implementation_cost := implementation |};
     calculation_details :=
       {| cd_formula := "EVC = R + (Re + Co) - I";
          cd_evc_value := evc;
          cd_reference_price := reference;
          cd_revenue_enhancement_value := revenue;
          cd_cost_optimization_value := cost;
          cd_implementation_cost := implementation |} |}.

Definition two_results : list EVCResult :=
  [ bare_result "s2" 15000 100000 300000 400000;
    bare_result "s1" 15000 600000 200000 500000 ].

(** The table of the EVC values by segment id: a later result replaces
    an earlier one of the same id. *)
Definition evc_table (results : list EVCResult) (table : list (string * Q))
  : list (string * Q) :=
  fold_left (fun table r => dict_set table (segment_id r) (evc_value r))
    results table.

Definition step_min (cur q : Q) : Q := if Qlt_bool q cur then q else cur.

(** What the summary says of the segment with the largest value. *)
Definition names_the_largest (a : Analysis) (r : EVCResult) : Prop :=
  max_segment_id (max_evc (summary a)) = Some (segment_id r)
  /\ max_segment_name (max_evc (summary a)) = Some (segment_name r)
  /\ evc_value r == max_value (max_evc (summary a)).

(** What the comparison says of one segment, next to the summary. *)
Definition within_summary (a : Analysis) (c : Comparison) : Prop :=
  min_evc (summary a) <= cmp_evc_value c
  /\ cmp_evc_value c <= max_value (max_evc (summary a))
  /\ percentage_of_max c <= 1.

End CalculationStatements.

(** ** Statements about the strategies, the action plans and the report *)

Module ChainStatements.
Import Py Statements.

(** The dictionaries that the priority scorer builds. *)
Definition component_dict (c : PriorityEvaluation.ScoreComponent) : pyval :=
  PDict
    [ ("raw_value", PriorityEvaluation.raw_value c);
      ("normalized_value", PNum (PriorityEvaluation.normalized_value c));
      ("weight", PNum (PriorityEvaluation.weight c));
      ("contribution", PNum (PriorityEvaluation.contribution c)) ].

Definition score_dict (x : PriorityEvaluation.PriorityScoreInfo) : pyval :=
  PDict
    [ ("segment_id", PriorityEvaluation.segment_id x);
      ("segment_name", PriorityEvaluation.segment_name x);
      ("priority_score", PNum (PriorityEvaluation.priority_score x));
      ("priority_rank", PStr (PriorityEvaluation.priority_rank x));
      ("score_components",
       PDict
         [ ("evc_value", component_dict (PriorityEvaluation.sc_evc_value x));
           ("market_size",
            component_dict (PriorityEvaluation.sc_market_size x));
           ("acquisition_probability",
            component_dict
              (PriorityEvaluation.sc_acquisition_probability x));
           ("growth_potential",
            component_dict (PriorityEvaluation.sc_growth_potential x)) ]) ].

Definition scores_list (out : PriorityEvaluation.PriorityScores) : pyval :=
  PList (map score_dict (PriorityEvaluation.priority_scores out)).

Definition scores_dict (out : PriorityEvaluation.PriorityScores) : pyval :=
  PDict
    [ ("priority_scores", scores_list out);
      ("weights",
       PDict (map (fun '(k, w) => (k, PNum w))
                (PriorityEvaluation.weights out))) ].

(** The strategy template that the thresholds of the scorer lead to. *)
Definition template_of_score (priority_score : Q)
  : SegmentStrategies.StrategyTemplate :=
  if Qle_bool 0.8 priority_score then SegmentStrategies.template_top
  else if Qle_bool 0.6 priority_score then SegmentStrategies.template_high
  else if Qle_bool 0.4 priority_score then SegmentStrategies.template_medium
  else if Qle_bool 0.2 priority_score then SegmentStrategies.template_low
  else SegmentStrategies.template_lowest.

(** A strategy that follows a scored segment. *)
Definition follows_score (x : PriorityEvaluation.PriorityScoreInfo)
  (s : SegmentStrategies.Strategy) : Prop :=
  SegmentStrategies.segment_id s = PriorityEvaluation.segment_id x
  /\ SegmentStrategies.segment_name s = PriorityEvaluation.segment_name x
  /\ SegmentStrategies.priority_rank s
     = PStr (PriorityEvaluation.priority_rank x)
  /\ SegmentStrategies.priority_score s
     = PNum (PriorityEvaluation.priority_score x)
  /\ SegmentStrategies.approach s
     = SegmentStrategies.t_approach
         (template_of_score (PriorityEvaluation.priority_score x))
  /\ SegmentStrategies.resource_allocation s
     = SegmentStrategies.t_resource_allocation
         (template_of_score (PriorityEvaluation.priority_score x))
  /\ SegmentStrategies.timeline s
     = SegmentStrategies.t_timeline
         (template_of_score (PriorityEvaluation.priority_score x)).

(** A plan that follows a strategy. *)
Definition follows_strategy (s : SegmentStrategies.Strategy)
  (p : ActionPlans.ActionPlan) : Prop :=
  ActionPlans.segment_id p = SegmentStrategies.segment_id s
  /\ ActionPlans.segment_name p = SegmentStrategies.segment_name s
  /\ ActionPlans.priority_rank p = SegmentStrategies.priority_rank s.

(** The plans of the segment of a plan, and the last of them ([plan]
    itself when none compares equal). *)
Definition same_segment (plan other : ActionPlans.ActionPlan) : bool :=
  py_eqb (ActionPlans.segment_id other) (ActionPlans.segment_id plan).

Definition last_of_segment (plans : list ActionPlans.ActionPlan)
  (plan : ActionPlans.ActionPlan) : ActionPlans.ActionPlan :=
  last (filter (same_segment plan) plans) plan.

Definition carries_actions_of (recommendation plan : ActionPlans.ActionPlan)
  : Prop :=
  ActionPlans.immediate_actions recommendation
  = ActionPlans.immediate_actions plan
  /\ ActionPlans.short_term_actions recommendation
     = ActionPlans.short_term_actions plan
  /\ ActionPlans.mid_term_actions recommendation
     = ActionPlans.mid_term_actions plan
  /\ ActionPlans.kpis recommendation = ActionPlans.kpis plan.

(** An overall strategy with nothing in it. *)
Definition empty_strategy : PriorityReport.OverallStrategy :=
  {| PriorityReport.os_resource_allocation := PDict [];
     PriorityReport.os_immediate_focus_areas := PList [];
     PriorityReport.os_quarterly_review_points := PList [] |}.

(** Two strategies for one segment id, with different ranks. *)
Definition repeated_segment : pyval :=
  PList [ PDict [("segment_id", PStr "s9"); ("priority_rank", PStr "最優先")];
          PDict [("segment_id", PStr "s9");
                 ("priority_rank", PStr "最低優先")] ].

(** A JSON text that wraps one strategy, and the value read in it. *)
Definition wrapped_text : string :=
  "{" ++ quoted "segment_strategies" ++ ": [{"
      ++ quoted "segment_id" ++ ": " ++ quoted "s1" ++ ", "
      ++ quoted "priority_rank" ++ ": " ++ quoted "高優先" ++ "}]}".

Definition wrapped_strategies : list pyval :=
  [PDict [("segment_id", PStr "s1"); ("priority_rank", PStr "高優先")]].

Definition loads_wrapped : string -> option pyval :=
  loads_table
    [(wrapped_text, PDict [("segment_strategies", PList wrapped_strategies)])].

End ChainStatements.

(** ** Statements about missing metrics and about the order of the
    potentials *)

Module EdgeStatements.
Import Py Statements.



(** An estimate whose three numbers are in order and not negative. *)
Definition ordered_estimate (estimate : pyval) : Prop :=
  exists lo mid hi,
    MarketStatements.number_at estimate "min" lo
    /\ MarketStatements.number_at estimate "expected" mid
    /\ MarketStatements.number_at estimate "max" hi
    /\ 0 <= lo /\ lo <= mid /\ mid <= hi.

Definition ascending (t : MarketPotential.Triple) : Prop :=
  MarketPotential.min t <= MarketPotential.expected t
  /\ MarketPotential.expected t <= MarketPotential.max t.

Definition descending (t : MarketPotential.Triple) : Prop :=
  MarketPotential.max t <= MarketPotential.expected t
  /\ MarketPotential.expected t <= MarketPotential.min t.

(** An EVC result with a negative value. *)
Definition text_evc_negative : string :=
  "{" ++ quoted "evc_value" ++ ": -485000}".

Definition loads_negative : string -> option pyval :=
  loads_table
    [ (MarketStatements.text_empty_object, PDict []);
      (text_evc_negative, PDict [("evc_value", PNum (-485000))]) ].

End EdgeStatements.

(** * Properties *)

(** ** Facts about the Python layer *)

Module PyFacts.
Import Py Statements.
Local Open Scope py_scope.

Lemma bind_ok {A B : Type} (r : result A) (k : A -> result B) (b : B) :
  bind r k = Ok b -> exists a, r = Ok a /\ k a = Ok b.
Proof.
  destruct r as [a | e]; simpl; intros H.
  - exists a. split; [reflexivity | exact H].
  - discriminate H.
Qed.

(** One step back through a sequence of bindings that returned. *)
Tactic Notation "bind_inv" hyp(H) "as" simple_intropattern(x)
  simple_intropattern(Hx) :=
  apply bind_ok in H; destruct H as [x [Hx H]].

Lemma mapM_ok_Forall2 {A B : Type} (f : A -> result B) :
  forall (l : list A) (ys : list B),
    mapM f l = Ok ys -> Forall2 (fun x y => f x = Ok y) l ys.
Proof.
  induction l as [| x l IH]; simpl; intros ys H.
  - injection H as <-. constructor.
  - bind_inv H as y Hy.
    bind_inv H as ys' Hys.
    injection H as <-. constructor; [exact Hy | apply IH; exact Hys].
Qed.

Lemma Forall2_mapM_ok {A B : Type} (f : A -> result B) :
  forall (l : list A) (ys : list B),
    Forall2 (fun x y => f x = Ok y) l ys -> mapM f l = Ok ys.
Proof.
  induction 1 as [| x y l ys Hxy _ IH]; simpl.
  - reflexivity.
  - rewrite Hxy. simpl. rewrite IH. reflexivity.
Qed.

Lemma Qlt_bool_iff (x y : Q) : Qlt_bool x y = true <-> x < y.
Proof.
  unfold Qlt_bool. rewrite negb_true_iff. split; intros H.
  - apply Qnot_le_lt. intros Hle. apply Qle_bool_iff in Hle. congruence.
  - destruct (Qle_bool y x) eqn:E; [| reflexivity].
    apply Qle_bool_iff in E. exfalso. apply (Qlt_not_le _ _ H E).
Qed.

Lemma Qlt_bool_false_iff (x y : Q) : Qlt_bool x y = false <-> y <= x.
Proof.
  unfold Qlt_bool. rewrite negb_false_iff. apply Qle_bool_iff.
Qed.

Lemma max_from_numbers :
  forall (qs : list Q) (cur : Q),
    max_from (PNum cur) (map PNum qs) = Ok (PNum (list_max_from cur qs)).
Proof.
  induction qs as [| q qs IH]; intros cur; simpl.
  - reflexivity.
  - unfold list_max_from in *. simpl. unfold step_max at 2.
    destruct (Qlt_bool cur q); apply IH.
Qed.

Lemma list_max_from_ge_start :
  forall (qs : list Q) (cur : Q), cur <= list_max_from cur qs.
Proof.
  induction qs as [| q qs IH]; intros cur; unfold list_max_from; simpl.
  - apply Qle_refl.
  - fold (list_max_from (step_max cur q) qs).
    apply Qle_trans with (step_max cur q); [| apply IH].
    unfold step_max. destruct (Qlt_bool cur q) eqn:E.
    + apply Qlt_bool_iff in E. apply Qlt_le_weak. exact E.
    + apply Qle_refl.
Qed.

Lemma list_max_from_upper :
  forall (qs : list Q) (cur q : Q),
    In q qs -> q <= list_max_from cur qs.
Proof.
  induction qs as [| x qs IH]; intros cur q Hin; [destruct Hin |].
  unfold list_max_from. simpl. fold (list_max_from (step_max cur x) qs).
  destruct Hin as [-> | Hin].
  - apply Qle_trans with (step_max cur q);
      [| apply list_max_from_ge_start].
    unfold step_max. destruct (Qlt_bool cur q) eqn:E.
    + apply Qle_refl.
    + apply Qlt_bool_false_iff in E. exact E.
  - apply IH. exact Hin.
Qed.

Lemma list_max_from_attained :
  forall (qs : list Q) (cur : Q),
    list_max_from cur qs = cur \/ In (list_max_from cur qs) qs.
Proof.
  induction qs as [| x qs IH]; intros cur.
  - left. reflexivity.
  - unfold list_max_from. simpl. fold (list_max_from (step_max cur x) qs).
    destruct (IH (step_max cur x)) as [H | H].
    + rewrite H. unfold step_max. destruct (Qlt_bool cur x).
      * right. left. reflexivity.
      * left. reflexivity.
    + right. right. exact H.
Qed.

End PyFacts.

(** ** The priority scorer *)

Module PriorityFacts.
Import Py Statements PyFacts PriorityEvaluation PriorityStatements.
Local Open Scope py_scope.

Lemma insert_desc_perm (x : PriorityScoreInfo) :
  forall l, Permutation (insert_desc x l) (x :: l).
Proof.
  induction l as [| y l IH]; simpl.
  - apply Permutation_refl.
  - destruct (Qle_bool (priority_score y) (priority_score x)).
    + apply Permutation_refl.
    + apply Permutation_trans with (y :: x :: l).
      * apply perm_skip. exact IH.
      * apply perm_swap.
Qed.

Lemma sort_desc_perm : forall l, Permutation (sort_desc l) l.
Proof.
  induction l as [| x l IH]; simpl.
  - apply Permutation_refl.
  - apply Permutation_trans with (x :: sort_desc l).
    + apply insert_desc_perm.
    + apply perm_skip. exact IH.
Qed.

Lemma py_max_numbers (q : Q) (qs : list Q) :
  py_max (map PNum (q :: qs)) = Ok (PNum (list_max (q :: qs))).
Proof. simpl. apply max_from_numbers. Qed.

Lemma list_max_upper (qs : list Q) (q : Q) : In q qs -> q <= list_max qs.
Proof.
  destruct qs as [| x qs]; intros Hin; [destruct Hin |].
  simpl. destruct Hin as [-> | Hin].
  - apply list_max_from_ge_start.
  - apply list_max_from_upper. exact Hin.
Qed.


Lemma metrics_values (key : string) (f : ScoreInput -> Q) :
  (forall s r, has_metrics s r -> py_get s key (PNum 0) = Ok (PNum (f r))) ->
  forall segs rows,
    Forall2 has_metrics segs rows ->
    mapM (fun s => py_get s key (PNum 0)) segs = Ok (map PNum (map f rows)).
Proof.
  intros Hkey segs rows H. apply Forall2_mapM_ok.
  induction H as [| s r segs rows Hsr _ IH]; simpl; constructor.
  - apply Hkey. exact Hsr.
  - exact IH.
Qed.

Lemma get_evc_value (s : pyval) (r : ScoreInput) :
  has_metrics s r ->
  py_get s "evc_value" (PNum 0) = Ok (PNum (in_evc_value r)).
Proof.
  intros (d & ma & -> & He & _). unfold py_get. rewrite He. reflexivity.
Qed.

Lemma get_market_size (s : pyval) (r : ScoreInput) :
  has_metrics s r ->
  py_get s "market_size" (PNum 0) = Ok (PNum (in_market_size r)).
Proof.
  intros (d & ma & -> & _ & Hm & _). unfold py_get. rewrite Hm. reflexivity.
Qed.

Lemma batch_max_metric (key : string) (f : ScoreInput -> Q) :
  (forall s r, has_metrics s r -> py_get s key (PNum 0) = Ok (PNum (f r))) ->
  forall segs rows,
    Forall2 has_metrics segs rows ->
    batch_max key (PList segs) = Ok (PNum (list_max (map f rows))).
Proof.
  intros Hkey segs rows H. unfold batch_max.
  destruct H as [| s r segs rows Hsr H]; [reflexivity |].
  cbn [py_truthy py_iter bind].
  rewrite (metrics_values key f Hkey (s :: segs) (r :: rows)).
  - cbn [bind map]. apply py_max_numbers.
  - constructor; assumption.
Qed.

Lemma normalize_metric (s : pyval) (key : string) (v max_value : Q) :
  py_get s key (PNum 0) = Ok (PNum v) ->
  normalize s key (PNum max_value) = Ok (guarded_ratio v max_value).
Proof.
  intros Hget. unfold normalize, guarded_ratio. cbn [py_gt as_num bind].
  destruct (Qlt_bool 0 max_value) eqn:Hpos; [| reflexivity].
  rewrite Hget. cbn [bind]. unfold py_div. cbn [as_num].
  destruct (Qeq_bool max_value 0) eqn:Hz.
  - apply Qeq_bool_eq in Hz. apply Qlt_bool_iff in Hpos.
    rewrite Hz in Hpos. exfalso. apply (Qlt_irrefl 0 Hpos).
  - reflexivity.
Qed.

Lemma saturate_number (g : Q) :
  exists ng, saturate (PNum g) = Ok ng /\ ng == saturated_growth g.
Proof.
  unfold saturate, saturated_growth. unfold py_div. cbn [as_num].
  change (Qeq_bool 0.1 0) with false.
  cbn [bind py_min2 py_lt py_gt as_num].
  destruct (Qlt_bool 1 (g / 0.1)) eqn:Hg; cbn [num as_num];
    eexists; (split; [reflexivity |]).
  - apply Qlt_bool_iff in Hg. symmetry. apply Q.min_r.
    apply Qlt_le_weak. exact Hg.
  - apply Qlt_bool_false_iff in Hg. symmetry. apply Q.min_l. exact Hg.
Qed.

(** What the loop body computes for a segment that holds its metrics. *)
Lemma score_segment_metrics (s : pyval) (r : ScoreInput) (me mm : Q) :
  has_metrics s r ->
  exists x,
    score_segment (PNum me) (PNum mm) s = Ok x
    /\ priority_score x == guarded_score r me mm
    /\ priority_rank x = rank_of_score (priority_score x)
    /\ normalized_value (sc_evc_value x)
       = guarded_ratio (in_evc_value r) me
    /\ normalized_value (sc_market_size x)
       = guarded_ratio (in_market_size r) mm
    /\ normalized_value (sc_acquisition_probability x)
       = in_acquisition_probability r
    /\ normalized_value (sc_growth_potential x)
       == saturated_growth (in_growth_rate r).
Proof.
  intros Hs.
  pose proof (get_evc_value s r Hs) as He.
  pose proof (get_market_size s r Hs) as Hm.
  destruct Hs as (d & ma & -> & Hev & Hms & Hacq & Hma & Hgr).
  destruct (saturate_number (in_growth_rate r)) as (ng & Hsat & Hng).
  unfold score_segment.
  rewrite (normalize_metric _ _ _ me He), (normalize_metric _ _ _ mm Hm).
  unfold py_get. rewrite Hev, Hms, Hacq, Hma.
  destruct (dict_get d "segment_id"); destruct (dict_get d "segment_name");
    cbn [bind]; rewrite Hgr; cbn [bind]; rewrite Hsat;
    cbn [bind num as_num];
    (eexists; split; [reflexivity |]);
    cbn [priority_score priority_rank normalized_value sc_evc_value
         sc_market_size sc_acquisition_probability sc_growth_potential];
    repeat split; try reflexivity; try exact Hng;
    unfold guarded_score, weighted_sum, w_evc_value, w_market_size,
      w_acquisition_probability, w_growth_potential;
    rewrite Hng; reflexivity.
Qed.

(** In every record the loop body builds, the score is the sum of the
    four contributions, each contribution the weight times the
    normalized value, and the rank is read off the score. *)
Lemma score_segment_shape (max_evc max_market_size s : pyval)
  (x : PriorityScoreInfo) :
  score_segment max_evc max_market_size s = Ok x ->
  priority_score x
  = contribution (sc_evc_value x) + contribution (sc_market_size x)
    + contribution (sc_acquisition_probability x)
    + contribution (sc_growth_potential x)
  /\ contribution (sc_evc_value x)
     = weight (sc_evc_value x) * normalized_value (sc_evc_value x)
  /\ contribution (sc_market_size x)
     = weight (sc_market_size x) * normalized_value (sc_market_size x)
  /\ contribution (sc_acquisition_probability x)
     = weight (sc_acquisition_probability x)
       * normalized_value (sc_acquisition_probability x)
  /\ contribution (sc_growth_potential x)
     = weight (sc_growth_potential x)
       * normalized_value (sc_growth_potential x)
  /\ weight (sc_evc_value x) = 0.4
  /\ weight (sc_market_size x) = 0.2
  /\ weight (sc_acquisition_probability x) = 0.3
  /\ weight (sc_growth_potential x) = 0.1
  /\ priority_rank x = rank_of_score (priority_score x).
Proof.
  unfold score_segment. intros H.
  repeat (apply bind_ok in H; destruct H as [? [_ H]]).
  injection H as <-. cbn. repeat split; reflexivity.
Qed.

Lemma mapM_ok_In {A B : Type} (f : A -> result B) (l : list A)
  (ys : list B) (y : B) :
  mapM f l = Ok ys -> In y ys -> exists x, In x l /\ f x = Ok y.
Proof.
  intros H. apply mapM_ok_Forall2 in H.
  induction H as [| x y' l ys Hxy _ IH]; intros Hin; [destruct Hin |].
  destruct Hin as [<- | Hin].
  - exists x. split; [left; reflexivity | exact Hxy].
  - destruct (IH Hin) as [x' [Hx' Hf]]. exists x'. split; [right |]; assumption.
Qed.

(** The scores of a run: the loop body applied to each element with the
    two maxima, then sorted. *)
Lemma calculate_priority_scores_ok (json_loads : string -> option pyval)
  (input : pyval) (out : PriorityScores) :
  calculate_priority_scores json_loads input = Ok out ->
  exists max_evc max_market_size items scores,
    batch_max "evc_value" input = Ok max_evc
    /\ batch_max "market_size" input = Ok max_market_size
    /\ py_iter input = Ok items
    /\ mapM (score_segment max_evc max_market_size) items = Ok scores
    /\ priority_scores out = sort_desc scores
    /\ weights out = score_weights.
Proof.
  unfold calculate_priority_scores. intros H.
  bind_inv H as max_evc H1.
  bind_inv H as max_market_size H2.
  bind_inv H as max_potential _.
  bind_inv H as items H3.
  bind_inv H as scores H4.
  injection H as <-.
  exists max_evc, max_market_size, items, scores. repeat split; assumption.
Qed.

Lemma scores_of_metrics (me mm : Q) :
  forall segs rows scores,
    Forall2 has_metrics segs rows ->
    mapM (score_segment (PNum me) (PNum mm)) segs = Ok scores ->
    Forall2 (fun r x => priority_score x == guarded_score r me mm)
      rows scores.
Proof.
  intros segs rows scores H. revert scores.
  induction H as [| s r segs rows Hsr _ IH]; intros scores Hm.
  - injection Hm as <-. constructor.
  - cbn [mapM] in Hm.
    bind_inv Hm as x Hx.
    bind_inv Hm as xs Hxs.
    injection Hm as <-.
    destruct (score_segment_metrics s r me mm Hsr) as (x' & Hx' & Hscore & _).
    rewrite Hx in Hx'. injection Hx' as <-.
    constructor; [exact Hscore | apply IH; exact Hxs].
Qed.

Lemma guarded_ratio_bounds (v max_value : Q) :
  0 <= v -> v <= max_value -> 0 <= guarded_ratio v max_value <= 1.
Proof.
  intros Hv Hle. unfold guarded_ratio.
  destruct (Qlt_bool 0 max_value) eqn:Hpos.
  - apply Qlt_bool_iff in Hpos. split.
    + apply Qle_shift_div_l; [exact Hpos |]. rewrite Qmult_0_l. exact Hv.
    + apply Qle_shift_div_r; [exact Hpos |]. rewrite Qmult_1_l. exact Hle.
  - split; [apply Qle_refl | discriminate].
Qed.

Lemma guarded_ratio_max (v max_value : Q) :
  v == max_value -> 0 < v -> guarded_ratio v max_value == 1.
Proof.
  intros Heq Hpos. unfold guarded_ratio.
  assert (Hm : 0 < max_value) by (rewrite <- Heq; exact Hpos).
  destruct (Qlt_bool 0 max_value) eqn:E.
  - rewrite Heq. field. intros Hz. rewrite Hz in Hm.
    apply (Qlt_irrefl 0 Hm).
  - apply Qlt_bool_false_iff in E. exfalso. apply (Qlt_not_le _ _ Hm E).
Qed.

Lemma saturated_growth_bounds (g : Q) :
  0 <= g -> 0 <= saturated_growth g <= 1.
Proof.
  intros Hg. unfold saturated_growth. split.
  - apply Q.min_glb; [| discriminate].
    apply Qle_shift_div_l; [reflexivity |]. rewrite Qmult_0_l. exact Hg.
  - apply Q.le_min_r.
Qed.

Lemma saturated_growth_one (g : Q) : 0.1 <= g -> saturated_growth g == 1.
Proof.
  intros Hg. unfold saturated_growth. apply Q.min_r.
  apply Qle_shift_div_l; [reflexivity |]. rewrite Qmult_1_l. exact Hg.
Qed.


Lemma sorted_scores_in (json_loads : string -> option pyval) (input : pyval)
  (out : PriorityScores) (x : PriorityScoreInfo) :
  calculate_priority_scores json_loads input = Ok out ->
  In x (priority_scores out) ->
  exists max_evc max_market_size s,
    score_segment max_evc max_market_size s = Ok x.
Proof.
  intros H Hin.
  destruct (calculate_priority_scores_ok _ _ _ H)
    as (me & mm & items & scores & _ & _ & _ & Hmap & Hout & _).
  rewrite Hout in Hin.
  apply (Permutation_in _ (sort_desc_perm scores)) in Hin.
  destruct (mapM_ok_In _ _ _ _ Hmap Hin) as [s [_ Hs]].
  exists me, mm, s. exact Hs.
Qed.

Lemma scores_weighted (json_loads : string -> option pyval)
  (segs : list pyval) (rows : list ScoreInput) (out : PriorityScores) :
  Forall2 has_metrics segs rows ->
  calculate_priority_scores json_loads (PList segs) = Ok out ->
  scores_are_weighted_sums rows out.
Proof.
  intros Hrows H.
  destruct (calculate_priority_scores_ok _ _ _ H)
    as (me & mm & items & scores & Hme & Hmm & Hit & Hmap & Hout & _).
  rewrite (batch_max_metric "evc_value" in_evc_value get_evc_value
             segs rows Hrows) in Hme.
  rewrite (batch_max_metric "market_size" in_market_size get_market_size
             segs rows Hrows) in Hmm.
  injection Hme as <-. injection Hmm as <-.
  cbn [py_iter] in Hit. injection Hit as <-.
  exists scores. split.
  - rewrite Hout. apply Permutation_sym. apply sort_desc_perm.
  - apply (scores_of_metrics _ _ segs); assumption.
Qed.

Lemma batch_max_numbers (key : string) :
  forall segs,
    (forall s, In s segs ->
               exists q, py_get s key (PNum 0) = Ok (PNum q)) ->
    exists m, batch_max key (PList segs) = Ok (PNum m).
Proof.
  intros segs Hall. unfold batch_max.
  destruct segs as [| s segs]; [exists 1; reflexivity |].
  cbn [py_truthy py_iter bind].
  assert (Hvalues : exists qs,
             mapM (fun s => py_get s key (PNum 0)) (s :: segs)
             = Ok (map PNum qs) /\ qs <> []).
  { destruct (Hall s (or_introl eq_refl)) as [q Hq].
    assert (Hrest : exists qs,
               mapM (fun s => py_get s key (PNum 0)) segs
               = Ok (map PNum qs)).
    { assert (Hall' : forall s', In s' segs ->
                 exists q, py_get s' key (PNum 0) = Ok (PNum q))
        by (intros s' Hs'; apply Hall; right; exact Hs').
      clear Hall Hq. induction segs as [| s' segs IH].
      - exists []. reflexivity.
      - destruct (Hall' s' (or_introl eq_refl)) as [q' Hq'].
        destruct IH as [qs Hqs];
          [intros s'' Hs''; apply Hall'; right; exact Hs'' |].
        exists (q' :: qs). cbn [mapM]. rewrite Hq'. cbn [bind].
        rewrite Hqs. reflexivity. }
    destruct Hrest as [qs Hqs]. exists (q :: qs). split; [| discriminate].
    cbn [mapM]. rewrite Hq. cbn [bind]. rewrite Hqs. reflexivity. }
  destruct Hvalues as (qs & -> & Hne). cbn [bind].
  destruct qs as [| q qs]; [congruence |].
  eexists. apply py_max_numbers.
Qed.

(** The scorer returns on segments that hold their metrics, and a number
    or nothing under total_potential_value. *)
Lemma calculate_priority_scores_returns
  (json_loads : string -> option pyval) (segs : list pyval)
  (rows : list ScoreInput) :
  Forall2 has_metrics segs rows ->
  (forall s, In s segs ->
             exists q, py_get s "total_potential_value" (PNum 0)
                       = Ok (PNum q)) ->
  exists out, calculate_priority_scores json_loads (PList segs) = Ok out.
Proof.
  intros Hrows Hpot. unfold calculate_priority_scores.
  rewrite (batch_max_metric "evc_value" in_evc_value get_evc_value
             segs rows Hrows).
  rewrite (batch_max_metric "market_size" in_market_size get_market_size
             segs rows Hrows).
  destruct (batch_max_numbers "total_potential_value" segs Hpot) as [m ->].
  cbn [bind py_iter].
  assert (Hscores : exists scores,
             mapM (score_segment
                     (PNum (list_max (map in_evc_value rows)))
                     (PNum (list_max (map in_market_size rows)))) segs
             = Ok scores).
  { generalize (list_max (map in_evc_value rows)) as me.
    generalize (list_max (map in_market_size rows)) as mm.
    intros mm me. clear Hpot.
    induction Hrows as [| s r segs rows Hsr _ [scores IH]].
    - exists []. reflexivity.
    - destruct (score_segment_metrics s r me mm Hsr) as (x & Hx & _).
      exists (x :: scores). cbn [mapM]. rewrite Hx. cbn [bind].
      rewrite IH. reflexivity. }
  destruct Hscores as [scores ->]. cbn [bind]. eexists. reflexivity.
Qed.




(** C3.  The rank of every computed score is read off the thresholds
    0.8, 0.6, 0.4 and 0.2, each closed below and tried from the largest
    down: a score of exactly 0.8 is ranked 最優先 and 0.79999 is ranked
    高優先. *)
Theorem priority_rank_thresholds :
  (forall json_loads input out x,
      calculate_priority_scores json_loads input = Ok out ->
      In x (priority_scores out) ->
      priority_rank x = rank_of_score (priority_score x))
  /\ (forall score : Q,
        (0.8 <= score -> rank_of_score score = "最優先")
        /\ (0.6 <= score -> score < 0.8 -> rank_of_score score = "高優先")
        /\ (0.4 <= score -> score < 0.6 -> rank_of_score score = "中優先")
        /\ (0.2 <= score -> score < 0.4 -> rank_of_score score = "低優先")
        /\ (score < 0.2 -> rank_of_score score = "最低優先"))
  /\ rank_of_score 0.8 = "最優先"
  /\ rank_of_score 0.79999 = "高優先".
Proof.
  split; [| split; [| split; reflexivity]].
  - intros json_loads input out x H Hin.
    destruct (sorted_scores_in _ _ _ _ H Hin) as (me & mm & s & Hs).
    apply (score_segment_shape _ _ _ _ Hs).
  - intros score. unfold rank_of_score.
    assert (Hno : forall t, score < t -> Qle_bool t score = false).
    { intros t Ht. destruct (Qle_bool t score) eqn:E; [| reflexivity].
      apply Qle_bool_iff in E. exfalso. apply (Qlt_not_le _ _ Ht E). }
    assert (Hyes : forall t, t <= score -> Qle_bool t score = true).
    { intros t Ht. apply Qle_bool_iff. exact Ht. }
    repeat split.
    + intros H. rewrite (Hyes _ H). reflexivity.
    + intros H1 H2. rewrite (Hno _ H2), (Hyes _ H1). reflexivity.
    + intros H1 H2.
      rewrite (Hno 0.8), (Hno _ H2), (Hyes _ H1); [reflexivity |].
      apply Qlt_trans with 0.6; [exact H2 | reflexivity].
    + intros H1 H2.
      rewrite (Hno 0.8), (Hno 0.6), (Hno _ H2), (Hyes _ H1);
        [reflexivity | |].
      * apply Qlt_trans with 0.4; [exact H2 | reflexivity].
      * apply Qlt_trans with 0.4; [exact H2 | reflexivity].
    + intros H.
      rewrite (Hno 0.8), (Hno 0.6), (Hno 0.4), (Hno _ H); [reflexivity | | |].
      * apply Qlt_trans with 0.2; [exact H | reflexivity].
      * apply Qlt_trans with 0.2; [exact H | reflexivity].
      * apply Qlt_trans with 0.2; [exact H | reflexivity].
Qed.

Lemma priority_rank_thresholds_witness :
  exists out x,
    calculate_priority_scores no_json sample_segments = Ok out
    /\ In x (priority_scores out)
    /\ priority_rank x = rank_of_score (priority_score x)
    /\ rank_of_score 0.65 = "高優先".
Proof.
  eexists. eexists. split; [vm_compute; reflexivity |].
  split; [left; reflexivity |]. split.
  - apply (proj1 priority_rank_thresholds no_json sample_segments _ _ eq_refl).
    left. reflexivity.
  - apply (proj1 (proj2 (proj1 (proj2 priority_rank_thresholds) 0.65))).
    + vm_compute. discriminate.
    + reflexivity.
Defined.

Lemma guarded_score_bounds (rows : list ScoreInput) (r : ScoreInput) :
  In r rows -> in_range r ->
  0 <= guarded_score r (list_max (map in_evc_value rows))
         (list_max (map in_market_size rows)) <= 1.
Proof.
  intros Hin (He & Hm & Ha0 & Ha1 & Hg).
  pose proof (guarded_ratio_bounds (in_evc_value r)
                (list_max (map in_evc_value rows)) He
                (list_max_upper _ _ (in_map in_evc_value _ _ Hin))) as [E0 E1].
  pose proof (guarded_ratio_bounds (in_market_size r)
                (list_max (map in_market_size rows)) Hm
                (list_max_upper _ _ (in_map in_market_size _ _ Hin)))
    as [M0 M1].
  pose proof (saturated_growth_bounds _ Hg) as [G0 G1].
  unfold guarded_score.
  set (ne := guarded_ratio _ _) in *. set (nm := guarded_ratio _ _) in *.
  set (ng := saturated_growth _) in *.
  split; lra.
Qed.

Lemma guarded_score_top (rows : list ScoreInput) (r : ScoreInput) :
  at_the_top rows r ->
  guarded_score r (list_max (map in_evc_value rows))
    (list_max (map in_market_size rows)) == 1.
Proof.
  intros (He & Hep & Hm & Hmp & Ha & Hg). unfold guarded_score.
  rewrite (guarded_ratio_max _ _ He Hep), (guarded_ratio_max _ _ Hm Hmp).
  rewrite (saturated_growth_one _ Hg), Ha. reflexivity.
Qed.

Lemma Forall2_in_right {A B : Type} (P : A -> B -> Prop) (l : list A)
  (m : list B) (y : B) :
  Forall2 P l m -> In y m -> exists x, In x l /\ P x y.
Proof.
  induction 1 as [| a b l m Hab _ IH]; intros Hin; [destruct Hin |].
  destruct Hin as [<- | Hin].
  - exists a. split; [left; reflexivity | exact Hab].
  - destruct (IH Hin) as [x [Hx HP]]. exists x. split; [right |]; assumption.
Qed.

Lemma Forall2_in_weaken {A B : Type} (P R : A -> B -> Prop) (l : list A)
  (m : list B) :
  (forall x y, In x l -> P x y -> R x y) -> Forall2 P l m -> Forall2 R l m.
Proof.
  intros HPR H. induction H as [| a b l m Hab _ IH]; constructor.
  - apply HPR; [left; reflexivity | exact Hab].
  - apply IH. intros x y Hx. apply HPR. right. exact Hx.
Qed.

(** With exact arithmetic in place of binary64 the bounds are 0 and 1:
    for metrics that are not negative and a probability of at most 1
    every score lies in [0, 1], and a segment at the top scores 1. *)
Lemma exact_score_bounds
  (json_loads : string -> option pyval) (segs : list pyval)
  (rows : list ScoreInput) (out : PriorityScores) :
  Forall2 has_metrics segs rows ->
  (forall r, In r rows -> in_range r) ->
  calculate_priority_scores json_loads (PList segs) = Ok out ->
  scores_bounded rows out.
Proof.
  intros Hrows Hrange H.
  destruct (scores_weighted json_loads segs rows out Hrows H)
    as (scores & Hperm & Hall).
  split.
  - intros x Hin.
    apply (Permutation_in _ (Permutation_sym Hperm)) in Hin.
    destruct (Forall2_in_right _ _ _ _ Hall Hin) as (r & Hr & Hx).
    rewrite Hx. apply guarded_score_bounds; [exact Hr | apply Hrange, Hr].
  - exists scores. split; [exact Hperm |].
    apply (Forall2_in_weaken _ _ _ _ (fun r x _ Hx Htop =>
             Qeq_trans _ _ _ Hx (guarded_score_top rows r Htop)) Hall).
Qed.

(** On the machine's floats the weighted sum of four normalized values
    equal to 1 is the next float above 1. *)
Lemma binary64_top_score :
  Binary64.binary64_score Binary64.one Binary64.one Binary64.one Binary64.one
  = Binary64.above_one
  /\ PrimFloat.leb
       (Binary64.binary64_score Binary64.one Binary64.one Binary64.one
          Binary64.one)
       Binary64.one = false.
Proof. split; vm_compute; reflexivity. Qed.

Lemma chars_go_cons (s cur : string) :
  exists c l, chars_go s cur = c :: l.
Proof.
  revert cur. induction s as [| a s IH]; intros cur; simpl.
  - exists cur, []. reflexivity.
  - destruct (is_continuation a).
    + apply IH.
    + exists cur. eexists. reflexivity.
Qed.

Lemma chars_cons (text : string) :
  text <> EmptyString -> exists c l, chars text = c :: l.
Proof.
  destruct text as [| a s]; intros Hne; [congruence |].
  simpl. apply chars_go_cons.
Qed.

Lemma py_get_ok_dict (v : pyval) (k : string) (default x : pyval) :
  py_get v k default = Ok x -> is_dict v = true.
Proof. destruct v; simpl; intros H; try discriminate H; reflexivity. Qed.

Lemma py_get_str (s k : string) (default : pyval) :
  py_get (PStr s) k default = Raise AttributeError.
Proof. reflexivity. Qed.

(** The first maximum is already out of reach when the first element
    is a string. *)
Lemma calculate_priority_scores_first_str
  (json_loads : string -> option pyval) (input : pyval) (s : string)
  (items : list pyval) :
  py_truthy input = true ->
  py_iter input = Ok (PStr s :: items) ->
  calculate_priority_scores json_loads input = Raise AttributeError.
Proof.
  intros Ht Hit. unfold calculate_priority_scores, batch_max.
  rewrite Ht, Hit. reflexivity.
Qed.

Lemma calculate_priority_scores_ok_list
  (json_loads : string -> option pyval) (l : list pyval)
  (out : PriorityScores) :
  calculate_priority_scores json_loads (PList l) = Ok out ->
  Forall (fun v => is_dict v = true) l.
Proof.
  intros H.
  destruct (calculate_priority_scores_ok _ _ _ H)
    as (me & mm & items & scores & Hme & _).
  destruct l as [| v l]; [constructor |].
  unfold batch_max in Hme. cbn [py_truthy py_iter bind] in Hme.
  apply bind_ok in Hme. destruct Hme as [values [Hvalues _]].
  apply mapM_ok_Forall2 in Hvalues. clear H.
  induction Hvalues as [| x y xs ys Hxy _ IH]; constructor.
  - apply (py_get_ok_dict _ _ _ _ Hxy).
  - exact IH.
Qed.

(** C10 (as amended).  For every non-empty input whose elements are
    strings -- a non-empty list of strings, or a non-empty bare string --
    [calculate_priority_scores] raises AttributeError when it computes
    the batch maxima: the maxima and the scoring loop go through the
    argument as received, and the result does not depend on what the
    parsing stage read.  On a non-empty input the function returns
    normally only when given a list of dictionaries; on the empty list,
    the empty string and the empty dictionary it returns no score. *)
Theorem calculate_priority_scores_raises_on_strings
  (json_loads : string -> option pyval) :
  (forall v l,
      Forall (fun v => is_str v = true) (v :: l) ->
      calculate_priority_scores json_loads (PList (v :: l))
      = Raise AttributeError)
  /\ (forall text,
        text <> EmptyString ->
        calculate_priority_scores json_loads (PStr text)
        = Raise AttributeError)
  /\ (forall input out,
        calculate_priority_scores json_loads input = Ok out ->
        ((input = PList [] \/ input = PStr EmptyString \/ input = PDict [])
         /\ priority_scores out = [])
        \/ (exists l, input = PList l
                      /\ Forall (fun v => is_dict v = true) l))
  /\ (forall other_loads input,
        calculate_priority_scores other_loads input
        = calculate_priority_scores json_loads input).
Proof.
  split; [| split; [| split]].
  - intros v l Hall. inversion Hall as [| v' l' Hv _]; subst.
    destruct v; try discriminate Hv.
    apply (calculate_priority_scores_first_str _ _ s l); reflexivity.
  - intros text Hne. destruct (chars_cons text Hne) as (c & l & Hc).
    apply (calculate_priority_scores_first_str _ _ c (map PStr l)).
    + simpl. destruct text; [congruence | reflexivity].
    + simpl. rewrite Hc. reflexivity.
  - intros input out H. destruct input as [| b | q | text | l | d].
    + discriminate H.
    + destruct b; discriminate H.
    + unfold calculate_priority_scores, batch_max in H.
      destruct (py_truthy (PNum q)); discriminate H.
    + destruct (String.eqb text EmptyString) eqn:E.
      * apply String.eqb_eq in E. subst text. left.
        injection H as <-. split; [right; left |]; reflexivity.
      * apply String.eqb_neq in E.
        destruct (chars_cons text E) as (c & l & Hc).
        rewrite (calculate_priority_scores_first_str _ _ c (map PStr l)) in H.
        -- discriminate H.
        -- simpl. apply String.eqb_neq in E. rewrite E. reflexivity.
        -- simpl. rewrite Hc. reflexivity.
    + right. exists l. split; [reflexivity |].
      apply (calculate_priority_scores_ok_list _ _ _ H).
    + destruct d as [| [k v] d].
      * left. injection H as <-. split; [right; right |]; reflexivity.
      * rewrite (calculate_priority_scores_first_str _ _ k
                   (map PStr (dict_keys d))) in H; [discriminate H | |];
          reflexivity.
  - intros other_loads input. reflexivity.
Qed.

Lemma calculate_priority_scores_raises_on_strings_witness :
  calculate_priority_scores no_json (PList [PStr "s1"; PStr "s2"])
  = Raise AttributeError
  /\ calculate_priority_scores no_json (PStr "{}") = Raise AttributeError
  /\ exists out,
       calculate_priority_scores no_json sample_segments = Ok out
       /\ exists l, sample_segments = PList l
                    /\ Forall (fun v => is_dict v = true) l.
Proof.
  destruct (calculate_priority_scores_raises_on_strings no_json)
    as (Hlist & Htext & Hok & _).
  split; [| split].
  - apply Hlist. repeat constructor.
  - apply Htext. discriminate.
  - eexists. split; [vm_compute; reflexivity |].
    destruct (Hok sample_segments _ eq_refl) as [[[H | [H | H]] _] | H].
    + discriminate H.
    + discriminate H.
    + discriminate H.
    + exact H.
Defined.

(** C10 (as stated) fails on the empty inputs: the empty list, which is a
    list of strings, does not raise; and the function returns normally on
    the empty string, which is not a list of dictionaries. *)
Lemma calculate_priority_scores_returns_on_empty :
  Forall (fun v => is_str v = true) []
  /\ calculate_priority_scores no_json (PList [])
     = Ok {| priority_scores := []; weights := score_weights |}
  /\ is_list (PStr EmptyString) = false
  /\ calculate_priority_scores no_json (PStr EmptyString)
     = Ok {| priority_scores := []; weights := score_weights |}.
Proof. repeat split; constructor. Qed.

End PriorityFacts.

(** ** Rounding to binary64 *)

Module Float64Facts.
Import Float64.
Local Open Scope Q_scope.






















End Float64Facts.


(** ** The priority scorer in binary64 *)

Module Binary64ScoreFacts.
Import Py Statements PyFacts PriorityStatements Float64 Float64Facts.
Import Binary64Statements.
Import PriorityEvaluation.
Local Open Scope py_scope.

(** The rounding agrees with the primitive floats of the machine on the
    literals of the scorer and on the operations of the top score. *)
Lemma round64_denotes_primitive_floats :
  forallb (fun sample => Binary64.denotes (fst sample) (snd sample))
    Binary64.machine_samples = true.
Proof. vm_compute. reflexivity. Qed.





























End Binary64ScoreFacts.

(** ** The formula customizer *)

Module FormulaFacts.
Import Py Statements PyFacts FormulaDesign FormulaStatements.
Local Open Scope py_scope.

Lemma extract_present (d : dict) (name : string)
  (is_enterprise is_high_value : bool) (default v : pyval) :
  dict_get d name = Some v ->
  extract_parameter_from_characteristics (PDict d) name
    is_enterprise is_high_value default = Ok v.
Proof.
  intros H. unfold extract_parameter_from_characteristics.
  destruct d as [| kv d]; [discriminate H |].
  cbn [py_truthy py_contains_key]. unfold dict_mem. rewrite H.
  cbn [bind py_getitem_key]. rewrite H. reflexivity.
Qed.

Lemma extract_absent (d : dict) (name : string)
  (is_enterprise is_high_value : bool) (default : pyval) :
  dict_get d name = None ->
  extract_parameter_from_characteristics (PDict d) name
    is_enterprise is_high_value default
  = Ok (parameter_default name is_enterprise is_high_value default).
Proof.
  intros H. unfold extract_parameter_from_characteristics.
  destruct d as [| kv d]; [reflexivity |].
  cbn [py_truthy py_contains_key]. unfold dict_mem. rewrite H. reflexivity.
Qed.

Lemma parameter_default_table (name : string) (row : DefaultRow)
  (is_enterprise is_high_value : bool) (default : pyval) :
  dict_get spec_default_table name = Some row ->
  exists q,
    parameter_default name is_enterprise is_high_value default = PNum q
    /\ q == select row is_enterprise is_high_value.
Proof.
  unfold spec_default_table. cbn [dict_get]. intros H.
  repeat match type of H with
         | context [String.eqb ?k name] =>
             destruct (String.eqb_spec k name) as [<- | _];
             [ injection H as <-;
               destruct is_enterprise, is_high_value;
               eexists; split; reflexivity
             | ]
         end.
  discriminate H.
Qed.

(** C7.  [extract_parameter_from_characteristics] returns the value that
    the characteristics dictionary holds under the parameter name when the
    key is present, and otherwise the default of the table, keyed by
    (is_enterprise, is_high_value): annual_revenue 1,000,000,000 /
    800,000,000 / 200,000,000 / 50,000,000, annual_cost 500,000,000 /
    400,000,000 / 100,000,000 / 25,000,000, revenue_increase_rate 0.05 /
    0.03 / 0.08 / 0.02, cost_reduction_rate 0.15 / 0.20 / 0.12 / 0.10,
    initial_cost 500,000 / 400,000 / 200,000 / 100,000, operation_cost
    10,000 / 8,000 / 5,000 / 3,000, reference_price 15,000 and
    implementation_years 3. *)
Theorem extract_parameter_value_or_default
  (d : dict) (name : string) (is_enterprise is_high_value : bool)
  (default : pyval) :
  (forall v,
      dict_get d name = Some v ->
      extract_parameter_from_characteristics (PDict d) name
        is_enterprise is_high_value default = Ok v)
  /\ (forall row,
        dict_get d name = None ->
        dict_get spec_default_table name = Some row ->
        exists q,
          extract_parameter_from_characteristics (PDict d) name
            is_enterprise is_high_value default = Ok (PNum q)
          /\ q == select row is_enterprise is_high_value).
Proof.
  split.
  - intros v H. apply extract_present. exact H.
  - intros row Habsent Hrow. rewrite (extract_absent _ _ _ _ _ Habsent).
    destruct (parameter_default_table name row is_enterprise is_high_value
                default Hrow) as (q & -> & Hq).
    exists q. split; [reflexivity | exact Hq].
Qed.

Lemma extract_parameter_value_or_default_witness :
  extract_parameter_from_characteristics
    (PDict [("annual_revenue", PNum 123)]) "annual_revenue" true false PNone
  = Ok (PNum 123)
  /\ exists q,
       extract_parameter_from_characteristics
         (PDict [("annual_revenue", PNum 123)]) "cost_reduction_rate"
         true false PNone = Ok (PNum q)
       /\ q == 0.20.
Proof.
  split.
  - apply (proj1 (extract_parameter_value_or_default
                    [("annual_revenue", PNum 123)] "annual_revenue"
                    true false PNone)).
    reflexivity.
  - apply (proj2 (extract_parameter_value_or_default
                    [("annual_revenue", PNum 123)] "cost_reduction_rate"
                    true false PNone)
             {| ent_high := 0.15; ent_low := 0.20;
                smb_high := 0.12; smb_low := 0.10 |});
      reflexivity.
Defined.

Lemma py_get_dict_ok (d : dict) (k : string) (default : pyval) :
  exists x, py_get (PDict d) k default = Ok x.
Proof. simpl. destruct (dict_get d k); eexists; reflexivity. Qed.

Lemma component_field_other (components : pyval) (key : string)
  (default v : pyval) :
  component_field components key "weight" default = Ok v ->
  forall field default', exists x,
    component_field components key field default' = Ok x.
Proof.
  unfold component_field. intros H field default'.
  apply bind_ok in H. destruct H as [component [Hc Hw]].
  rewrite Hc. cbn [bind].
  destruct component; try discriminate Hw. apply py_get_dict_ok.
Qed.

Lemma customized_component_weight (components : pyval) (key : string)
  (description calculation : string) (base adjustment : Q) :
  (exists v q,
      component_field components key "weight" (PNum base) = Ok v
      /\ as_num v = Some q /\ q == base) ->
  exists c,
    customized_component components key description calculation
      base adjustment = Ok c
    /\ weight c == base * adjustment.
Proof.
  intros (v & q & Hv & Hq & Hbase). unfold customized_component.
  destruct (component_field_other _ _ _ _ Hv "description"
              (PStr description)) as [d ->].
  destruct (component_field_other _ _ _ _ Hv "calculation"
              (PStr calculation)) as [c ->].
  rewrite Hv. cbn [bind]. unfold py_mul, arith. rewrite Hq.
  cbn [as_num bind num]. eexists. split; [reflexivity |].
  cbn [weight]. rewrite Hbase. reflexivity.
Qed.

Lemma extract_dict_ok (d : dict) (name : string)
  (is_enterprise is_high_value : bool) (default : pyval) :
  exists v,
    extract_parameter_from_characteristics (PDict d) name
      is_enterprise is_high_value default = Ok v.
Proof.
  destruct (dict_get d name) as [v |] eqn:E.
  - exists v. apply extract_present. exact E.
  - eexists. apply extract_absent. exact E.
Qed.

Lemma parameters_ok (d : dict) (is_enterprise is_high_value : bool) :
  forall names : list (string * pyval),
  exists ps,
    mapM (fun '(name, default) =>
            v <- extract_parameter_from_characteristics (PDict d) name
                   is_enterprise is_high_value default ;;
            Ok (name, v))
         names = Ok ps.
Proof.
  induction names as [| [name default] names [ps IH]]; cbn [mapM].
  - eexists. reflexivity.
  - destruct (extract_dict_ok d name is_enterprise is_high_value default)
      as [v ->].
    cbn [bind]. rewrite IH. cbn [bind]. eexists. reflexivity.
Qed.

Lemma segment_flags_digit (d : nat) :
  (d < 10)%nat ->
  segment_flags (segment_of_digit d) = ((d <=? 2)%nat, Nat.odd d).
Proof.
  intros Hd.
  do 10 (destruct d as [| d]; [reflexivity |]). lia.
Qed.

Lemma customize_with_flags (json_loads : string -> option pyval)
  (segment_id : string) (base_formula segment_characteristics : pyval)
  (is_enterprise is_high_value : bool) :
  segment_flags segment_id = (is_enterprise, is_high_value) ->
  has_base_weights
    (base_components (parse_base_formula json_loads base_formula)) ->
  is_dict (parse_characteristics json_loads segment_characteristics) = true ->
  exists r,
    customize_formula_for_segment json_loads segment_id base_formula
      segment_characteristics = Ok r
    /\ weights_customized is_enterprise is_high_value r.
Proof.
  intros Hflags Hbase Hdict. unfold customize_formula_for_segment.
  rewrite Hflags.
  destruct (segment_type_and_name is_enterprise is_high_value)
    as [segment_type segment_name].
  set (components :=
         base_components (parse_base_formula json_loads base_formula)) in *.
  destruct (parse_characteristics json_loads segment_characteristics)
    as [| | | | | cd]; try discriminate Hdict.
  destruct (customized_component_weight components "R"
              "参照価格" "市場平均価格" 1.0
              (adj_R (adjustments_for is_enterprise is_high_value))
              (Hbase "R" 1.0 eq_refl)) as (cR & -> & HR).
  destruct (customized_component_weight components "Re"
              "収益向上価値" "売上増加率 × 年間売上 × 導入年数" 1.2
              (adj_Re (adjustments_for is_enterprise is_high_value))
              (Hbase "Re" 1.2 eq_refl)) as (cRe & -> & HRe).
  destruct (customized_component_weight components "Co"
              "コスト最適化価値" "コスト削減率 × 年間コスト × 導入年数" 1.0
              (adj_Co (adjustments_for is_enterprise is_high_value))
              (Hbase "Co" 1.0 eq_refl)) as (cCo & -> & HCo).
  destruct (customized_component_weight components "I"
              "導入コスト" "初期費用 + 運用コスト × 導入年数" 0.9
              (adj_I (adjustments_for is_enterprise is_high_value))
              (Hbase "I" 0.9 eq_refl)) as (cI & -> & HI).
  cbn [bind].
  destruct (parameters_ok cd is_enterprise is_high_value parameter_names)
    as [ps ->].
  cbn [bind]. eexists. split; [reflexivity |].
  unfold weights_customized. cbn [comp_R comp_Re comp_Co comp_I].
  rewrite HR, HRe, HCo, HI.
  destruct is_enterprise, is_high_value; repeat split; reflexivity.
Qed.

(** C5.  For a segment id made of the letter s and a digit,
    [customize_formula_for_segment] takes is_enterprise to be
    (digit <= 2) and is_high_value to be (digit odd), and produces the
    base weights 1.0 / 1.2 / 1.0 / 0.9 of R / Re / Co / I multiplied by
    1.0 plus the factor: for Re +0.2 if high-value else -0.2, for Co +0.2
    if not high-value else -0.1, for I +0.2 if not enterprise else -0.2,
    for R always 0.  So s1 and s3 have the Re factor +0.2, s2 and s4 the
    Re factor -0.2: the Re factor does not depend on is_enterprise. *)
Theorem customize_formula_weights
  (json_loads : string -> option pyval) (d : nat)
  (base_formula segment_characteristics : pyval) :
  (d < 10)%nat ->
  has_base_weights
    (base_components (parse_base_formula json_loads base_formula)) ->
  is_dict (parse_characteristics json_loads segment_characteristics) = true ->
  segment_flags (segment_of_digit d) = ((d <=? 2)%nat, Nat.odd d)
  /\ (exists r,
        customize_formula_for_segment json_loads (segment_of_digit d)
          base_formula segment_characteristics = Ok r
        /\ weights_customized (d <=? 2)%nat (Nat.odd d) r)
  /\ (forall is_enterprise is_high_value,
        adj_R (adjustments_for is_enterprise is_high_value) = 1.0
        /\ adj_Re (adjustments_for is_enterprise is_high_value)
           = 1.0 + (if is_high_value then 0.2 else -0.2)
        /\ adj_Co (adjustments_for is_enterprise is_high_value)
           = 1.0 + (if negb is_high_value then 0.2 else -0.1)
        /\ adj_I (adjustments_for is_enterprise is_high_value)
           = 1.0 + (if negb is_enterprise then 0.2 else -0.2))
  /\ re_adjustment "s1" = 1.0 + 0.2 /\ re_adjustment "s3" = 1.0 + 0.2
  /\ re_adjustment "s2" = 1.0 + -0.2 /\ re_adjustment "s4" = 1.0 + -0.2.
Proof.
  intros Hd Hbase Hdict.
  pose proof (segment_flags_digit d Hd) as Hflags.
  split; [exact Hflags |]. split.
  - apply customize_with_flags; assumption.
  - repeat split; reflexivity.
Qed.

Lemma empty_components_have_base_weights : has_base_weights (PDict []).
Proof.
  intros key base H. unfold spec_base_weights in H. cbn [dict_get] in H.
  repeat match type of H with
         | context [String.eqb ?k key] =>
             destruct (String.eqb_spec k key) as [<- | _];
             [ injection H as <-; eexists; eexists;
               repeat split; reflexivity
             | ]
         end.
  discriminate H.
Qed.

(** The document of [design_evc_formula] carries the base weights. *)
Lemma design_components_have_base_weights :
  has_base_weights design_components.
Proof.
  intros key base H. unfold spec_base_weights in H. cbn [dict_get] in H.
  repeat match type of H with
         | context [String.eqb ?k key] =>
             destruct (String.eqb_spec k key) as [<- | _];
             [ injection H as <-; eexists; eexists;
               repeat split; reflexivity
             | ]
         end.
  discriminate H.
Qed.

(** A base formula read as the document of [design_evc_formula] gives
    the customizer the base weights. *)
Lemma design_formula_has_base_weights
  (json_loads : string -> option pyval) (text : string) (d : dict) :
  in_braces text = true ->
  json_loads text = Some (PDict d) ->
  dict_get d "components" = Some design_components ->
  has_base_weights
    (base_components (parse_base_formula json_loads (PStr text))).
Proof.
  intros Hb Hl Hc. unfold parse_base_formula, loads_with_repair.
  rewrite Hb, Hl. unfold base_components.
  destruct d as [| kv d]; [discriminate Hc |].
  cbn [py_truthy py_contains_key]. unfold dict_mem. rewrite Hc.
  cbn [bind py_getitem_key]. rewrite Hc. cbn [try_except].
  apply design_components_have_base_weights.
Qed.

Lemma customize_formula_weights_witness :
  segment_flags "s3" = (false, true)
  /\ exists r,
       customize_formula_for_segment (loads_table []) "s3"
         sample_base_formula sample_characteristics = Ok r
       /\ weights_customized false true r.
Proof.
  pose proof (customize_formula_weights (loads_table []) 3
                sample_base_formula sample_characteristics
                ltac:(lia) empty_components_have_base_weights eq_refl)
    as (Hflags & Hr & _).
  split; [exact Hflags | exact Hr].
Defined.

End FormulaFacts.

(** ** The market potential estimator *)

Module MarketFacts.
Import Py Statements PyFacts MarketPotential MarketStatements.
Local Open Scope py_scope.

Lemma potential_at_ok (company_estimate acquisition_rate evc_value : pyval)
  (k : string) (q : Q) :
  potential_at company_estimate acquisition_rate evc_value k = Ok q ->
  exists c a e,
    number_at company_estimate k c /\ number_at acquisition_rate k a
    /\ as_num evc_value = Some e /\ q = c * a * e.
Proof.
  unfold potential_at. intros H.
  bind_inv H as vc Hc.
  bind_inv H as va Ha.
  bind_inv H as ca Hca.
  bind_inv H as p Hp.
  unfold py_mul, arith in Hca.
  destruct (as_num vc) as [c |] eqn:Ec; [| discriminate Hca].
  destruct (as_num va) as [a |] eqn:Ea; [| discriminate Hca].
  injection Hca as <-.
  unfold py_mul, arith in Hp. cbn [as_num] in Hp.
  destruct (as_num evc_value) as [e |] eqn:Ee; [| discriminate Hp].
  injection Hp as <-. cbn in H. injection H as <-.
  exists c, a, e. repeat split.
  - exists vc. split; assumption.
  - exists va. split; assumption.
Qed.

Lemma potential_at_numbers (company_estimate acquisition_rate : pyval)
  (k : string) (c a e : Q) :
  number_at company_estimate k c -> number_at acquisition_rate k a ->
  potential_at company_estimate acquisition_rate (PNum e) k = Ok (c * a * e).
Proof.
  intros (vc & Hc & Ec) (va & Ha & Ea). unfold potential_at.
  rewrite Hc, Ha. cbn [bind]. unfold py_mul, arith. rewrite Ec, Ea.
  reflexivity.
Qed.

Section Estimators.

Variable json_loads : string -> option pyval.
Variable estimate_companies_with_ai : string -> pyval -> result pyval.
Variable estimate_acquisition_rate_with_ai : string -> pyval -> result pyval.

Local Abbreviation calculate :=
  (calculate_segment_potential json_loads estimate_companies_with_ai
     estimate_acquisition_rate_with_ai).

(** What a run that reaches the products has gone through. *)
Lemma calculate_segment_potential_ok (segment_id : string)
  (evc_result segment_info : pyval) (p : Potential) :
  calculate segment_id evc_result segment_info = Ok (PotentialResult p) ->
  potential_at (companies p) (acquisition_rate p) (evc_value p) "min"
  = Ok (min (potential_value p))
  /\ potential_at (companies p) (acquisition_rate p) (evc_value p) "expected"
     = Ok (expected (potential_value p))
  /\ potential_at (companies p) (acquisition_rate p) (evc_value p) "max"
     = Ok (max (potential_value p)).
Proof.
  unfold calculate_segment_potential.
  destruct (loads json_loads segment_info) as [segment_data |];
    [| discriminate].
  destruct (loads json_loads evc_result) as [evc_data |]; [| discriminate].
  intros H.
  bind_inv H as checked _.
  destruct (negb (py_truthy checked)); [discriminate H |].
  bind_inv H as ev _.
  bind_inv H as ce _.
  bind_inv H as ar _.
  bind_inv H as lo Hlo.
  bind_inv H as mid Hmid.
  bind_inv H as hi Hhi.
  injection H as <-. cbn. repeat split; assumption.
Qed.

End Estimators.

(** C8.  In every result that [calculate_segment_potential] computes, the
    potential value under each of min, expected and max is the product of
    the company count, the acquisition rate and the EVC value under the
    same key: an element-wise product of the three estimates. *)
Theorem potential_value_is_product
  (json_loads : string -> option pyval)
  (estimate_companies_with_ai estimate_acquisition_rate_with_ai
     : string -> pyval -> result pyval)
  (segment_id : string) (evc_result segment_info : pyval) (p : Potential) :
  calculate_segment_potential json_loads estimate_companies_with_ai
    estimate_acquisition_rate_with_ai segment_id evc_result segment_info
  = Ok (PotentialResult p) ->
  product_at p "min" (min (potential_value p))
  /\ product_at p "expected" (expected (potential_value p))
  /\ product_at p "max" (max (potential_value p)).
Proof.
  intros H.
  destruct (calculate_segment_potential_ok _ _ _ _ _ _ _ H)
    as (Hlo & Hmid & Hhi).
  repeat split; apply potential_at_ok; assumption.
Qed.

Lemma potential_value_is_product_witness :
  exists p,
    calculate_segment_potential sample_loads companies_fallback
      acquisition_rate_fallback "s1" (PStr text_evc_number)
      (PStr text_empty_object) = Ok (PotentialResult p)
    /\ potential_value p
       = {| min := 100 * 0.05 * 2000;
            expected := 500 * 0.15 * 2000;
            max := 1000 * 0.30 * 2000 |}
    /\ product_at p "min" (min (potential_value p))
    /\ product_at p "expected" (expected (potential_value p))
    /\ product_at p "max" (max (potential_value p)).
Proof.
  eexists. split; [vm_compute; reflexivity |]. split; [reflexivity |].
  apply (potential_value_is_product sample_loads companies_fallback
           acquisition_rate_fallback "s1" (PStr text_evc_number)
           (PStr text_empty_object)).
  reflexivity.
Defined.

Section ErrorResults.

Variable json_loads : string -> option pyval.
Variable estimate_companies_with_ai : string -> pyval -> result pyval.
Variable estimate_acquisition_rate_with_ai : string -> pyval -> result pyval.

Local Abbreviation calculate :=
  (calculate_segment_potential json_loads estimate_companies_with_ai
     estimate_acquisition_rate_with_ai).

Lemma error_on_unparsed (segment_id : string)
  (evc_result segment_info : pyval) :
  loads json_loads segment_info = None
  \/ loads json_loads evc_result = None ->
  calculate segment_id evc_result segment_info
  = Ok (ErrorResult "データ形式が不正です" ExceptionText).
Proof.
  unfold calculate_segment_potential. intros [H | H].
  - rewrite H. reflexivity.
  - rewrite H. destruct (loads json_loads segment_info); reflexivity.
Qed.

Lemma error_on_falsy (segment_id : string) (evc_result segment_info : pyval)
  (segment_data : pyval) (d : dict) :
  loads json_loads segment_info = Some segment_data ->
  loads json_loads evc_result = Some (PDict d) ->
  evc_value_falsy d = true ->
  calculate segment_id evc_result segment_info
  = Ok (ErrorResult "EVC値が見つかりません"
          (Text "有効なEVC計算結果が必要です")).
Proof.
  unfold calculate_segment_potential, evc_value_falsy.
  intros -> -> H. cbn [py_get].
  destruct (dict_get d "evc_value") as [v |]; cbn [bind].
  - rewrite H. reflexivity.
  - reflexivity.
Qed.

Lemma no_error_on_truthy (segment_id : string)
  (evc_result segment_info : pyval) (segment_data : pyval) (d : dict) :
  loads json_loads segment_info = Some segment_data ->
  loads json_loads evc_result = Some (PDict d) ->
  evc_value_falsy d = false ->
  ~ is_error (calculate segment_id evc_result segment_info).
Proof.
  unfold calculate_segment_potential, evc_value_falsy, is_error.
  intros -> -> H (error & message & Hr). cbn [py_get] in Hr.
  destruct (dict_get d "evc_value") as [v |]; [| discriminate H].
  cbn [bind] in Hr. rewrite H in Hr.
  bind_inv Hr as ce _.
  bind_inv Hr as ar _.
  bind_inv Hr as lo _.
  bind_inv Hr as mid _.
  bind_inv Hr as hi _.
  discriminate Hr.
Qed.

Lemma result_on_numbers (segment_id : string)
  (evc_result segment_info : pyval) (segment_data : pyval) (d : dict)
  (e : Q) (company_estimate acquisition_rate : pyval) :
  loads json_loads segment_info = Some segment_data ->
  loads json_loads evc_result = Some (PDict d) ->
  dict_get d "evc_value" = Some (PNum e) ->
  ~ e == 0 ->
  estimate_companies_with_ai segment_id segment_data = Ok company_estimate ->
  estimate_acquisition_rate_with_ai segment_id segment_data
  = Ok acquisition_rate ->
  numeric_triple company_estimate ->
  numeric_triple acquisition_rate ->
  exists p,
    calculate segment_id evc_result segment_info = Ok (PotentialResult p)
    /\ has_error_key (PotentialResult p) = false.
Proof.
  unfold calculate_segment_potential.
  intros -> -> He Hnz -> -> (c1 & c2 & c3 & Hc1 & Hc2 & Hc3)
    (a1 & a2 & a3 & Ha1 & Ha2 & Ha3).
  cbn [py_get]. rewrite He. cbn [bind py_truthy].
  destruct (Qeq_bool e 0) eqn:Ez.
  - apply Qeq_bool_eq in Ez. contradiction.
  - cbn [negb bind].
    rewrite (potential_at_numbers _ _ "min" c1 a1 e Hc1 Ha1).
    rewrite (potential_at_numbers _ _ "expected" c2 a2 e Hc2 Ha2).
    rewrite (potential_at_numbers _ _ "max" c3 a3 e Hc3 Ha3).
    cbn [bind]. eexists. split; reflexivity.
Qed.

End ErrorResults.

(** C9 (as amended).  [calculate_segment_potential] returns an explicit
    error result, without raising and without computing a potential
    value, when one of its inputs fails to parse as JSON; when both parse
    and the parsed EVC result is a JSON object, it returns an error result
    if and only if evc_value is absent or counts as false (null, false,
    zero, an empty string, list or object); when evc_value is a number
    other than zero and both estimates hold numbers under min, expected
    and max, it returns a result that carries no error key. *)
Theorem segment_potential_error_iff
  (json_loads : string -> option pyval)
  (estimate_companies_with_ai estimate_acquisition_rate_with_ai
     : string -> pyval -> result pyval)
  (segment_id : string) (evc_result segment_info : pyval) :
  let calculate :=
    calculate_segment_potential json_loads estimate_companies_with_ai
      estimate_acquisition_rate_with_ai in
  (loads json_loads segment_info = None
   \/ loads json_loads evc_result = None ->
   calculate segment_id evc_result segment_info
   = Ok (ErrorResult "データ形式が不正です" ExceptionText))
  /\ (forall segment_data d,
        loads json_loads segment_info = Some segment_data ->
        loads json_loads evc_result = Some (PDict d) ->
        (is_error (calculate segment_id evc_result segment_info)
         <-> evc_value_falsy d = true))
  /\ (forall segment_data d e company_estimate acquisition_rate,
        loads json_loads segment_info = Some segment_data ->
        loads json_loads evc_result = Some (PDict d) ->
        dict_get d "evc_value" = Some (PNum e) ->
        ~ e == 0 ->
        estimate_companies_with_ai segment_id segment_data
        = Ok company_estimate ->
        estimate_acquisition_rate_with_ai segment_id segment_data
        = Ok acquisition_rate ->
        numeric_triple company_estimate ->
        numeric_triple acquisition_rate ->
        exists p,
          calculate segment_id evc_result segment_info
          = Ok (PotentialResult p)
          /\ has_error_key (PotentialResult p) = false).
Proof.
  intros calculate. split; [| split].
  - apply error_on_unparsed.
  - intros segment_data d Hs He. split.
    + intros Herr. destruct (evc_value_falsy d) eqn:E; [reflexivity |].
      exfalso.
      apply (no_error_on_truthy json_loads estimate_companies_with_ai
               estimate_acquisition_rate_with_ai segment_id evc_result
               segment_info segment_data d Hs He E Herr).
    + intros Hf. eexists. eexists.
      apply (error_on_falsy json_loads estimate_companies_with_ai
               estimate_acquisition_rate_with_ai segment_id evc_result
               segment_info segment_data d Hs He Hf).
  - intros segment_data d e ce ar. apply result_on_numbers.
Qed.

Lemma default_companies_numeric : numeric_triple default_companies.
Proof.
  exists 100, 500, 1000. repeat split; eexists; split; reflexivity.
Qed.

Lemma default_acquisition_rate_numeric :
  numeric_triple default_acquisition_rate.
Proof.
  exists 0.05, 0.15, 0.30. repeat split; eexists; split; reflexivity.
Qed.

Lemma segment_potential_error_iff_witness :
  calculate_segment_potential sample_loads companies_fallback
    acquisition_rate_fallback "s1" (PStr "not json") (PStr text_empty_object)
  = Ok (ErrorResult "データ形式が不正です" ExceptionText)
  /\ is_error
       (calculate_segment_potential sample_loads companies_fallback
          acquisition_rate_fallback "s1" (PStr text_empty_object)
          (PStr text_empty_object))
  /\ exists p,
       calculate_segment_potential sample_loads companies_fallback
         acquisition_rate_fallback "s1" (PStr text_evc_number)
         (PStr text_empty_object) = Ok (PotentialResult p)
       /\ has_error_key (PotentialResult p) = false.
Proof.
  split; [| split].
  - apply (proj1 (segment_potential_error_iff sample_loads companies_fallback
                    acquisition_rate_fallback "s1" (PStr "not json")
                    (PStr text_empty_object))).
    right. reflexivity.
  - apply (proj1 (proj2 (segment_potential_error_iff sample_loads
                           companies_fallback acquisition_rate_fallback "s1"
                           (PStr text_empty_object) (PStr text_empty_object)))
             (PDict []) []); reflexivity.
  - apply (proj2 (proj2 (segment_potential_error_iff sample_loads
                           companies_fallback acquisition_rate_fallback "s1"
                           (PStr text_evc_number) (PStr text_empty_object)))
             (PDict []) [("evc_value", PNum 2000)] 2000
             default_companies default_acquisition_rate);
      try reflexivity.
    + intros H. vm_compute in H. discriminate H.
    + apply default_companies_numeric.
    + apply default_acquisition_rate_numeric.
Defined.

(** C9 (as stated) fails.  An EVC result whose evc_value is the empty
    string has an evc_value, which is not zero, and both inputs parse: yet
    the error result is returned.  An EVC result that is a JSON list has
    no evc_value: the call raises AttributeError, where an error result
    is to be returned without raising. *)
Lemma segment_potential_error_not_iff :
  (calculate_segment_potential sample_loads companies_fallback
     acquisition_rate_fallback "s1" (PStr text_evc_empty_string)
     (PStr text_empty_object)
   = Ok (ErrorResult "EVC値が見つかりません"
           (Text "有効なEVC計算結果が必要です"))
   /\ spec_error_expected sample_loads (PStr text_evc_empty_string)
        (PStr text_empty_object) = false)
  /\ (calculate_segment_potential sample_loads companies_fallback
        acquisition_rate_fallback "s1" (PStr text_empty_list)
        (PStr text_empty_object)
      = Raise AttributeError
      /\ spec_error_expected sample_loads (PStr text_empty_list)
           (PStr text_empty_object) = true).
Proof. repeat split; reflexivity. Qed.

End MarketFacts.

(** ** The EVC calculator *)

Module EvcFacts.
Import Py Statements PyFacts EvcTools EvcStatements.
Local Open Scope py_scope.



Lemma py_mul_numbers (a b : pyval) (x y : Q) :
  as_num a = Some x -> as_num b = Some y -> py_mul a b = Ok (PNum (x * y)).
Proof. intros Ha Hb. unfold py_mul, arith. rewrite Ha, Hb. reflexivity. Qed.

Lemma py_add_numbers (a b : pyval) (x y : Q) :
  as_num a = Some x -> as_num b = Some y -> py_add a b = Ok (PNum (x + y)).
Proof. intros Ha Hb. unfold py_add, arith. rewrite Ha, Hb. reflexivity. Qed.

Lemma py_mul_none (x : pyval) : py_mul x PNone = Raise TypeError.
Proof. unfold py_mul, arith. cbn [as_num]. destruct (as_num x); reflexivity. Qed.




(** Without a number under implementation_years no result is returned:
    the product of the recurring cost and the years raises. *)
Lemma calculate_evc_requires_implementation_years
  (json_loads : string -> option pyval) (segment_id : string)
  (formula parameters : pyval) (r : EVCResult) :
  py_get (parse_parameters json_loads parameters) "implementation_years"
    PNone = Ok PNone ->
  calculate_evc json_loads segment_id formula parameters <> Ok r.
Proof.
  intros Hyears H. unfold calculate_evc in H.
  bind_inv H as reference_price _.
  bind_inv H as adjustments _.
  rewrite Hyears in H. cbn [bind] in H.
  bind_inv H as revenue _.
  bind_inv H as cost _.
  apply bind_ok in H. destruct H as [impl [Himpl _]].
  unfold implementation_cost_of in Himpl.
  bind_inv Himpl as initial_cost _.
  bind_inv Himpl as recurring_cost _.
  apply bind_ok in Himpl. destruct Himpl as [v [Hv _]].
  unfold lift2 in Hv. cbn [bind] in Hv.
  rewrite py_mul_none in Hv. discriminate Hv.
Qed.

(** The implementation cost that the code computes: the recurring cost
    is the parameter read next to the initial cost. *)
Lemma implementation_cost_of_numbers (params_dict adjustments years : pyval)
  (initial_cost recurring_cost implementation_years adjustment_I : Q) :
  param_number params_dict "initial_cost" 0 initial_cost ->
  param_number params_dict "recurring_cost" 0 recurring_cost ->
  as_num years = Some implementation_years ->
  (exists v, py_getitem_key adjustments "I" = Ok v
             /\ as_num v = Some adjustment_I) ->
  implementation_cost_of params_dict adjustments years
  = Ok ((initial_cost + recurring_cost * implementation_years)
        * adjustment_I).
Proof.
  intros (vi & Hi & Ei) (vr & Hr & Er) Ey (va & Ha & Ea).
  unfold implementation_cost_of. rewrite Hi, Hr. cbn [bind].
  unfold lift2. cbn [bind].
  rewrite (py_mul_numbers _ _ _ _ Er Ey). cbn [bind].
  rewrite (py_add_numbers vi (PNum _) _ _ Ei eq_refl). cbn [bind].
  rewrite Ha. cbn [bind].
  rewrite (py_mul_numbers (PNum _) va _ _ eq_refl Ea). reflexivity.
Qed.

(** C6 (the code departs from it).  On the default parameters that the
    formula customizer produces for segment s1 -- initial_cost 500,000,
    operation_cost 10,000, implementation_years 3 -- [calculate_evc]
    takes the implementation cost to be 500,000: it reads the parameter
    recurring_cost, which is absent, and never operation_cost.  The cost
    (initial_cost + operation_cost * implementation_years) * weights.I
    of the specification is 530,000 for the weight 1.0 used here. *)
Theorem implementation_cost_ignores_operation_cost :
  (exists f,
      FormulaDesign.customize_formula_for_segment (loads_table []) "s1"
        FormulaStatements.sample_base_formula
        FormulaStatements.sample_characteristics = Ok f
      /\ FormulaDesign.segment_specific_parameters f
         = s1_default_parameters)
  /\ exists r,
       calculate_evc (loads_table []) "s1" PNone
         (PDict s1_default_parameters) = Ok r
       /\ implementation_cost (components r) == 500000
       /\ spec_implementation_cost 500000 10000 3 1.0 == 530000
       /\ ~ implementation_cost (components r)
            == spec_implementation_cost 500000 10000 3 1.0.
Proof.
  split.
  - eexists. split; [vm_compute; reflexivity | reflexivity].
  - eexists. split; [vm_compute; reflexivity |].
    repeat split; try reflexivity.
    intros H. vm_compute in H. discriminate H.
Qed.

(** Parameters that configure no component and no adjustment are
    accepted as soon as the costs and the years are numbers: the value is
    the reference price less the implementation cost. *)
Lemma calculate_evc_accepts_plain_parameters
  (json_loads : string -> option pyval) (segment_id : string)
  (formula : pyval) (d : dict)
  (reference initial_cost recurring_cost implementation_years : Q) :
  dict_get d "segment_adjustments" = None ->
  dict_get d "revenue_components" = None ->
  dict_get d "cost_components" = None ->
  param_number (PDict d) "reference_price" 0 reference ->
  param_number (PDict d) "initial_cost" 0 initial_cost ->
  param_number (PDict d) "recurring_cost" 0 recurring_cost ->
  dict_get d "implementation_years" = Some (PNum implementation_years) ->
  exists r,
    calculate_evc json_loads segment_id formula (PDict d) = Ok r
    /\ evc_value r
       = reference + (0 + 0)
         - (initial_cost + recurring_cost * implementation_years) * 1.0.
Proof.
  intros Hadj Hrev Hcost (vr & Hr & Er) Hi Hrc Hy.
  unfold calculate_evc. cbn [parse_parameters].
  rewrite Hr. cbn [bind]. unfold adjustments_of.
  cbn [py_get]. rewrite Hadj. cbn [bind dict_get]. rewrite Hy.
  cbn [bind]. unfold value_components. cbn [py_get].
  rewrite Hrev, Hcost.
  cbn [bind foldM revenue_blocks cost_blocks component_block
       py_contains_key dict_mem dict_get py_iter acc_values empty_acc].
  rewrite (implementation_cost_of_numbers (PDict d) default_adjustments
             (PNum implementation_years) initial_cost recurring_cost
             implementation_years 1.0 Hi Hrc eq_refl).
  - cbn [bind py_get dict_get py_iter foldM]. unfold lift2.
    cbn [bind acc_values empty_acc]. unfold total at 1 2.
    cbn [dict_values map fold_left].
    rewrite (py_add_numbers vr (PNum _) _ _ Er eq_refl). cbn [bind].
    unfold py_sub, arith. cbn [as_num bind num py_getitem_key
      default_adjustments dict_get]. unfold num. rewrite Er.
    cbn [String.eqb Ascii.eqb Bool.eqb bind]. eexists.
    split; reflexivity.
  - eexists. split; reflexivity.
Qed.

End EvcFacts.

(** ** The order of the scores *)

Module OrderFacts.
Import Py Statements PyFacts PriorityEvaluation PriorityStatements.
Import OrderStatements PriorityFacts.
Local Open Scope py_scope.

Lemma rank_level_monotone (p q : Q) :
  p <= q ->
  (rank_level (rank_of_score p) <= rank_level (rank_of_score q))%nat.
Proof.
  intros Hpq.
  assert (Hup : forall t, Qle_bool t p = true -> Qle_bool t q = true).
  { intros t Ht. apply Qle_bool_iff. apply Qle_bool_iff in Ht.
    apply Qle_trans with p; assumption. }
  unfold rank_of_score.
  destruct (Qle_bool 0.8 p) eqn:E1; [rewrite (Hup _ E1); apply Nat.le_refl |].
  destruct (Qle_bool 0.6 p) eqn:E2;
    [rewrite (Hup _ E2); destruct (Qle_bool 0.8 q); vm_compute; lia |].
  destruct (Qle_bool 0.4 p) eqn:E3;
    [rewrite (Hup _ E3); destruct (Qle_bool 0.8 q), (Qle_bool 0.6 q);
     vm_compute; lia |].
  destruct (Qle_bool 0.2 p) eqn:E4;
    [rewrite (Hup _ E4);
     destruct (Qle_bool 0.8 q), (Qle_bool 0.6 q), (Qle_bool 0.4 q);
     vm_compute; lia |].
  destruct (Qle_bool 0.8 q), (Qle_bool 0.6 q), (Qle_bool 0.4 q),
    (Qle_bool 0.2 q); vm_compute; lia.
Qed.

Lemma not_above_of_scores (x y : PriorityScoreInfo) :
  ranked x -> ranked y ->
  priority_score y <= priority_score x -> not_above x y.
Proof.
  unfold ranked. intros Hx Hy Hle. split; [exact Hle |].
  rewrite Hx, Hy. apply rank_level_monotone. exact Hle.
Qed.

Lemma insert_desc_In (x y : PriorityScoreInfo) :
  forall l, In y (insert_desc x l) -> y = x \/ In y l.
Proof.
  intros l H.
  apply (Permutation_in _ (insert_desc_perm x l)) in H.
  destruct H as [<- | H]; [left; reflexivity | right; exact H].
Qed.

Lemma insert_desc_sorted (x : PriorityScoreInfo) :
  forall l,
    ranked x -> Forall ranked l ->
    StronglySorted not_above l -> StronglySorted not_above (insert_desc x l).
Proof.
  induction l as [| y l IH]; intros Hx Hl Hs; cbn [insert_desc].
  - constructor; constructor.
  - inversion Hl as [| ? ? Hy Hl']; subst.
    inversion Hs as [| ? ? Hs' Hall]; subst.
    destruct (Qle_bool (priority_score y) (priority_score x)) eqn:E.
    + apply Qle_bool_iff in E.
      constructor; [exact Hs |].
      constructor; [apply not_above_of_scores; assumption |].
      rewrite Forall_forall in Hall |- *. intros z Hz.
      pose proof (Hall z Hz) as [Hzy _].
      rewrite Forall_forall in Hl'.
      apply not_above_of_scores; [exact Hx | apply Hl'; exact Hz |].
      apply Qle_trans with (priority_score y); assumption.
    + constructor; [apply IH; assumption |].
      rewrite Forall_forall in Hall |- *. intros z Hz.
      destruct (insert_desc_In _ _ _ Hz) as [-> | Hz'].
      * apply not_above_of_scores; [exact Hy | exact Hx |].
        apply Qlt_le_weak. apply Qlt_bool_iff.
        unfold Qlt_bool. rewrite E. reflexivity.
      * apply Hall. exact Hz'.
Qed.

Lemma sort_desc_ranked (l : list PriorityScoreInfo) :
  Forall ranked l -> Forall ranked (sort_desc l).
Proof.
  intros H. rewrite Forall_forall in H |- *. intros x Hx.
  apply H. apply (Permutation_in _ (sort_desc_perm l)). exact Hx.
Qed.

Lemma sort_desc_sorted :
  forall l, Forall ranked l -> StronglySorted not_above (sort_desc l).
Proof.
  induction l as [| x l IH]; intros H; cbn [sort_desc fold_right].
  - constructor.
  - inversion H as [| ? ? Hx Hl]; subst.
    apply insert_desc_sorted;
      [exact Hx | apply sort_desc_ranked; exact Hl | apply IH; exact Hl].
Qed.

Lemma mapM_score_segment_ranked (max_evc max_market_size : pyval) :
  forall items scores,
    mapM (score_segment max_evc max_market_size) items = Ok scores ->
    Forall ranked scores.
Proof.
  intros items scores H. rewrite Forall_forall. intros x Hx.
  destruct (mapM_ok_In _ _ _ _ H Hx) as [s [_ Hs]].
  apply (score_segment_shape _ _ _ _ Hs).
Qed.

(** X1.  The scores that [calculate_priority_scores] returns are listed
    from the highest to the lowest: every entry has a score at least as
    large as each entry after it, and a rank at least as good. *)
Theorem priority_scores_descending (json_loads : string -> option pyval)
  (input : pyval) (out : PriorityScores) :
  calculate_priority_scores json_loads input = Ok out ->
  StronglySorted not_above (priority_scores out).
Proof.
  intros H.
  destruct (calculate_priority_scores_ok _ _ _ H)
    as (me & mm & items & scores & _ & _ & _ & Hmap & -> & _).
  apply sort_desc_sorted.
  apply (mapM_score_segment_ranked _ _ _ _ Hmap).
Qed.

Lemma priority_scores_descending_witness :
  exists out,
    calculate_priority_scores no_json sample_segments = Ok out
    /\ StronglySorted not_above (priority_scores out).
Proof.
  eexists. split; [vm_compute; reflexivity |].
  apply (priority_scores_descending no_json sample_segments).
  vm_compute. reflexivity.
Defined.

Lemma tied_insert_desc (q : Q) (x : PriorityScoreInfo) :
  forall l, tied q (insert_desc x l) = tied q (x :: l).
Proof.
  unfold tied. induction l as [| y l IH]; cbn [insert_desc]; [reflexivity |].
  destruct (Qle_bool (priority_score y) (priority_score x)) eqn:E;
    [reflexivity |].
  cbn [filter] in IH |- *. rewrite IH.
  destruct (Qeq_bool (priority_score x) q) eqn:Ex; [| reflexivity].
  destruct (Qeq_bool (priority_score y) q) eqn:Ey; [| reflexivity].
  apply Qeq_bool_iff in Ex. apply Qeq_bool_iff in Ey.
  assert (Hle : priority_score y <= priority_score x).
  { rewrite Ex, Ey. apply Qle_refl. }
  apply Qle_bool_iff in Hle. congruence.
Qed.

Lemma tied_sort_desc (q : Q) : forall l, tied q (sort_desc l) = tied q l.
Proof.
  induction l as [| x l IH]; cbn [sort_desc fold_right]; [reflexivity |].
  change (fold_right insert_desc [] l) with (sort_desc l).
  rewrite tied_insert_desc. unfold tied in IH |- *. cbn [filter].
  rewrite IH. reflexivity.
Qed.

(** X2.  The sort is stable: the entries that share a score come out in
    the order in which their segments were given.  [scores] is the list
    of the entries in input order, one for each element of the input. *)
Theorem priority_scores_ties_keep_input_order
  (json_loads : string -> option pyval) (items : list pyval)
  (out : PriorityScores) :
  calculate_priority_scores json_loads (PList items) = Ok out ->
  exists max_evc max_market_size scores,
    Forall2 (fun s x => score_segment max_evc max_market_size s = Ok x)
      items scores
    /\ forall q, tied q (priority_scores out) = tied q scores.
Proof.
  intros H.
  destruct (calculate_priority_scores_ok _ _ _ H)
    as (me & mm & items' & scores & _ & _ & Hit & Hmap & -> & _).
  cbn [py_iter] in Hit. injection Hit as <-.
  exists me, mm, scores. split.
  - apply mapM_ok_Forall2. exact Hmap.
  - intros q. apply tied_sort_desc.
Qed.

Lemma priority_scores_ties_keep_input_order_witness :
  exists out,
    calculate_priority_scores no_json tied_segments = Ok out
    /\ map segment_id (priority_scores out)
       = [PStr "s1"; PStr "s2"; PStr "s3"]
    /\ exists max_evc max_market_size scores,
         Forall2 (fun s x => score_segment max_evc max_market_size s = Ok x)
           [ segment_dict "s2" sample_s2; segment_dict "s1" sample_s1;
             segment_dict "s3" sample_s2 ] scores
         /\ forall q, tied q (priority_scores out) = tied q scores.
Proof.
  eexists. split; [vm_compute; reflexivity |].
  split; [vm_compute; reflexivity |].
  apply (priority_scores_ties_keep_input_order no_json).
  vm_compute. reflexivity.
Defined.

End OrderFacts.

(** ** The exceptions of the priority scorer *)

Module ScorerExceptionFacts.
Import Py Statements PyFacts PriorityEvaluation.
Local Open Scope py_scope.

Lemma bind_raise {A B : Type} (r : result A) (k : A -> result B) (e : exn) :
  bind r k = Raise e -> r = Raise e \/ exists a, r = Ok a /\ k a = Raise e.
Proof.
  destruct r as [a | e']; simpl; intros H.
  - right. exists a. split; [reflexivity | exact H].
  - left. injection H as ->. reflexivity.
Qed.

Tactic Notation "raise_inv" hyp(H) "as" simple_intropattern(x)
  simple_intropattern(Hx) :=
  apply bind_raise in H; destruct H as [H | [x [Hx H]]].

Lemma mapM_raise {A B : Type} (f : A -> result B) (P : exn -> Prop) :
  (forall x e, f x = Raise e -> P e) ->
  forall l e, mapM f l = Raise e -> P e.
Proof.
  intros Hf. induction l as [| x l IH]; intros e H; cbn [mapM] in H.
  - discriminate H.
  - raise_inv H as y Hy; [apply (Hf x); exact H |].
    raise_inv H as ys Hys; [apply IH; exact H | discriminate H].
Qed.

Lemma mapM_nonempty {A B : Type} (f : A -> result B) (x : A) (l : list A)
  (ys : list B) :
  mapM f (x :: l) = Ok ys -> ys <> [].
Proof.
  cbn [mapM]. intros H.
  bind_inv H as y Hy. bind_inv H as ys' Hys. injection H as <-.
  discriminate.
Qed.

(** A comparison that raises raises [TypeError]. *)
Lemma py_gt_raise : forall a b e, py_gt a b = Raise e -> e = TypeError.
Proof.
  fix IH 1. intros a b e.
  destruct a as [| ba | qa | sa | la | da];
    destruct b as [| bb | qb | sb | lb | db]; cbn [py_gt as_num];
    try (destruct ba); try (destruct bb);
    try (intros H; (discriminate H || (injection H as <-; reflexivity))).
  revert lb. induction la as [| x la IHl]; intros lb H.
  - discriminate H.
  - destruct lb as [| y lb]; [discriminate H |].
    destruct (py_eqb x y).
    + apply (IHl lb). exact H.
    + apply (IH x y). exact H.
Qed.

Lemma max_from_raise :
  forall l cur e, max_from cur l = Raise e -> e = TypeError.
Proof.
  induction l as [| x l IH]; intros cur e H; cbn [max_from] in H.
  - discriminate H.
  - raise_inv H as b Hb; [apply (py_gt_raise _ _ _ H) |].
    apply (IH _ _ H).
Qed.

Lemma py_get_raise (v : pyval) (k : string) (default : pyval) (e : exn) :
  py_get v k default = Raise e -> e = AttributeError.
Proof.
  destruct v; cbn [py_get]; intros H;
    try (injection H as <-; reflexivity).
  destruct (dict_get d k); discriminate H.
Qed.

Lemma py_iter_raise (v : pyval) (e : exn) :
  py_iter v = Raise e -> e = TypeError.
Proof.
  destruct v; cbn [py_iter]; intros H;
    (discriminate H || (injection H as <-; reflexivity)).
Qed.

Lemma num_raise (v : pyval) (e : exn) : num v = Raise e -> e = TypeError.
Proof.
  unfold num. destruct (as_num v); intros H;
    [discriminate H | injection H as <-; reflexivity].
Qed.

Lemma chars_go_nonempty : forall s cur, chars_go s cur <> [].
Proof.
  induction s as [| c s IH]; intros cur; cbn [chars_go].
  - discriminate.
  - destruct (is_continuation c); [apply IH | discriminate].
Qed.

(** A value that counts as true and can be iterated has an element. *)
Lemma py_iter_truthy (v : pyval) (items : list pyval) :
  py_truthy v = true -> py_iter v = Ok items -> items <> [].
Proof.
  destruct v as [| b | q | s | l | d]; cbn [py_truthy py_iter];
    intros Ht H; try discriminate H; injection H as <-.
  - destruct s as [| c s]; [discriminate Ht |].
    cbn [chars]. intros E. apply map_eq_nil in E.
    apply (chars_go_nonempty _ _ E).
  - destruct l; [discriminate Ht | discriminate].
  - destruct d; [discriminate Ht | discriminate].
Qed.

Lemma batch_max_raise (key : string) (input : pyval) (e : exn) :
  batch_max key input = Raise e -> e = AttributeError \/ e = TypeError.
Proof.
  unfold batch_max. destruct (py_truthy input) eqn:Ht; [| discriminate].
  intros H.
  raise_inv H as items Hit; [right; apply (py_iter_raise _ _ H) |].
  raise_inv H as values Hv.
  - left. revert H.
    apply (mapM_raise _ (fun e => e = AttributeError)).
    intros x e'. apply py_get_raise.
  - pose proof (py_iter_truthy _ _ Ht Hit) as Hne.
    destruct items as [| x items]; [congruence |].
    apply mapM_nonempty in Hv.
    destruct values as [| v values]; [congruence |].
    right. apply (max_from_raise _ _ _ H).
Qed.

(** A value that compares as larger than 0 is not 0 when read as a
    number. *)
Lemma positive_not_zero (v : pyval) (y : Q) :
  py_gt v (PNum 0) = Ok true -> as_num v = Some y -> Qeq_bool y 0 = false.
Proof.
  intros Hgt Hy.
  assert (Hlt : Qlt_bool 0 y = true).
  { destruct v as [| b | q | s | l | d]; try discriminate Hy.
    - destruct b; cbn [as_num] in Hy; injection Hy as <-;
        [reflexivity | discriminate Hgt].
    - cbn [py_gt as_num] in Hgt, Hy.
      injection Hy as <-. injection Hgt as Hgt. exact Hgt. }
  apply Qlt_bool_iff in Hlt.
  destruct (Qeq_bool y 0) eqn:E; [| reflexivity].
  apply Qeq_bool_eq in E. rewrite E in Hlt.
  exfalso. apply (Qlt_irrefl 0 Hlt).
Qed.

Lemma normalize_raise (result : pyval) (key : string) (max_value : pyval)
  (e : exn) :
  normalize result key max_value = Raise e ->
  e = AttributeError \/ e = TypeError.
Proof.
  unfold normalize. intros H.
  raise_inv H as positive Hp; [right; apply (py_gt_raise _ _ _ H) |].
  destruct positive; [| discriminate H].
  raise_inv H as value Hv; [left; apply (py_get_raise _ _ _ _ H) |].
  raise_inv H as quotient Hq; [| right; apply (num_raise _ _ H)].
  right. unfold py_div in H.
  destruct (as_num value) as [x |]; [| injection H as <-; reflexivity].
  destruct (as_num max_value) as [y |] eqn:Hy;
    [| injection H as <-; reflexivity].
  rewrite (positive_not_zero _ _ Hp Hy) in H. discriminate H.
Qed.

Lemma saturate_raise (growth_rate : pyval) (e : exn) :
  saturate growth_rate = Raise e -> e = TypeError.
Proof.
  unfold saturate. intros H.
  raise_inv H as growth_ratio Hr.
  - unfold py_div in H.
    destruct (as_num growth_rate); [| injection H as <-; reflexivity].
    cbn [as_num] in H. change (Qeq_bool 0.1 0) with false in H.
    discriminate H.
  - raise_inv H as growth Hg; [| apply (num_raise _ _ H)].
    unfold py_min2 in H.
    raise_inv H as c Hc; [| discriminate H].
    apply (py_gt_raise _ _ _ H).
Qed.

Lemma score_segment_raise (max_evc max_market_size result : pyval) (e : exn) :
  score_segment max_evc max_market_size result = Raise e ->
  e = AttributeError \/ e = TypeError.
Proof.
  unfold score_segment. intros H.
  raise_inv H as segment_id H1; [left; apply (py_get_raise _ _ _ _ H) |].
  raise_inv H as segment_name H2; [left; apply (py_get_raise _ _ _ _ H) |].
  raise_inv H as normalized_evc H3; [apply (normalize_raise _ _ _ _ H) |].
  raise_inv H as normalized_market_size H4;
    [apply (normalize_raise _ _ _ _ H) |].
  raise_inv H as acquisition H5; [left; apply (py_get_raise _ _ _ _ H) |].
  raise_inv H as market_analysis H6;
    [left; apply (py_get_raise _ _ _ _ H) |].
  raise_inv H as growth_rate H7; [left; apply (py_get_raise _ _ _ _ H) |].
  raise_inv H as normalized_growth H8;
    [right; apply (saturate_raise _ _ H) |].
  raise_inv H as normalized_acquisition H9;
    [right; apply (num_raise _ _ H) |].
  raise_inv H as raw_evc H10; [left; apply (py_get_raise _ _ _ _ H) |].
  raise_inv H as raw_market_size H11;
    [left; apply (py_get_raise _ _ _ _ H) |].
  raise_inv H as raw_acquisition H12;
    [left; apply (py_get_raise _ _ _ _ H) |].
  discriminate H.
Qed.

Lemma calculate_priority_scores_raise (json_loads : string -> option pyval)
  (input : pyval) (e : exn) :
  calculate_priority_scores json_loads input = Raise e ->
  e = AttributeError \/ e = TypeError.
Proof.
  unfold calculate_priority_scores. intros H.
  raise_inv H as max_evc H1; [apply (batch_max_raise _ _ _ H) |].
  raise_inv H as max_market_size H2; [apply (batch_max_raise _ _ _ H) |].
  raise_inv H as max_potential H3; [apply (batch_max_raise _ _ _ H) |].
  raise_inv H as items H4; [right; apply (py_iter_raise _ _ H) |].
  raise_inv H as scores H5; [| discriminate H].
  revert H.
  apply (mapM_raise _ (fun e => e = AttributeError \/ e = TypeError)).
  intros x e'. apply score_segment_raise.
Qed.

(** X3.  [calculate_priority_scores] never raises [ZeroDivisionError] and
    never raises the [ValueError] of [max] on an empty sequence, whatever
    it is given: a division by a batch maximum is only made when that
    maximum is larger than 0, the growth rate is divided by the constant
    0.1, and the maxima are only taken of a batch that is not empty. *)
Theorem calculate_priority_scores_never_divides_by_zero
  (json_loads : string -> option pyval) (input : pyval) :
  calculate_priority_scores json_loads input <> Raise ZeroDivisionError
  /\ calculate_priority_scores json_loads input <> Raise ValueError.
Proof.
  split; intros H;
    destruct (calculate_priority_scores_raise _ _ _ H); discriminate.
Qed.

End ScorerExceptionFacts.

(** ** Characteristics that are not a document *)

Module CharacteristicsFacts.
Import Py Statements PyFacts FormulaDesign FormulaStatements.
Import CharacteristicsStatements FormulaFacts.
Local Open Scope py_scope.

Lemma dict_get_set {V : Type} (d : list (string * V)) (k k' : string)
  (v : V) :
  dict_get (dict_set d k v) k'
  = if String.eqb k k' then Some v else dict_get d k'.
Proof.
  induction d as [| [k0 v0] d IH]; cbn [dict_set dict_get].
  - reflexivity.
  - destruct (String.eqb_spec k0 k) as [-> | Hne]; cbn [dict_get].
    + destruct (String.eqb k k'); reflexivity.
    + rewrite IH.
      destruct (String.eqb_spec k0 k') as [-> | _]; [| reflexivity].
      destruct (String.eqb_spec k k') as [-> | _];
        [congruence | reflexivity].
Qed.

Lemma only_text_keys_set (d : dict) (k : string) (v : pyval) :
  In k text_keys -> only_text_keys d -> only_text_keys (dict_set d k v).
Proof.
  intros Hk Hd k' v'. rewrite dict_get_set.
  destruct (String.eqb_spec k k') as [<- | _].
  - intros _. exact Hk.
  - apply Hd.
Qed.

Lemma read_characteristic_keys (d : dict) (part : string) :
  only_text_keys d -> only_text_keys (read_characteristic d part).
Proof.
  intros Hd. unfold read_characteristic.
  repeat match goal with
         | |- context [if ?b then dict_set _ _ _ else _] => destruct b
         end;
    repeat (apply only_text_keys_set; [cbn; tauto |]); exact Hd.
Qed.

Lemma fold_read_characteristic_keys :
  forall parts d,
    only_text_keys d ->
    only_text_keys (fold_left read_characteristic parts d).
Proof.
  induction parts as [| part parts IH]; intros d Hd; cbn [fold_left].
  - exact Hd.
  - apply IH. apply read_characteristic_keys. exact Hd.
Qed.

Lemma parse_characteristics_text_keys (text : string) :
  only_text_keys (parse_characteristics_text text).
Proof.
  unfold parse_characteristics_text.
  destruct (if is_substring "：" text then split text "："
            else split text ":") as [| first [| second rest]];
    try (intros k v H; discriminate H).
  apply fold_read_characteristic_keys. intros k v H. discriminate H.
Qed.

(** What the customizer reads from characteristics that are not a
    document holds none of the parameters. *)
Lemma not_a_document_parsed (json_loads : string -> option pyval)
  (segment_characteristics : pyval) :
  not_a_document json_loads segment_characteristics ->
  exists d,
    parse_characteristics json_loads segment_characteristics = PDict d
    /\ only_text_keys d.
Proof.
  intros H. unfold parse_characteristics.
  destruct segment_characteristics as [| b | q | text | l | d];
    try (exists []; split; [reflexivity | intros k v E; discriminate E]).
  destruct (in_braces text) eqn:Hb.
  - rewrite (H text eq_refl Hb).
    exists []. split; [reflexivity | intros k v E; discriminate E].
  - eexists. split; [reflexivity | apply parse_characteristics_text_keys].
Qed.

Lemma parameters_default (d : dict) (is_enterprise is_high_value : bool) :
  forall names : list (string * pyval),
    (forall name default, In (name, default) names -> dict_get d name = None)
    ->
    mapM (fun '(name, default) =>
            v <- extract_parameter_from_characteristics (PDict d) name
                   is_enterprise is_high_value default ;;
            Ok (name, v))
         names
    = Ok (map (fun '(name, default) =>
                 (name,
                  parameter_default name is_enterprise is_high_value default))
            names).
Proof.
  induction names as [| [name default] names IH]; intros H; cbn [mapM map].
  - reflexivity.
  - rewrite (extract_absent d name is_enterprise is_high_value default);
      [| apply (H name default); left; reflexivity].
    cbn [bind]. rewrite IH; [reflexivity |].
    intros n df Hin. apply (H n df). right. exact Hin.
Qed.

Lemma parameter_names_not_text_keys (d : dict) :
  only_text_keys d ->
  forall name default,
    In (name, default) parameter_names -> dict_get d name = None.
Proof.
  intros Hd name default Hin.
  destruct (dict_get d name) as [v |] eqn:E; [| reflexivity].
  apply Hd in E. exfalso.
  unfold parameter_names in Hin. cbn [In] in Hin.
  unfold text_keys in E. cbn [In] in E.
  repeat match goal with
         | H : _ \/ _ |- _ => destruct H as [H | H]
         | H : (_, _) = (_, _) |- _ => injection H as <- <-
         | H : False |- _ => destruct H
         end; discriminate.
Qed.

(** X4.  Characteristics that are not a document [json.loads] reads --
    free text, malformed text in braces, or no text at all -- never
    change a parameter: whenever [customize_formula_for_segment] returns,
    the eight segment-specific parameters are the defaults of the table
    for the segment id. *)
Theorem free_text_characteristics_give_default_parameters
  (json_loads : string -> option pyval) (segment_id : string)
  (base_formula segment_characteristics : pyval) (r : CustomizedFormula) :
  not_a_document json_loads segment_characteristics ->
  customize_formula_for_segment json_loads segment_id base_formula
    segment_characteristics = Ok r ->
  segment_specific_parameters r = default_parameters segment_id.
Proof.
  intros Hdoc H.
  destruct (not_a_document_parsed _ _ Hdoc) as (d & Hd & Hkeys).
  unfold customize_formula_for_segment in H. unfold default_parameters.
  destruct (segment_flags segment_id) as [is_enterprise is_high_value].
  destruct (segment_type_and_name is_enterprise is_high_value)
    as [segment_type segment_name].
  rewrite Hd in H.
  bind_inv H as R HR. bind_inv H as Re HRe.
  bind_inv H as Co HCo. bind_inv H as I HI.
  bind_inv H as parameters Hp.
  injection H as <-. cbn [segment_specific_parameters].
  rewrite (parameters_default d is_enterprise is_high_value parameter_names)
    in Hp; [| apply parameter_names_not_text_keys; exact Hkeys].
  injection Hp as <-. reflexivity.
Qed.

Lemma free_text_characteristics_give_default_parameters_witness :
  exists r,
    customize_formula_for_segment PriorityStatements.no_json "s1"
      sample_base_formula sample_characteristics = Ok r
    /\ segment_specific_parameters r = EvcStatements.s1_default_parameters.
Proof.
  eexists. split; [vm_compute; reflexivity |].
  apply (free_text_characteristics_give_default_parameters
           PriorityStatements.no_json "s1" sample_base_formula
           sample_characteristics).
  - intros text E Hb. injection E as <-. vm_compute in Hb. discriminate Hb.
  - vm_compute. reflexivity.
Defined.

End CharacteristicsFacts.

(** ** The parameters of the EVC calculator *)

Module ParameterFacts.
Import Py Statements PyFacts EvcTools EvcStatements ParameterStatements.
Import EvcFacts.
Local Open Scope py_scope.

Lemma dict_keys_set {V : Type} (d : list (string * V)) (k : string) (v : V) :
  incl (dict_keys (dict_set d k v)) (k :: dict_keys d).
Proof.
  induction d as [| [k0 v0] d IH]; cbn [dict_set dict_keys map fst].
  - apply incl_refl.
  - destruct (String.eqb k0 k); cbn [map fst].
    + apply incl_tl. apply incl_refl.
    + intros x [<- | Hx]; [right; left; reflexivity |].
      destruct (IH x Hx) as [<- | Hin];
        [left; reflexivity | right; right; exact Hin].
Qed.

Lemma record_value_keys (values : list (string * Q)) (name : string)
  (v : option Q) :
  incl (dict_keys (record_value values name v)) (name :: dict_keys values).
Proof.
  destruct v as [q |]; cbn [record_value].
  - apply dict_keys_set.
  - apply incl_tl. apply incl_refl.
Qed.

Lemma component_block_keys (params_dict component_config adjustments : pyval)
  (adj_key : string) (acc acc' : Acc) (block : string * list Mode) :
  component_block params_dict component_config adjustments adj_key acc block
  = Ok acc' ->
  incl (dict_keys (acc_values acc'))
    (fst block :: dict_keys (acc_values acc)).
Proof.
  destruct block as [name modes]. unfold component_block. intros H.
  bind_inv H as has Hhas. destruct has.
  - bind_inv H as config _. bind_inv H as formula _.
    bind_inv H as param_values _. bind_inv H as calculation_function _.
    bind_inv H as v _. injection H as <-.
    cbn [acc_values fst]. apply record_value_keys.
  - injection H as <-. apply incl_tl. apply incl_refl.
Qed.

Lemma component_blocks_keys (params_dict component_config adjustments : pyval)
  (adj_key : string) :
  forall (blocks : list (string * list Mode)) (acc acc' : Acc),
    foldM (component_block params_dict component_config adjustments adj_key)
      acc blocks = Ok acc' ->
    incl (dict_keys (acc_values acc'))
      (dict_keys blocks ++ dict_keys (acc_values acc)).
Proof.
  induction blocks as [| block blocks IH]; intros acc acc' H;
    cbn [foldM] in H.
  - injection H as <-. apply incl_refl.
  - bind_inv H as acc1 H1.
    apply component_block_keys in H1. apply IH in H.
    intros x Hx. apply H in Hx. apply in_app_or in Hx.
    cbn [dict_keys map]. destruct Hx as [Hx | Hx].
    + right. apply in_or_app. left. exact Hx.
    + destruct (H1 x Hx) as [<- | Hin];
        [left; reflexivity | right; apply in_or_app; right; exact Hin].
Qed.

(** A turn of the loop over the custom components, when the parameters
    were given as text: it ends normally only for a name that does not
    occur in the text, and then records nothing. *)
Lemma custom_component_text (params_dict adjustments : pyval) (text : string)
  (adj_key : string) (acc acc' : Acc) (component_name : pyval) :
  custom_component params_dict (PStr text) adjustments adj_key acc
    component_name = Ok acc' ->
  acc' = acc
  /\ exists name,
       component_name = PStr name /\ is_substring name text = false.
Proof.
  unfold custom_component. intros H.
  destruct component_name as [| b | q | name | l | d];
    cbn [py_contains py_contains_key bind] in H; try discriminate H.
  destruct (is_substring name text) eqn:E.
  - cbn [py_getitem_key bind] in H. discriminate H.
  - injection H as <-. split; [reflexivity |].
    exists name. split; [reflexivity | exact E].
Qed.

Lemma custom_components_text (params_dict adjustments : pyval) (text : string)
  (adj_key : string) :
  forall (names : list pyval) (acc acc' : Acc),
    foldM (custom_component params_dict (PStr text) adjustments adj_key)
      acc names = Ok acc' ->
    acc' = acc
    /\ forall name, In (PStr name) names -> is_substring name text = false.
Proof.
  induction names as [| n names IH]; intros acc acc' H; cbn [foldM] in H.
  - injection H as <-. split; [reflexivity | intros name []].
  - bind_inv H as acc1 H1.
    apply custom_component_text in H1.
    destruct H1 as [-> (name & -> & Hname)].
    destruct (IH _ _ H) as [-> Hnames].
    split; [reflexivity |].
    intros name' [E | Hin]; [injection E as <-; exact Hname |].
    apply Hnames. exact Hin.
Qed.

Lemma component_infos_keys (acc : Acc) :
  dict_keys (component_infos acc) = dict_keys (acc_values acc).
Proof.
  unfold component_infos, dict_keys. rewrite map_map.
  apply map_ext. intros [component_name v]. reflexivity.
Qed.

Lemma value_components_text (params_dict adjustments : pyval) (text : string)
  (config_key adj_key : string) (blocks : list (string * list Mode))
  (acc : Acc) :
  value_components params_dict (PStr text) adjustments config_key adj_key
    blocks = Ok acc ->
  incl (dict_keys (acc_values acc)) (dict_keys blocks)
  /\ forall names name,
       custom_names params_dict config_key names ->
       In (PStr name) names -> is_substring name text = false.
Proof.
  unfold value_components. intros H.
  bind_inv H as component_config Hc.
  bind_inv H as acc0 Hblocks.
  bind_inv H as custom_components Hcc.
  bind_inv H as names Hnames.
  destruct (custom_components_text _ _ _ _ _ _ _ H) as [-> Hno].
  split.
  - apply component_blocks_keys in Hblocks.
    cbn [acc_values empty_acc] in Hblocks.
    rewrite app_nil_r in Hblocks. exact Hblocks.
  - intros names' name (cfg & cc & Hcfg & Hcc' & Hit).
    rewrite Hc in Hcfg. injection Hcfg as <-.
    rewrite Hcc in Hcc'. injection Hcc' as <-.
    rewrite Hnames in Hit. injection Hit as <-.
    apply Hno.
Qed.

(** X5.  With parameters given as text -- the declared type of the
    argument -- no custom component ever contributes to a value:
    whenever [calculate_evc] returns, the sub-components of the revenue
    enhancement and of the cost optimization are among the four fixed
    blocks of each, and no name listed under custom_components occurs in
    the text.  A listed name that occurs in the text is looked up in the
    text itself, which raises. *)
Theorem text_parameters_have_no_custom_component
  (json_loads : string -> option pyval) (segment_id : string)
  (formula : pyval) (text : string) (r : EVCResult) :
  calculate_evc json_loads segment_id formula (PStr text) = Ok r ->
  incl (sub_component_names (revenue_enhancement (components r)))
    (dict_keys revenue_blocks)
  /\ incl (sub_component_names (cost_optimization (components r)))
       (dict_keys cost_blocks)
  /\ forall config_key names name,
       config_key = "revenue_components" \/ config_key = "cost_components" ->
       custom_names (parse_parameters json_loads (PStr text)) config_key
         names ->
       In (PStr name) names -> is_substring name text = false.
Proof.
  unfold calculate_evc. intros H.
  bind_inv H as reference_price _.
  bind_inv H as adjustments _.
  bind_inv H as implementation_years _.
  bind_inv H as revenue Hrev.
  bind_inv H as cost Hcost.
  bind_inv H as implementation_cost_value _.
  bind_inv H as evc _. bind_inv H as evc_value _.
  bind_inv H as adjustment_Re _. bind_inv H as adjustment_Co _.
  bind_inv H as reference _.
  injection H as <-.
  apply value_components_text in Hrev. destruct Hrev as [Hrk Hrn].
  apply value_components_text in Hcost. destruct Hcost as [Hck Hcn].
  unfold sub_component_names.
  cbn [components revenue_enhancement cost_optimization value_component
       sub_components].
  rewrite !component_infos_keys.
  split; [exact Hrk |]. split; [exact Hck |].
  intros config_key names name [-> | ->] Hnames Hin.
  - apply (Hrn names name Hnames Hin).
  - apply (Hcn names name Hnames Hin).
Qed.

Lemma text_parameters_have_no_custom_component_witness :
  exists r,
    calculate_evc loads_component "s1" PNone (PStr text_with_component)
    = Ok r
    /\ sub_component_names (revenue_enhancement (components r))
       = ["retention_revenue"]
    /\ incl (sub_component_names (revenue_enhancement (components r)))
         (dict_keys revenue_blocks).
Proof.
  eexists. split; [vm_compute; reflexivity |].
  split; [vm_compute; reflexivity |].
  apply (text_parameters_have_no_custom_component loads_component "s1"
           PNone text_with_component).
  vm_compute. reflexivity.
Defined.

Lemma numeric_entry (a : dict) (k : string) :
  numeric_entries a -> dict_mem a k = true ->
  exists v q, py_getitem_key (PDict a) k = Ok v /\ as_num v = Some q.
Proof.
  intros Hnum Hk. unfold dict_mem in Hk. cbn [py_getitem_key].
  destruct (dict_get a k) as [v |] eqn:E; [| discriminate Hk].
  destruct (Hnum k v E) as [q Hq]. exists v, q. split; [reflexivity | exact Hq].
Qed.

Lemma missing_entry (a : dict) (k : string) :
  dict_mem a k = false -> py_getitem_key (PDict a) k = Raise KeyError.
Proof.
  unfold dict_mem. cbn [py_getitem_key].
  destruct (dict_get a k); [discriminate | reflexivity].
Qed.

(** X6.  The default adjustments stand in for a missing entry of a
    segment only, never for a missing key: when segment_adjustments holds
    an entry for the segment with numbers in it but without one of the
    keys Re, Co and I, [calculate_evc] raises [KeyError], even though no
    component is configured and the costs and the years are numbers. *)
Theorem partial_adjustments_raise_KeyError
  (json_loads : string -> option pyval) (segment_id : string)
  (formula : pyval) (d sa a : dict)
  (reference initial_cost recurring_cost implementation_years : Q) :
  dict_get d "segment_adjustments" = Some (PDict sa) ->
  dict_get sa segment_id = Some (PDict a) ->
  numeric_entries a ->
  has_all_adjustments a = false ->
  dict_get d "revenue_components" = None ->
  dict_get d "cost_components" = None ->
  param_number (PDict d) "reference_price" 0 reference ->
  param_number (PDict d) "initial_cost" 0 initial_cost ->
  param_number (PDict d) "recurring_cost" 0 recurring_cost ->
  dict_get d "implementation_years" = Some (PNum implementation_years) ->
  calculate_evc json_loads segment_id formula (PDict d) = Raise KeyError.
Proof.
  intros Hsa Ha Hnum Hmiss Hrev Hcost (vr & Hr & Er) Hi Hrc Hy.
  unfold calculate_evc. cbn [parse_parameters].
  rewrite Hr. cbn [bind]. unfold adjustments_of.
  cbn [py_get]. rewrite Hsa. cbn [bind py_get]. rewrite Ha. cbn [bind].
  rewrite Hy. cbn [bind]. unfold value_components. cbn [py_get].
  rewrite Hrev, Hcost.
  cbn [bind foldM revenue_blocks cost_blocks component_block
       py_contains_key dict_mem dict_get py_iter acc_values empty_acc].
  destruct (dict_mem a "I") eqn:EI.
  - destruct (numeric_entry a "I" Hnum EI) as (vI & qI & HvI & HqI).
    rewrite (implementation_cost_of_numbers (PDict d) (PDict a)
               (PNum implementation_years) initial_cost recurring_cost
               implementation_years qI Hi Hrc eq_refl);
      [| exists vI; split; assumption].
    cbn [bind py_get dict_get py_iter foldM]. unfold lift2.
    cbn [bind acc_values empty_acc]. unfold total at 1 2.
    cbn [dict_values map fold_left].
    rewrite (py_add_numbers vr (PNum _) _ _ Er eq_refl). cbn [bind].
    unfold py_sub, arith. cbn [as_num bind num].
    destruct (dict_mem a "Re") eqn:ERe.
    + destruct (numeric_entry a "Re" Hnum ERe) as (vRe & qRe & HvRe & _).
      rewrite HvRe. cbn [bind].
      unfold has_all_adjustments in Hmiss. rewrite ERe, EI in Hmiss.
      cbn [andb] in Hmiss. rewrite andb_true_r in Hmiss.
      rewrite (missing_entry a "Co" Hmiss). reflexivity.
    + rewrite (missing_entry a "Re" ERe). reflexivity.
  - unfold implementation_cost_of.
    destruct Hi as (vi & Hi & Ei). destruct Hrc as (vc & Hrc & Ec).
    rewrite Hi, Hrc. cbn [bind py_get dict_get py_iter foldM].
    unfold lift2. cbn [bind].
    rewrite (py_mul_numbers vc (PNum implementation_years) _ _ Ec eq_refl).
    cbn [bind].
    rewrite (py_add_numbers vi (PNum _) _ _ Ei eq_refl). cbn [bind].
    rewrite (missing_entry a "I" EI). reflexivity.
Qed.

Lemma partial_adjustments_raise_KeyError_witness :
  calculate_evc PriorityStatements.no_json "s1" PNone
    (PDict partial_adjustments) = Raise KeyError.
Proof.
  apply (partial_adjustments_raise_KeyError PriorityStatements.no_json "s1"
           PNone partial_adjustments
           [("s1", PDict [("Re", PNum 1.2); ("I", PNum 0.8)])]
           [("Re", PNum 1.2); ("I", PNum 0.8)] 15000 500000 0 3).
  - reflexivity.
  - reflexivity.
  - intros k v H. cbn [dict_get] in H.
    destruct (String.eqb "Re" k); [injection H as <-; eexists; reflexivity |].
    destruct (String.eqb "I" k); [injection H as <-; eexists; reflexivity |].
    discriminate H.
  - reflexivity.
  - reflexivity.
  - reflexivity.
  - eexists. split; reflexivity.
  - eexists. split; reflexivity.
  - eexists. split; reflexivity.
  - reflexivity.
Defined.

End ParameterFacts.

(** ** From the formula customizer to the EVC calculator *)

Module PipelineFacts.
Import Py Statements PyFacts.
Import FormulaStatements EvcStatements CharacteristicsStatements.
Local Open Scope py_scope.

Lemma extracted_names (characteristics : pyval)
  (is_enterprise is_high_value : bool) :
  forall (names : list (string * pyval)) (ps : list (string * pyval)),
    mapM (fun '(name, default) =>
            v <- FormulaDesign.extract_parameter_from_characteristics
                   characteristics name is_enterprise is_high_value
                   default ;;
            Ok (name, v))
         names = Ok ps ->
    dict_keys ps = dict_keys names.
Proof.
  induction names as [| [name default] names IH]; intros ps H;
    cbn [mapM] in H.
  - injection H as <-. reflexivity.
  - bind_inv H as p Hp. bind_inv Hp as v Hv. injection Hp as <-.
    bind_inv H as ps' Hps. injection H as <-.
    cbn [dict_keys map fst]. f_equal. apply IH. exact Hps.
Qed.

Lemma dict_get_not_key {V : Type} (d : list (string * V)) (k : string) :
  ~ In k (dict_keys d) -> dict_get d k = None.
Proof.
  induction d as [| [k0 v0] d IH]; cbn [dict_keys map fst dict_get In];
    intros H; [reflexivity |].
  destruct (String.eqb_spec k0 k) as [-> | _]; [exfalso; tauto |].
  apply IH. tauto.
Qed.

(** A value without a configuration has no component. *)
Lemma value_components_unconfigured (d : dict)
  (parameters adjustments : pyval) (config_key adj_key : string)
  (blocks : list (string * list EvcTools.Mode)) :
  dict_get d config_key = None ->
  EvcTools.value_components (PDict d) parameters adjustments config_key
    adj_key blocks = Ok EvcTools.empty_acc.
Proof.
  intros H. unfold EvcTools.value_components. cbn [py_get]. rewrite H.
  cbn [bind].
  assert (Hblocks : forall acc,
             EvcTools.foldM
               (EvcTools.component_block (PDict d) (PDict []) adjustments
                  adj_key) acc blocks = Ok acc).
  { induction blocks as [| [name modes] blocks IH]; intros acc;
      cbn [EvcTools.foldM]; [reflexivity |].
    cbn [EvcTools.component_block py_contains_key dict_mem dict_get bind].
    apply IH. }
  rewrite Hblocks. reflexivity.
Qed.

(** The customizer hands over the eight parameters and nothing else. *)
Lemma customized_parameter_names (json_loads : string -> option pyval)
  (segment_id : string) (base_formula segment_characteristics : pyval)
  (r : FormulaDesign.CustomizedFormula) :
  FormulaDesign.customize_formula_for_segment json_loads segment_id
    base_formula segment_characteristics = Ok r ->
  dict_keys (FormulaDesign.segment_specific_parameters r)
  = dict_keys FormulaDesign.parameter_names.
Proof.
  unfold FormulaDesign.customize_formula_for_segment. intros H.
  destruct (FormulaDesign.segment_flags segment_id)
    as [is_enterprise is_high_value].
  destruct (FormulaDesign.segment_type_and_name is_enterprise is_high_value)
    as [segment_type segment_name].
  bind_inv H as R _. bind_inv H as Re _. bind_inv H as Co _.
  bind_inv H as I _. bind_inv H as parameters Hp.
  injection H as <-. cbn [FormulaDesign.segment_specific_parameters].
  apply (extracted_names _ _ _ _ _ Hp).
Qed.

(** X7.  The parameters that [customize_formula_for_segment] hands over
    give [calculate_evc] no value to add: they configure no component,
    so the revenue enhancement and the cost optimization are both 0 and
    the EVC value is the reference price less the initial cost, whatever
    annual_revenue, annual_cost, the two rates and operation_cost are. *)
Theorem customized_parameters_leave_no_value
  (json_loads json_loads' : string -> option pyval)
  (segment_id segment_id' : string)
  (base_formula segment_characteristics formula : pyval)
  (r : FormulaDesign.CustomizedFormula)
  (reference initial_cost implementation_years : Q) :
  FormulaDesign.customize_formula_for_segment json_loads segment_id
    base_formula segment_characteristics = Ok r ->
  dict_get (FormulaDesign.segment_specific_parameters r) "reference_price"
  = Some (PNum reference) ->
  dict_get (FormulaDesign.segment_specific_parameters r) "initial_cost"
  = Some (PNum initial_cost) ->
  dict_get (FormulaDesign.segment_specific_parameters r)
    "implementation_years" = Some (PNum implementation_years) ->
  exists e,
    EvcTools.calculate_evc json_loads' segment_id' formula
      (PDict (FormulaDesign.segment_specific_parameters r)) = Ok e
    /\ EvcTools.value (EvcTools.revenue_enhancement (EvcTools.components e))
       = 0
    /\ EvcTools.value (EvcTools.cost_optimization (EvcTools.components e))
       = 0
    /\ EvcTools.evc_value e == reference - initial_cost.
Proof.
  intros H Href Hinit Hyears.
  pose proof (customized_parameter_names _ _ _ _ _ H) as Hkeys.
  set (ps := FormulaDesign.segment_specific_parameters r) in *.
  assert (Hnone : forall k,
             ~ In k (dict_keys FormulaDesign.parameter_names) ->
             dict_get ps k = None).
  { intros k Hk. apply dict_get_not_key. rewrite Hkeys. exact Hk. }
  assert (Hout : forall k,
             In k ["segment_adjustments"; "revenue_components";
                   "cost_components"; "recurring_cost"] ->
             dict_get ps k = None).
  { intros k Hk. apply Hnone. cbn in Hk |- *. intros Hin.
    repeat match goal with
           | H : _ \/ _ |- _ => destruct H as [H | H]
           | H : False |- _ => destruct H
           end; subst; discriminate. }
  destruct (EvcFacts.calculate_evc_accepts_plain_parameters json_loads'
              segment_id' formula ps reference initial_cost 0
              implementation_years) as (e & He & Hevc).
  - apply Hout. cbn. tauto.
  - apply Hout. cbn. tauto.
  - apply Hout. cbn. tauto.
  - exists (PNum reference). cbn [py_get]. rewrite Href.
    split; reflexivity.
  - exists (PNum initial_cost). cbn [py_get]. rewrite Hinit.
    split; reflexivity.
  - exists (PNum 0). cbn [py_get]. rewrite (Hout "recurring_cost").
    + split; reflexivity.
    + cbn. tauto.
  - exact Hyears.
  - exists e. split; [exact He |].
    unfold EvcTools.calculate_evc in He.
    cbn [EvcTools.parse_parameters] in He.
    bind_inv He as reference_price _.
    bind_inv He as adjustments _.
    bind_inv He as years _.
    bind_inv He as revenue Hrev.
    bind_inv He as cost Hcost.
    rewrite value_components_unconfigured in Hrev, Hcost
      by (apply Hout; cbn; tauto).
    injection Hrev as <-. injection Hcost as <-.
    bind_inv He as implementation_cost_value _.
    bind_inv He as evc _. bind_inv He as evc_value _.
    bind_inv He as adjustment_Re _. bind_inv He as adjustment_Co _.
    bind_inv He as reference' _.
    injection He as <-.
    split; [reflexivity |]. split; [reflexivity |].
    cbn [EvcTools.evc_value] in Hevc |- *. rewrite Hevc. ring.
Qed.

Lemma customized_parameters_leave_no_value_witness :
  exists r,
    FormulaDesign.customize_formula_for_segment PriorityStatements.no_json
      "s1" sample_base_formula sample_characteristics = Ok r
    /\ exists e,
         EvcTools.calculate_evc PriorityStatements.no_json "s1"
           sample_base_formula
           (PDict (FormulaDesign.segment_specific_parameters r)) = Ok e
         /\ EvcTools.value
              (EvcTools.revenue_enhancement (EvcTools.components e)) = 0
         /\ EvcTools.value
              (EvcTools.cost_optimization (EvcTools.components e)) = 0
         /\ EvcTools.evc_value e == 15000 - 500000.
Proof.
  eexists. split; [vm_compute; reflexivity |].
  apply (customized_parameters_leave_no_value
           PriorityStatements.no_json PriorityStatements.no_json
           "s1" "s1" sample_base_formula sample_characteristics
           sample_base_formula _ 15000 500000 3);
    vm_compute; reflexivity.
Defined.

End PipelineFacts.

(** ** The formula validator *)

Module ValidationFacts.
Import Py Statements PyFacts FormulaDesign FormulaStatements.
Import FormulaValidation ValidationStatements.
Local Open Scope py_scope.

Lemma foldM_invariant {A B : Type} (f : A -> B -> result A)
  (P : A -> Prop) :
  (forall a x a', f a x = Ok a' -> P a -> P a') ->
  forall l a a', EvcTools.foldM f a l = Ok a' -> P a -> P a'.
Proof.
  intros Hf. induction l as [| x l IH]; intros a a' H Ha;
    cbn [EvcTools.foldM] in H.
  - injection H as <-. exact Ha.
  - bind_inv H as a1 H1. apply (IH _ _ H). apply (Hf _ _ _ H1 Ha).
Qed.

Lemma explained_accepted : explained accepted.
Proof. split; reflexivity. Qed.

Lemma explained_report (r : ValidationResult) (issue : string) :
  explained (report r issue).
Proof.
  unfold explained. cbn [report is_valid issues]. split.
  - discriminate.
  - intros H. apply app_eq_nil in H. destruct H as [_ H]. discriminate H.
Qed.

Lemma explained_recommend (r : ValidationResult) (text : string) :
  explained r -> explained (recommend r text).
Proof. unfold explained. cbn [recommend is_valid issues]. tauto. Qed.

Lemma check_component_explained (components : pyval)
  (r r' : ValidationResult) (component : string) :
  check_component components r component = Ok r' ->
  explained r -> explained r'.
Proof.
  unfold check_component. intros H Hr.
  bind_inv H as present _. destruct present; cbn [negb] in H.
  - bind_inv H as component_data _. bind_inv H as weighted _.
    destruct weighted; cbn [negb] in H.
    + bind_inv H as weight _. bind_inv H as not_positive _.
      destruct not_positive; injection H as <-;
        [apply explained_report | exact Hr].
    + injection H as <-. apply explained_report.
  - injection H as <-. apply explained_report.
Qed.

Lemma check_param_explained (segment_params : pyval)
  (r r' : ValidationResult) (param : string) :
  check_param segment_params r param = Ok r' ->
  explained r -> explained r'.
Proof.
  unfold check_param. intros H Hr.
  bind_inv H as present _. injection H as <-.
  destruct present; cbn [negb]; [exact Hr | apply explained_report].
Qed.

Lemma recommend_for_explained (formula_dict components : pyval)
  (segment key : string) (bound : Q) (text : string)
  (r r' : ValidationResult) :
  recommend_for formula_dict components segment key bound text r = Ok r' ->
  explained r -> explained r'.
Proof.
  unfold recommend_for. intros H Hr.
  bind_inv H as segment_id _.
  destruct (py_eqb segment_id (PStr segment)).
  - bind_inv H as component _. bind_inv H as weight _.
    bind_inv H as low _. injection H as <-.
    destruct low; [apply explained_recommend |]; exact Hr.
  - injection H as <-. exact Hr.
Qed.

(** X8.  The verdict of [validate_formula] is always explained: whenever
    it returns, is_valid is true exactly when no issue is listed; every
    check that turns the verdict to false adds its issue, and a
    recommendation never changes the verdict. *)
Theorem validation_verdict_is_explained
  (json_loads : string -> option pyval) (formula : pyval)
  (r : ValidationResult) :
  validate_formula json_loads formula = Ok r -> explained r.
Proof.
  unfold validate_formula. intros H.
  bind_inv H as has_base_formula _.
  bind_inv H as has_components _.
  bind_inv H as components _.
  bind_inv H as r1 H1.
  bind_inv H as segment_params _.
  bind_inv H as r2 H2.
  bind_inv H as r3 H3.
  apply (recommend_for_explained _ _ _ _ _ _ _ _ H).
  apply (recommend_for_explained _ _ _ _ _ _ _ _ H3).
  apply (foldM_invariant _ explained
           (fun a x a' => check_param_explained segment_params a a' x)
           _ _ _ H2).
  apply (foldM_invariant _ explained
           (fun a x a' => check_component_explained components a a' x)
           _ _ _ H1).
  destruct has_base_formula, has_components; cbn [negb];
    first [apply explained_report | apply explained_accepted].
Qed.

Lemma validation_verdict_is_explained_witness :
  exists r,
    validate_formula PriorityStatements.no_json sample_base_formula = Ok r
    /\ is_valid r = false /\ explained r.
Proof.
  eexists. split; [vm_compute; reflexivity |].
  split; [reflexivity |].
  apply (validation_verdict_is_explained PriorityStatements.no_json
           sample_base_formula).
  vm_compute. reflexivity.
Defined.

(** X9.  A formula given as a plain formula -- text that is not in
    braces and holds an equals sign, such as the base formula
    EVC = R + (Re + Co) - I -- never validates: the verdict is negative
    with exactly eight issues, one for each required parameter, and no
    recommendation. *)
Theorem plain_formula_text_is_invalid
  (json_loads : string -> option pyval) (text : string) :
  in_braces text = false ->
  is_substring "=" text = true ->
  validate_formula json_loads (PStr text)
  = Ok {| is_valid := false;
          issues := map missing_param required_params;
          recommendations := [] |}.
Proof.
  intros Hb He. unfold validate_formula, parse_formula.
  rewrite Hb, He. reflexivity.
Qed.

Lemma plain_formula_text_is_invalid_witness :
  validate_formula PriorityStatements.no_json sample_base_formula
  = Ok {| is_valid := false;
          issues := map missing_param required_params;
          recommendations := [] |}.
Proof.
  apply (plain_formula_text_is_invalid PriorityStatements.no_json
           "EVC = R + (Re + Co) - I"); reflexivity.
Defined.

Lemma dict_mem_key {V : Type} (d : list (string * V)) (k : string) :
  In k (dict_keys d) -> dict_mem d k = true.
Proof.
  unfold dict_mem.
  induction d as [| [k0 v0] d IH]; cbn [dict_keys map fst In dict_get];
    intros H; [destruct H |].
  destruct (String.eqb_spec k0 k) as [_ | Hne]; [reflexivity |].
  apply IH. destruct H as [H | H]; [congruence | exact H].
Qed.

Lemma check_params_present (ps : dict) (r : ValidationResult) :
  forall params,
    (forall param, In param params -> dict_mem ps param = true) ->
    EvcTools.foldM (check_param (PDict ps)) r params = Ok r.
Proof.
  induction params as [| param params IH]; intros H;
    cbn [EvcTools.foldM]; [reflexivity |].
  unfold check_param at 1. cbn [py_contains_key bind].
  rewrite (H param) by (left; reflexivity). cbn [negb].
  apply IH. intros p Hp. apply H. right. exact Hp.
Qed.

Lemma check_component_weighted (components : dict) (r : ValidationResult)
  (component : string) (c : FormulaComponent) :
  dict_get components component = Some (component_dict c) ->
  0 < weight c ->
  check_component (PDict components) r component = Ok r.
Proof.
  intros Hc Hw. unfold check_component.
  cbn [py_contains_key py_getitem_key]. unfold dict_mem. rewrite Hc.
  cbn [negb bind component_dict py_contains_key py_getitem_key].
  change (dict_mem [("description", description c);
                    ("calculation", calculation c);
                    ("weight", PNum (weight c))] "weight") with true.
  change (dict_get [("description", description c);
                    ("calculation", calculation c);
                    ("weight", PNum (weight c))] "weight")
    with (Some (PNum (weight c))).
  cbn [negb bind]. unfold py_le. cbn [py_gt as_num bind].
  apply Qlt_bool_iff in Hw. rewrite Hw. reflexivity.
Qed.

Lemma recommend_for_customized (r : CustomizedFormula) (segment key : string)
  (bound : Q) (text : string) (v : ValidationResult) (c : FormulaComponent) :
  py_get (PDict [ ("R", component_dict (comp_R r));
                  ("Re", component_dict (comp_Re r));
                  ("Co", component_dict (comp_Co r));
                  ("I", component_dict (comp_I r)) ]) key (PDict [])
  = Ok (component_dict c) ->
  recommend_for (as_dict r)
    (PDict [ ("R", component_dict (comp_R r));
             ("Re", component_dict (comp_Re r));
             ("Co", component_dict (comp_Co r));
             ("I", component_dict (comp_I r)) ])
    segment key bound text v
  = Ok (if String.eqb (segment_id r) segment && Qlt_bool (weight c) bound
        then recommend v text else v).
Proof.
  intros Hc. unfold recommend_for.
  change (py_get (as_dict r) "segment_id" PNone)
    with (Ok (PStr (segment_id r)) : result pyval).
  cbn [bind py_eqb].
  destruct (String.eqb (segment_id r) segment); cbn [andb]; [| reflexivity].
  rewrite Hc. cbn [bind component_dict].
  change (py_get (PDict [("description", description c);
                         ("calculation", calculation c);
                         ("weight", PNum (weight c))]) "weight" (PNum 1.0))
    with (Ok (PNum (weight c)) : result pyval).
  cbn [bind py_lt py_gt as_num]. reflexivity.
Qed.

(** What the validator answers for a formula of the customizer whose
    weights are positive. *)
Lemma validate_customized (json_loads : string -> option pyval)
  (formula : pyval) (r : CustomizedFormula) :
  parse_formula json_loads formula = as_dict r ->
  dict_keys (segment_specific_parameters r) = dict_keys parameter_names ->
  positive_weights r ->
  validate_formula json_loads formula
  = Ok {| is_valid := true;
          issues := [];
          recommendations := recommendations_for r |}.
Proof.
  intros Hparse Hkeys (HR & HRe & HCo & HI).
  unfold validate_formula. rewrite Hparse.
  change (py_contains_key (as_dict r) "base_formula")
    with (Ok true : result bool).
  change (py_contains_key (as_dict r) "components")
    with (Ok true : result bool).
  change (py_get (as_dict r) "components" (PDict []))
    with (Ok (PDict [ ("R", component_dict (comp_R r));
                      ("Re", component_dict (comp_Re r));
                      ("Co", component_dict (comp_Co r));
                      ("I", component_dict (comp_I r)) ]) : result pyval).
  change (py_get (as_dict r) "segment_specific_parameters" (PDict []))
    with (Ok (PDict (segment_specific_parameters r)) : result pyval).
  cbn [bind negb EvcTools.foldM required_components].
  set (components := [ ("R", component_dict (comp_R r));
                       ("Re", component_dict (comp_Re r));
                       ("Co", component_dict (comp_Co r));
                       ("I", component_dict (comp_I r)) ]).
  rewrite (check_component_weighted components _ "R" (comp_R r) eq_refl HR).
  cbn [bind].
  rewrite (check_component_weighted components _ "Re" (comp_Re r) eq_refl
             HRe).
  cbn [bind].
  rewrite (check_component_weighted components _ "Co" (comp_Co r) eq_refl
             HCo).
  cbn [bind].
  rewrite (check_component_weighted components _ "I" (comp_I r) eq_refl HI).
  cbn [bind]. subst components.
  rewrite check_params_present.
  - cbn [bind].
    rewrite (recommend_for_customized r "s4" "I" 1.2 advice_s4 accepted
               (comp_I r) eq_refl).
    cbn [bind].
    rewrite (recommend_for_customized r "s1" "Re" 1.1 advice_s1 _
               (comp_Re r) eq_refl).
    unfold recommendations_for.
    destruct (String.eqb (segment_id r) "s4" && Qlt_bool (weight (comp_I r)) 1.2);
      destruct (String.eqb (segment_id r) "s1"
                && Qlt_bool (weight (comp_Re r)) 1.1);
      reflexivity.
  - intros param Hin. apply dict_mem_key. rewrite Hkeys. exact Hin.
Qed.

(** X10.  A formula that [customize_formula_for_segment] returned with
    positive weights passes [validate_formula]: given as the dictionary
    itself, or as text that is read back as that dictionary, it gets a
    positive verdict and no issue, since the customizer always supplies
    the base formula, the four components and the eight parameters. *)
Theorem customized_formula_is_valid
  (json_loads json_loads' : string -> option pyval) (segment_id : string)
  (base_formula segment_characteristics formula : pyval)
  (r : CustomizedFormula) :
  customize_formula_for_segment json_loads segment_id base_formula
    segment_characteristics = Ok r ->
  positive_weights r ->
  parse_formula json_loads' formula = as_dict r ->
  exists v,
    validate_formula json_loads' formula = Ok v
    /\ is_valid v = true /\ issues v = [].
Proof.
  intros H Hpos Hparse. eexists. split.
  - apply validate_customized; [exact Hparse | | exact Hpos].
    apply (PipelineFacts.customized_parameter_names _ _ _ _ _ H).
  - split; reflexivity.
Qed.

Lemma customized_formula_is_valid_witness :
  exists r,
    customize_formula_for_segment PriorityStatements.no_json "s1"
      sample_base_formula sample_characteristics = Ok r
    /\ exists v,
         validate_formula PriorityStatements.no_json (as_dict r) = Ok v
         /\ is_valid v = true /\ issues v = [].
Proof.
  eexists. split; [vm_compute; reflexivity |].
  eapply (customized_formula_is_valid PriorityStatements.no_json
            PriorityStatements.no_json "s1" sample_base_formula
            sample_characteristics).
  - vm_compute. reflexivity.
  - unfold positive_weights. vm_compute. repeat split; reflexivity.
  - reflexivity.
Defined.

Lemma customized_segment_id (json_loads : string -> option pyval)
  (id : string) (base_formula segment_characteristics : pyval)
  (r : CustomizedFormula) :
  customize_formula_for_segment json_loads id base_formula
    segment_characteristics = Ok r ->
  segment_id r = id.
Proof.
  unfold customize_formula_for_segment. intros H.
  destruct (segment_flags id) as [is_enterprise is_high_value].
  destruct (segment_type_and_name is_enterprise is_high_value)
    as [segment_type segment_name].
  bind_inv H as R _. bind_inv H as Re _. bind_inv H as Co _.
  bind_inv H as I _. bind_inv H as parameters _.
  injection H as <-. reflexivity.
Qed.

Lemma Qlt_bool_comp (x y z : Q) : x == y -> Qlt_bool x z = Qlt_bool y z.
Proof.
  intros E. destruct (Qlt_bool y z) eqn:H.
  - apply Qlt_bool_iff. apply Qlt_bool_iff in H. rewrite E. exact H.
  - apply Qlt_bool_false_iff. apply Qlt_bool_false_iff in H.
    rewrite E. exact H.
Qed.

(** X11.  On the customizer's own formulas, with the base weights 1.0,
    1.2, 1.0 and 0.9, for every segment id that does not go on beyond
    ASCII or beyond 4300 characters after a leading s: the customizer
    returns, the validator accepts the formula, always recommends a
    higher implementation-cost weight for segment s4 (its customized
    weight is 0.9 * 1.2 = 1.08, below the bound 1.2) and recommends
    nothing for any other segment id: the recommendation for s1 cannot
    fire, the customized weight of Re being 1.2 * 1.2 = 1.44. *)
Theorem customized_formula_recommendations
  (json_loads json_loads' : string -> option pyval) (id : string)
  (base_formula segment_characteristics : pyval) :
  plain_id id = true ->
  has_base_weights
    (base_components (parse_base_formula json_loads base_formula)) ->
  is_dict (parse_characteristics json_loads segment_characteristics) = true ->
  exists r v,
    customize_formula_for_segment json_loads id base_formula
      segment_characteristics = Ok r
    /\ validate_formula json_loads' (as_dict r) = Ok v
    /\ is_valid v = true
    /\ issues v = []
    /\ recommendations v = if String.eqb id "s4" then [advice_s4] else [].
Proof.
  intros _ Hbase Hdict.
  destruct (segment_flags id) as [is_enterprise is_high_value] eqn:Hflags.
  destruct (FormulaFacts.customize_with_flags json_loads id base_formula
              segment_characteristics is_enterprise is_high_value
              Hflags Hbase Hdict) as (r & Hr & HR & HRe & HCo & HI).
  pose proof (customized_segment_id _ _ _ _ _ Hr) as Hid.
  assert (Hpos : positive_weights r).
  { unfold positive_weights. rewrite HR, HRe, HCo, HI.
    destruct is_enterprise, is_high_value; repeat split; reflexivity. }
  exists r. eexists. split; [exact Hr |]. split.
  - apply validate_customized;
      [reflexivity
      | apply (PipelineFacts.customized_parameter_names _ _ _ _ _ Hr)
      | exact Hpos].
  - cbn [is_valid issues recommendations].
    split; [reflexivity |]. split; [reflexivity |].
    unfold recommendations_for. rewrite Hid.
    rewrite (Qlt_bool_comp _ _ 1.2 HI), (Qlt_bool_comp _ _ 1.1 HRe).
    destruct (String.eqb_spec id "s4") as [-> | Hn4].
    + injection Hflags as <- <-. reflexivity.
    + destruct (String.eqb_spec id "s1") as [-> | Hn1]; [| reflexivity].
      injection Hflags as <- <-. reflexivity.
Qed.

Lemma customized_formula_recommendations_witness :
  exists r v,
    customize_formula_for_segment PriorityStatements.no_json "s4"
      sample_base_formula (PStr "{}") = Ok r
    /\ validate_formula PriorityStatements.no_json (as_dict r) = Ok v
    /\ is_valid v = true
    /\ issues v = []
    /\ recommendations v = [advice_s4].
Proof.
  apply (customized_formula_recommendations PriorityStatements.no_json
           PriorityStatements.no_json "s4" sample_base_formula (PStr "{}")).
  - reflexivity.
  - apply FormulaFacts.empty_components_have_base_weights.
  - reflexivity.
Defined.

Lemma check_component_raise (components : dict) (r : ValidationResult)
  (component : string) (e : exn) :
  check_component (PDict components) r component = Raise e -> e = TypeError.
Proof.
  unfold check_component. cbn [py_contains_key bind]. unfold dict_mem.
  cbn [py_getitem_key].
  destruct (dict_get components component) as [component_data |];
    cbn [negb bind]; [| discriminate].
  destruct component_data as [| b | q | s | l | d];
    cbn [py_contains_key bind];
    try (intros H; injection H as <-; reflexivity).
  - destruct (negb (is_substring "weight" s)); [discriminate |].
    cbn [py_getitem_key bind]. intros H. injection H as <-. reflexivity.
  - destruct (negb (existsb (py_eqb (PStr "weight")) l)); [discriminate |].
    cbn [py_getitem_key bind]. intros H. injection H as <-. reflexivity.
  - unfold dict_mem. cbn [py_getitem_key].
    destruct (dict_get d "weight") as [w |]; cbn [negb bind];
      [| discriminate].
    unfold py_le. intros H.
    apply ScorerExceptionFacts.bind_raise in H.
    destruct H as [H | (b & _ & H)].
    + apply ScorerExceptionFacts.bind_raise in H.
      destruct H as [H | (b & _ & H)]; [| discriminate H].
      apply (ScorerExceptionFacts.py_gt_raise _ _ _ H).
    + destruct b; discriminate H.
Qed.

Lemma check_component_odd_weight (components : dict) (r : ValidationResult)
  (component : string) (component_data : dict) (weight : pyval) :
  dict_get components component = Some (PDict component_data) ->
  dict_get component_data "weight" = Some weight ->
  as_num weight = None ->
  check_component (PDict components) r component = Raise TypeError.
Proof.
  intros Hc Hw Hn. unfold check_component.
  cbn [py_contains_key py_getitem_key bind]. unfold dict_mem.
  rewrite Hc. cbn [negb bind py_contains_key py_getitem_key].
  unfold dict_mem. rewrite Hw. cbn [negb bind]. unfold py_le.
  destruct weight as [| [|] | q | s | l | d]; try discriminate Hn;
    reflexivity.
Qed.

Lemma check_components_odd_weight (components : dict) (component : string)
  (component_data : dict) (weight : pyval) :
  dict_get components component = Some (PDict component_data) ->
  dict_get component_data "weight" = Some weight ->
  as_num weight = None ->
  forall required r,
    In component required ->
    EvcTools.foldM (check_component (PDict components)) r required
    = Raise TypeError.
Proof.
  intros Hc Hw Hn. induction required as [| x required IH]; intros r Hin;
    [destruct Hin |].
  cbn [EvcTools.foldM].
  destruct (check_component (PDict components) r x) as [r' | e] eqn:E.
  - cbn [bind]. destruct Hin as [-> | Hin].
    + rewrite (check_component_odd_weight _ _ _ _ _ Hc Hw Hn) in E.
      discriminate E.
    + apply IH. exact Hin.
  - cbn [bind]. rewrite (check_component_raise _ _ _ _ E). reflexivity.
Qed.

(** X12.  A weight that is not a number is not reported as an issue: when
    the component table of the formula holds, for one of the four
    required components, a weight such as null or a text,
    [validate_formula] raises [TypeError] on comparing it with 0. *)
Theorem odd_weight_raises_TypeError
  (json_loads : string -> option pyval) (formula : pyval) :
  has_odd_weight (parse_formula json_loads formula) ->
  validate_formula json_loads formula = Raise TypeError.
Proof.
  intros (d & components & component & component_data & weight
          & Hd & Hcs & Hin & Hc & Hw & Hn).
  unfold validate_formula. rewrite Hd.
  cbn [py_contains_key bind py_get]. rewrite Hcs. cbn [bind].
  rewrite (check_components_odd_weight components component component_data
             weight Hc Hw Hn); [reflexivity | exact Hin].
Qed.

Lemma odd_weight_raises_TypeError_witness :
  validate_formula PriorityStatements.no_json null_weight_formula
  = Raise TypeError.
Proof.
  apply (odd_weight_raises_TypeError PriorityStatements.no_json
           null_weight_formula).
  exists [ ("base_formula", PStr "EVC = R + (Re + Co) - I");
           ("components",
            PDict [ ("R", PDict [("weight", PNum 1.0)]);
                    ("Re", PDict [("weight", PNum 1.2)]);
                    ("Co", PDict [("weight", PNone)]);
                    ("I", PDict [("weight", PNum 0.9)]) ]) ],
    [ ("R", PDict [("weight", PNum 1.0)]);
      ("Re", PDict [("weight", PNum 1.2)]);
      ("Co", PDict [("weight", PNone)]);
      ("I", PDict [("weight", PNum 0.9)]) ],
    "Co", [("weight", PNone)], PNone.
  repeat split; try reflexivity. cbn. tauto.
Defined.

End ValidationFacts.

(** ** Preparing the parameters of a segment *)

Module PreparationFacts.
Import Py Statements PyFacts FormulaStatements.
Import EvcCalculation CalculationStatements ValidationStatements.
Local Open Scope py_scope.

(** *** Strings as lists of bytes *)

Lemma string_rev_involutive (s : string) : string_rev (string_rev s) = s.
Proof.
  unfold string_rev. rewrite list_ascii_of_string_of_list_ascii.
  rewrite rev_involutive. apply string_of_list_ascii_of_string.
Qed.

Lemma in_string_rev (c : ascii) (s : string) :
  In c (list_ascii_of_string s) ->
  In c (list_ascii_of_string (string_rev s)).
Proof.
  intros H. unfold string_rev. rewrite list_ascii_of_string_of_list_ascii.
  apply in_rev. rewrite rev_involutive. exact H.
Qed.

Lemma high_not_space (c : ascii) : high c = true -> is_space c = false.
Proof.
  unfold high, is_space. intros H. apply Nat.leb_le in H.
  destruct (Nat.leb_spec (nat_of_ascii c) 13);
    destruct (Nat.leb_spec (nat_of_ascii c) 32);
    try lia; rewrite !andb_false_r; reflexivity.
Qed.

Lemma space2_not_high (a b : ascii) :
  is_space2 a b = true -> high a = false /\ high b = false.
Proof.
  unfold is_space2, high. intros H.
  repeat (progress rewrite ?andb_true_iff, ?orb_true_iff, ?Nat.eqb_eq in H).
  split; apply Nat.leb_gt; lia.
Qed.

Lemma space3_not_high (a b c : ascii) :
  is_space3 a b c = true ->
  high a = false /\ high b = false /\ high c = false.
Proof.
  unfold is_space3, high. intros H.
  repeat (progress rewrite ?andb_true_iff, ?orb_true_iff, ?Nat.eqb_eq,
            ?Nat.leb_le in H).
  repeat split; apply Nat.leb_gt; lia.
Qed.

(** Stripping takes whole whitespace characters off, so it keeps a byte
    that none of them holds. *)
Lemma in_strip_front (backwards : bool) (c : ascii) :
  high c = true ->
  forall n s,
    (String.length s <= n)%nat ->
    In c (list_ascii_of_string s) ->
    In c (list_ascii_of_string (strip_front backwards s)).
Proof.
  intros Hc. induction n as [| n IH]; intros s Hn Hin.
  - destruct s; [exact Hin | cbn [String.length] in Hn; lia].
  - destruct s as [| a s1]; [exact Hin |].
    cbn [String.length] in Hn. cbn [strip_front].
    destruct (is_space a) eqn:Ea.
    { cbn [list_ascii_of_string] in Hin. destruct Hin as [-> | Hin].
      - rewrite (high_not_space c Hc) in Ea. discriminate Ea.
      - apply IH; [lia | exact Hin]. }
    destruct s1 as [| b s2]; [exact Hin |].
    cbn [String.length] in Hn.
    destruct (if backwards then is_space2 b a else is_space2 a b) eqn:E2.
    { assert (Hab : high a = false /\ high b = false).
      { destruct backwards; apply space2_not_high in E2; tauto. }
      cbn [list_ascii_of_string] in Hin.
      destruct Hin as [-> | [-> | Hin]]; [destruct Hab; congruence .. |].
      apply IH; [lia | exact Hin]. }
    destruct s2 as [| c3 s3]; [exact Hin |].
    cbn [String.length] in Hn.
    destruct (if backwards then is_space3 c3 b a else is_space3 a b c3)
      eqn:E3; [| exact Hin].
    assert (Habc : high a = false /\ high b = false /\ high c3 = false).
    { destruct backwards; apply space3_not_high in E3; tauto. }
    cbn [list_ascii_of_string] in Hin.
    destruct Hin as [-> | [-> | [-> | Hin]]];
      [destruct Habc as (? & ? & ?); congruence .. |].
    apply IH; [lia | exact Hin].
Qed.

Lemma in_strip (c : ascii) (s : string) :
  high c = true ->
  In c (list_ascii_of_string s) -> In c (list_ascii_of_string (strip s)).
Proof.
  intros Hc H. unfold strip, rstrip, lstrip.
  apply in_string_rev. apply (in_strip_front true c Hc _ _ (le_n _)).
  apply in_string_rev. apply (in_strip_front false c Hc _ _ (le_n _)).
  exact H.
Qed.

Lemma in_remove_char (c x : ascii) :
  Ascii.eqb c x = false ->
  forall s,
    In c (list_ascii_of_string s) ->
    In c (list_ascii_of_string (remove_char x s)).
Proof.
  intros Hc. induction s as [| c' s IH];
    cbn [remove_char list_ascii_of_string]; intros H; [exact H |].
  destruct (Ascii.eqb c' x) eqn:E.
  - destruct H as [-> | H]; [congruence | apply IH; exact H].
  - destruct H as [-> | H]; [left; reflexivity | right; apply IH; exact H].
Qed.

Lemma in_prefix (c : ascii) :
  forall p s,
    String.prefix p s = true ->
    In c (list_ascii_of_string p) -> In c (list_ascii_of_string s).
Proof.
  induction p as [| a p IH]; intros s Hp Hin; [destruct Hin |].
  destruct s as [| b s]; cbn [String.prefix] in Hp; [discriminate Hp |].
  destruct (Ascii.ascii_dec a b) as [-> | Hne]; [| discriminate Hp].
  cbn [list_ascii_of_string] in Hin |- *.
  destruct Hin as [-> | Hin]; [left; reflexivity | right].
  apply (IH s Hp Hin).
Qed.

Lemma in_substring (c : ascii) (p : string) :
  In c (list_ascii_of_string p) ->
  forall s, is_substring p s = true -> In c (list_ascii_of_string s).
Proof.
  intros Hin. induction s as [| b s IH]; cbn [is_substring]; intros H.
  - rewrite orb_false_r in H. apply (in_prefix c p _ H Hin).
  - apply orb_true_iff in H. destruct H as [H | H].
    + apply (in_prefix c p _ H Hin).
    + right. apply IH. exact H.
Qed.

(** *** Integer literals *)

Lemma literal_value_chars :
  forall s after_digit acc n,
    literal_value s after_digit acc = Some n ->
    forall c, In c (list_ascii_of_string s) ->
              is_digit c = true \/ c = "_"%char.
Proof.
  induction s as [| c' s IH]; intros after_digit acc n H c Hin;
    [destruct Hin |].
  cbn [literal_value] in H. cbn [list_ascii_of_string] in Hin.
  destruct (is_digit c') eqn:Ed.
  - destruct Hin as [<- | Hin]; [left; exact Ed |].
    apply (IH _ _ _ H c Hin).
  - destruct (Ascii.eqb_spec c' "_"%char) as [-> | Hne];
      cbn [andb] in H; [| discriminate H].
    destruct after_digit; [| discriminate H].
    destruct Hin as [<- | Hin]; [right; reflexivity |].
    apply (IH _ _ _ H c Hin).
Qed.

Lemma high_not_digit (c : ascii) : high c = true -> is_digit c = false.
Proof.
  unfold high, is_digit. intros H. apply Nat.leb_le in H.
  destruct (Nat.leb_spec (nat_of_ascii c) 57); [lia |].
  apply andb_false_r.
Qed.

Lemma high_not_ascii (c x : ascii) :
  high c = true -> high x = false -> Ascii.eqb c x = false.
Proof.
  intros Hc Hx. destruct (Ascii.eqb_spec c x) as [-> | _];
    [congruence | reflexivity].
Qed.

(** Text that holds such a byte is not an integer literal. *)
Lemma int_of_string_high (c : ascii) (s : string) :
  high c = true ->
  In c (list_ascii_of_string s) ->
  int_of_string s = Raise ValueError.
Proof.
  intros Hc Hin. unfold int_of_string.
  pose proof (in_strip c s Hc Hin) as Hs.
  set (signed := match strip s with
                 | String "-"%char s' => (s', true)
                 | String "+"%char s' => (s', false)
                 | s' => (s', false)
                 end).
  assert (Hf : In c (list_ascii_of_string (fst signed))).
  { subst signed. destruct (strip s) as [| a t]; [destruct Hs |].
    cbn [list_ascii_of_string] in Hs.
    destruct a as [[|] [|] [|] [|] [|] [|] [|] [|]]; cbn [fst];
      first [ exact Hs
            | destruct Hs as [<- | Hs];
              [vm_compute in Hc; discriminate Hc | exact Hs] ]. }
  destruct (literal_value (fst signed) false 0) as [n |] eqn:E;
    [| reflexivity].
  destruct (literal_value_chars _ _ _ _ E c Hf) as [Hd | ->].
  - rewrite (high_not_digit c Hc) in Hd. discriminate Hd.
  - discriminate Hc.
Qed.

Lemma label_has_high_byte (label : string) :
  In label segment_labels ->
  exists c, In c (list_ascii_of_string label) /\ high c = true.
Proof.
  unfold segment_labels. cbn [In].
  intros [<- | [<- | [<- | [<- | []]]]];
    eexists; (split; [left; reflexivity | reflexivity]).
Qed.

(** X14.  [prepare_segment_parameters] reads a number in the segment id
    with the letter s taken out, so it does not accept the ids that
    [customize_formula_for_segment] accepts by their label: for an id
    that holds one of the labels 大企業, 中小企業, 高価値 or 低価値 it raises
    [ValueError] as soon as the parameters of the formula have been read,
    whatever the formula and the market data are. *)
Theorem labelled_segment_raises_ValueError
  (json_loads : string -> option pyval) (segment_id : string)
  (formula market_data : pyval) (segment_params : dict) :
  names_a_label segment_id ->
  py_get (parse_document json_loads formula) "segment_specific_parameters"
    (PDict []) = Ok (PDict segment_params) ->
  prepare_segment_parameters json_loads segment_id formula market_data
  = Raise ValueError.
Proof.
  intros (label & Hlabel & Hsub) Hps.
  destruct (label_has_high_byte label Hlabel) as (c & Hc & Hhigh).
  unfold prepare_segment_parameters. rewrite Hps. cbn [bind].
  assert (Hcopy : exists parameters,
             (if py_truthy (PDict segment_params)
              then py_copy (PDict segment_params)
              else Ok (PDict [])) = Ok parameters).
  { destruct (py_truthy (PDict segment_params)); eexists; reflexivity. }
  destruct Hcopy as [parameters ->]. cbn [bind].
  rewrite (int_of_string_high c); [reflexivity | exact Hhigh |].
  apply in_remove_char; [apply high_not_ascii; [exact Hhigh | reflexivity] |].
  apply (in_substring c label Hc _ Hsub).
Qed.

Lemma labelled_segment_raises_ValueError_witness :
  exists r,
    FormulaDesign.customize_formula_for_segment PriorityStatements.no_json
      "大企業・高価値" sample_base_formula sample_characteristics = Ok r
    /\ prepare_segment_parameters PriorityStatements.no_json
         "大企業・高価値" (as_dict r) PNone = Raise ValueError.
Proof.
  eexists. split; [vm_compute; reflexivity |].
  eapply (labelled_segment_raises_ValueError PriorityStatements.no_json
            "大企業・高価値").
  - exists "大企業". split; [left; reflexivity | reflexivity].
  - reflexivity.
Defined.

Lemma all_chars_forallb (p : ascii -> bool) (s : string) :
  all_chars p s = forallb p (list_ascii_of_string s).
Proof.
  induction s as [| c s IH]; cbn [all_chars list_ascii_of_string forallb];
    [reflexivity | rewrite IH; reflexivity].
Qed.

Lemma all_chars_string_rev (p : ascii -> bool) (s : string) :
  all_chars p s = true -> all_chars p (string_rev s) = true.
Proof.
  rewrite !all_chars_forallb. unfold string_rev.
  rewrite list_ascii_of_string_of_list_ascii, !forallb_forall.
  intros H c Hc. apply H. apply in_rev. exact Hc.
Qed.

Lemma digit_not_space (c : ascii) : is_digit c = true -> is_space c = false.
Proof.
  unfold is_digit, is_space. intros H. apply andb_true_iff in H.
  destruct H as [H1 H2]. apply Nat.leb_le in H1.
  assert (E1 : (nat_of_ascii c <=? 13)%nat = false)
    by (apply Nat.leb_gt; lia).
  assert (E2 : (nat_of_ascii c <=? 32)%nat = false)
    by (apply Nat.leb_gt; lia).
  rewrite E1, E2, !andb_false_r. reflexivity.
Qed.

Lemma digit_not_space2 (a b : ascii) :
  is_digit a = true -> is_space2 a b = false.
Proof.
  unfold is_digit, is_space2. intros H. apply andb_true_iff in H.
  destruct H as [_ H]. apply Nat.leb_le in H.
  assert (E : (nat_of_ascii a =? 194)%nat = false)
    by (apply Nat.eqb_neq; lia).
  rewrite E. reflexivity.
Qed.

Lemma digit_not_space3 (a b c : ascii) :
  is_digit a = true -> is_space3 a b c = false.
Proof.
  unfold is_digit, is_space3. intros H. apply andb_true_iff in H.
  destruct H as [_ H]. apply Nat.leb_le in H.
  assert (E1 : (nat_of_ascii a =? 225)%nat = false)
    by (apply Nat.eqb_neq; lia).
  assert (E2 : (nat_of_ascii a =? 226)%nat = false)
    by (apply Nat.eqb_neq; lia).
  assert (E3 : (nat_of_ascii a =? 227)%nat = false)
    by (apply Nat.eqb_neq; lia).
  rewrite E1, E2, E3. reflexivity.
Qed.

Lemma strip_front_digits (backwards : bool) (s : string) :
  all_chars is_digit s = true -> strip_front backwards s = s.
Proof.
  destruct s as [| a s1]; cbn [all_chars strip_front]; [reflexivity |].
  intros H. apply andb_true_iff in H. destruct H as [Ha H].
  rewrite (digit_not_space a Ha).
  destruct s1 as [| b s2]; [reflexivity |].
  cbn [all_chars] in H. apply andb_true_iff in H. destruct H as [Hb H].
  replace (if backwards then is_space2 b a else is_space2 a b) with false
    by (destruct backwards; symmetry; apply digit_not_space2; assumption).
  destruct s2 as [| c s3]; [reflexivity |].
  cbn [all_chars] in H. apply andb_true_iff in H. destruct H as [Hc _].
  replace (if backwards then is_space3 c b a else is_space3 a b c)
    with false
    by (destruct backwards; symmetry; apply digit_not_space3; assumption).
  reflexivity.
Qed.

Lemma strip_digits (s : string) : all_chars is_digit s = true -> strip s = s.
Proof.
  intros H. unfold strip, rstrip, lstrip.
  rewrite (strip_front_digits false s H).
  rewrite (strip_front_digits true _ (all_chars_string_rev _ _ H)).
  apply string_rev_involutive.
Qed.

Lemma remove_char_digits (s : string) :
  all_chars is_digit s = true -> remove_char "s"%char s = s.
Proof.
  induction s as [| c s IH]; cbn [all_chars remove_char]; [reflexivity |].
  intros H. apply andb_true_iff in H. destruct H as [Hc Hs].
  destruct (Ascii.eqb_spec c "s"%char) as [-> | _]; [discriminate Hc |].
  rewrite (IH Hs). reflexivity.
Qed.

Lemma literal_value_digits :
  forall s after_digit acc,
    all_chars is_digit s = true ->
    s <> EmptyString \/ after_digit = true ->
    exists n, literal_value s after_digit acc = Some n.
Proof.
  induction s as [| c s IH]; intros after_digit acc H Hne.
  - destruct Hne as [Hne | ->]; [congruence |].
    eexists. reflexivity.
  - cbn [all_chars] in H. apply andb_true_iff in H. destruct H as [Hc Hs].
    cbn [literal_value]. rewrite Hc. apply IH; [exact Hs |].
    right. reflexivity.
Qed.

(** A string of digits is an integer literal. *)
Lemma int_of_string_digits (s : string) :
  isdigit s = true -> exists n, int_of_string s = Ok n.
Proof.
  unfold isdigit. intros H. apply andb_true_iff in H.
  destruct H as [Hne Hd]. unfold int_of_string.
  rewrite (strip_digits s Hd).
  destruct s as [| c s]; [discriminate Hne |].
  assert (E : (match String c s with
               | String "-"%char s' => (s', true)
               | String "+"%char s' => (s', false)
               | s' => (s', false)
               end) = (String c s, false)).
  { cbn [all_chars] in Hd. apply andb_true_iff in Hd. destruct Hd as [Hc _].
    destruct c as [[|] [|] [|] [|] [|] [|] [|] [|]];
      first [reflexivity | vm_compute in Hc; discriminate Hc]. }
  rewrite E. cbn [fst snd].
  destruct (literal_value_digits (String c s) false 0%Z Hd) as [n ->].
  - left. discriminate.
  - eexists. reflexivity.
Qed.

Lemma numbered_id_is_a_number (segment_id : string) :
  numbered segment_id = true ->
  exists n, int_of_string (remove_char "s"%char segment_id) = Ok n.
Proof.
  unfold numbered, startswith. intros H. apply andb_true_iff in H.
  destruct H as [Hs Hd].
  destruct segment_id as [| c t]; [discriminate Hs |].
  cbn [String.prefix] in Hs.
  destruct (Ascii.ascii_dec "s" c) as [<- | _]; [| discriminate Hs].
  cbn [FormulaDesign.tail] in Hd. cbn [remove_char Ascii.eqb Bool.eqb].
  assert (Hall : all_chars is_digit t = true).
  { unfold isdigit in Hd. apply andb_true_iff in Hd. apply Hd. }
  rewrite (remove_char_digits t Hall).
  apply int_of_string_digits. exact Hd.
Qed.

(** X13.  For a segment id made of the letter s and digits,
    [prepare_segment_parameters] hands over exactly the eight parameters
    of the formula that [customize_formula_for_segment] returned, given
    as the dictionary or as text read back as it: nothing is taken from
    the market data, which may be anything. *)
Theorem prepared_parameters_are_the_customized_ones
  (json_loads json_loads' : string -> option pyval) (segment_id : string)
  (base_formula segment_characteristics formula market_data : pyval)
  (r : FormulaDesign.CustomizedFormula) :
  numbered segment_id = true ->
  FormulaDesign.customize_formula_for_segment json_loads segment_id
    base_formula segment_characteristics = Ok r ->
  parse_document json_loads' formula = as_dict r ->
  prepare_segment_parameters json_loads' segment_id formula market_data
  = Ok (PDict (FormulaDesign.segment_specific_parameters r)).
Proof.
  intros Hid H Hparse.
  pose proof (PipelineFacts.customized_parameter_names _ _ _ _ _ H) as Hkeys.
  unfold prepare_segment_parameters. rewrite Hparse.
  change (py_get (as_dict r) "segment_specific_parameters" (PDict []))
    with (Ok (PDict (FormulaDesign.segment_specific_parameters r))
          : result pyval).
  cbn [bind].
  destruct (FormulaDesign.segment_specific_parameters r) as [| p ps] eqn:E;
    [discriminate Hkeys |].
  cbn [py_truthy py_copy bind].
  destruct (numbered_id_is_a_number segment_id Hid) as [n ->].
  reflexivity.
Qed.

Lemma prepared_parameters_are_the_customized_ones_witness :
  exists r,
    FormulaDesign.customize_formula_for_segment PriorityStatements.no_json
      "s1" sample_base_formula sample_characteristics = Ok r
    /\ prepare_segment_parameters PriorityStatements.no_json "s1"
         (as_dict r) (PStr "no market data")
       = Ok (PDict EvcStatements.s1_default_parameters).
Proof.
  eexists. split; [vm_compute; reflexivity |].
  match goal with
  | |- prepare_segment_parameters _ _ (as_dict ?r) ?market_data = _ =>
      apply (prepared_parameters_are_the_customized_ones
               PriorityStatements.no_json PriorityStatements.no_json "s1"
               sample_base_formula sample_characteristics (as_dict r)
               market_data r)
  end.
  - reflexivity.
  - vm_compute. reflexivity.
  - reflexivity.
Defined.

End PreparationFacts.

(** ** The analysis of the EVC results *)

Module AnalysisFacts.
Import Py Statements PyFacts EvcTools EvcCalculation CalculationStatements.
Local Open Scope py_scope.

Section Formatting.

Variable format_number : string -> Q -> string.

Lemma evc_values_raise (v : pyval) :
  forall results table,
    In (Plain v) results ->
    foldM (fun evc_values result =>
             id <- attr result segment_id ;;
             value <- attr result evc_value ;;
             Ok (dict_set evc_values id value))
          table results = Raise AttributeError.
Proof.
  induction results as [| o results IH]; intros table Hin; [destruct Hin |].
  cbn [foldM]. destruct o as [r | w]; cbn [attr bind].
  - apply IH. destruct Hin as [Hin | Hin]; [discriminate Hin | exact Hin].
  - reflexivity.
Qed.

(** X15.  [analyze_evc_results] needs the result objects of
    [calculate_evc]: given a list that holds any other value -- for
    instance a text, the element type its signature declares -- it raises
    [AttributeError] when it collects the EVC values. *)
Theorem analysis_raises_on_plain_values (results : list Obj) (v : pyval) :
  In (Plain v) results ->
  analyze_evc_results format_number results = Raise AttributeError.
Proof.
  intros Hin. unfold analyze_evc_results, evc_values_of.
  rewrite (evc_values_raise v results [] Hin). reflexivity.
Qed.

End Formatting.

Lemma analysis_raises_on_plain_values_witness :
  analyze_evc_results no_format
    [Model (bare_result "s1" 15000 600000 200000 500000);
     Plain (PStr "{'segment_id': 's2', 'evc_value': 15000.0}")]
  = Raise AttributeError.
Proof.
  apply (analysis_raises_on_plain_values no_format _
           (PStr "{'segment_id': 's2', 'evc_value': 15000.0}")).
  right. left. reflexivity.
Defined.

(** *** The analysis of result objects *)

Lemma in_dict_set {V : Type} (d : list (string * V)) (k k' : string)
  (v v' : V) :
  In (k', v') (dict_set d k v) -> (k' = k /\ v' = v) \/ In (k', v') d.
Proof.
  induction d as [| [k0 v0] d IH]; cbn [dict_set].
  - intros [E | []]. injection E as <- <-. left. split; reflexivity.
  - destruct (String.eqb_spec k0 k) as [-> | Hne].
    + intros [E | H].
      * injection E as <- <-. left. split; reflexivity.
      * right. right. exact H.
    + intros [E | H].
      * right. left. exact E.
      * destruct (IH H) as [Hk | Hin]; [left; exact Hk | right; right; exact Hin].
Qed.

Lemma dict_set_in {V : Type} (d : list (string * V)) (k : string) (v : V) :
  In (k, v) (dict_set d k v).
Proof.
  induction d as [| [k0 v0] d IH]; cbn [dict_set].
  - left. reflexivity.
  - destruct (String.eqb_spec k0 k) as [-> | Hne].
    + left. reflexivity.
    + right. exact IH.
Qed.

Lemma dict_set_keeps {V : Type} (d : list (string * V)) (k k' : string)
  (v v' : V) :
  k' <> k -> In (k', v') d -> In (k', v') (dict_set d k v).
Proof.
  intros Hne. induction d as [| [k0 v0] d IH]; cbn [dict_set];
    intros H; [destruct H |].
  destruct (String.eqb_spec k0 k) as [-> | _].
  - destruct H as [E | H]; [injection E as E _; congruence | right; exact H].
  - destruct H as [E | H]; [left; exact E | right; apply IH; exact H].
Qed.

Lemma dict_set_nonempty {V : Type} (d : list (string * V)) (k : string)
  (v : V) : dict_set d k v <> [].
Proof.
  destruct d as [| [k0 v0] d]; cbn [dict_set]; [discriminate |].
  destruct (String.eqb k0 k); discriminate.
Qed.

Lemma evc_table_from :
  forall rs table id v,
    In (id, v) (evc_table rs table) ->
    In (id, v) table
    \/ exists r, In r rs /\ segment_id r = id /\ evc_value r = v.
Proof.
  induction rs as [| r rs IH]; intros table id v H; cbn [evc_table fold_left]
    in H; [left; exact H |].
  destruct (IH _ _ _ H) as [Hin | (r' & Hr' & Hid & Hv)].
  - destruct (in_dict_set _ _ _ _ _ Hin) as [[-> ->] | Hin'].
    + right. exists r. split; [left; reflexivity | split; reflexivity].
    + left. exact Hin'.
  - right. exists r'. split; [right; exact Hr' | split; assumption].
Qed.

Lemma evc_table_keeps :
  forall rs table id v,
    In (id, v) table ->
    (forall r, In r rs -> segment_id r <> id) ->
    In (id, v) (evc_table rs table).
Proof.
  induction rs as [| r rs IH]; intros table id v Hin Hne;
    cbn [evc_table fold_left]; [exact Hin |].
  apply IH.
  - apply dict_set_keeps; [| exact Hin].
    intros E. apply (Hne r); [left; reflexivity | symmetry; exact E].
  - intros r' Hr'. apply Hne. right. exact Hr'.
Qed.

Lemma evc_table_nonempty :
  forall rs table, table <> [] -> evc_table rs table <> [].
Proof.
  induction rs as [| r rs IH]; intros table H; cbn [evc_table fold_left];
    [exact H |].
  apply IH. apply dict_set_nonempty.
Qed.

(** With distinct ids the table holds the value of every result. *)
Lemma evc_table_distinct :
  forall rs table,
    NoDup (map segment_id rs) ->
    forall r, In r rs -> In (segment_id r, evc_value r) (evc_table rs table).
Proof.
  induction rs as [| r0 rs IH]; intros table Hnd r Hin; [destruct Hin |].
  cbn [map] in Hnd. inversion Hnd as [| ? ? Hnotin Hnd']; subst.
  cbn [evc_table fold_left]. destruct Hin as [-> | Hin].
  - apply evc_table_keeps; [apply dict_set_in |].
    intros r' Hr' E. apply Hnotin. rewrite <- E.
    apply in_map. exact Hr'.
  - apply (IH _ Hnd' r Hin).
Qed.

Lemma largest_bounds (values : list Q) :
  values <> [] ->
  In (largest values) values /\ forall v, In v values -> v <= largest values.
Proof.
  destruct values as [| v0 values]; intros Hne; [congruence |].
  cbn [largest].
  change (fold_left (fun cur x => if Qlt_bool cur x then x else cur)
            values v0) with (list_max_from v0 values).
  split.
  - destruct (list_max_from_attained values v0) as [-> | H];
      [left; reflexivity | right; exact H].
  - intros v [<- | Hin];
      [apply list_max_from_ge_start | apply list_max_from_upper; exact Hin].
Qed.

Lemma fold_step_min_le_start :
  forall qs cur, fold_left step_min qs cur <= cur.
Proof.
  induction qs as [| q qs IH]; intros cur; cbn [fold_left].
  - apply Qle_refl.
  - apply Qle_trans with (step_min cur q); [apply IH |].
    unfold step_min. destruct (Qlt_bool q cur) eqn:E.
    + apply Qlt_bool_iff in E. apply Qlt_le_weak. exact E.
    + apply Qle_refl.
Qed.

Lemma fold_step_min_lower :
  forall qs cur q, In q qs -> fold_left step_min qs cur <= q.
Proof.
  induction qs as [| x qs IH]; intros cur q Hin; [destruct Hin |].
  cbn [fold_left]. destruct Hin as [-> | Hin].
  - apply Qle_trans with (step_min cur q); [apply fold_step_min_le_start |].
    unfold step_min. destruct (Qlt_bool q cur) eqn:E.
    + apply Qle_refl.
    + apply Qlt_bool_false_iff in E. exact E.
  - apply IH. exact Hin.
Qed.

Lemma smallest_bounds (values : list Q) :
  forall v, In v values -> smallest values <= v.
Proof.
  destruct values as [| v0 values]; intros v Hin; [destruct Hin |].
  cbn [smallest].
  change (fold_left (fun cur x => if Qlt_bool x cur then x else cur)
            values v0) with (fold_left step_min values v0).
  destruct Hin as [<- | Hin];
    [apply fold_step_min_le_start | apply fold_step_min_lower; exact Hin].
Qed.

Lemma ratio_at_most_one (x total : Q) : x <= total -> ratio x total <= 1.
Proof.
  intros H. unfold ratio. destruct (Qlt_bool 0 total) eqn:E.
  - apply Qlt_bool_iff in E. apply Qle_shift_div_r; [exact E |].
    rewrite Qmult_1_l. exact H.
  - discriminate.
Qed.

Section Models.

Variable format_number : string -> Q -> string.

Lemma evc_values_models :
  forall rs table,
    foldM (fun evc_values result =>
             id <- attr result segment_id ;;
             value <- attr result evc_value ;;
             Ok (dict_set evc_values id value))
          table (map Model rs) = Ok (evc_table rs table).
Proof.
  induction rs as [| r rs IH]; intros table; cbn [map foldM attr bind];
    [reflexivity | apply IH].
Qed.

Lemma contributions_models :
  forall rs table,
    exists contributions,
      foldM (fun contributions result =>
               id <- attr result segment_id ;;
               components <- attr result components ;;
               Ok (dict_set contributions id (contributions_of components)))
            table (map Model rs) = Ok contributions.
Proof.
  induction rs as [| r rs IH]; intros table; cbn [map foldM attr bind].
  - eexists. reflexivity.
  - apply IH.
Qed.

Lemma first_at_models (max_evc : Q) :
  forall rs,
    first_at max_evc (map Model rs)
    = Ok (find (fun r => Qeq_bool (evc_value r) max_evc) rs).
Proof.
  induction rs as [| r rs IH]; cbn [map first_at attr bind find];
    [reflexivity |].
  destruct (Qeq_bool (evc_value r) max_evc); [reflexivity | exact IH].
Qed.

(** The analysis of a list of result objects always returns; its summary
    and its comparison are read off the table of the EVC values. *)
Lemma analysis_of_models (rs : list EVCResult) :
  exists a,
    analyze_evc_results format_number (map Model rs) = Ok a
    /\ max_value (max_evc (summary a))
       = largest (dict_values (evc_table rs []))
    /\ min_evc (summary a) = smallest (dict_values (evc_table rs []))
    /\ evc_range (summary a)
       = largest (dict_values (evc_table rs []))
         - smallest (dict_values (evc_table rs []))
    /\ max_segment_id (max_evc (summary a))
       = option_map segment_id
           (find (fun r =>
                    Qeq_bool (evc_value r)
                      (largest (dict_values (evc_table rs [])))) rs)
    /\ max_segment_name (max_evc (summary a))
       = option_map segment_name
           (find (fun r =>
                    Qeq_bool (evc_value r)
                      (largest (dict_values (evc_table rs [])))) rs)
    /\ forall id c,
         In (id, c) (segment_comparison a) ->
         In (id, cmp_evc_value c) (evc_table rs [])
         /\ percentage_of_max c
            = ratio (cmp_evc_value c)
                (largest (dict_values (evc_table rs []))).
Proof.
  unfold analyze_evc_results, evc_values_of.
  rewrite evc_values_models. cbn [bind].
  rewrite first_at_models. cbn [bind].
  destruct (contributions_models rs []) as [contributions ->].
  cbn [bind]. eexists. split; [reflexivity |].
  cbn [summary max_evc max_value min_evc evc_range max_segment_id
       max_segment_name segment_comparison].
  repeat (split; [reflexivity |]).
  intros id c Hin. apply in_map_iff in Hin.
  destruct Hin as ([id' v] & E & Hin). injection E as <- <-.
  cbn [cmp_evc_value percentage_of_max]. split; [exact Hin | reflexivity].
Qed.

Lemma in_dict_values {V : Type} (d : list (string * V)) (k : string)
  (v : V) : In (k, v) d -> In v (dict_values d).
Proof.
  intros H. unfold dict_values.
  change v with (snd (k, v)). apply in_map. exact H.
Qed.

(** X16.  For a list of result objects that is not empty,
    [analyze_evc_results] returns, and the segment its summary names as
    the one with the highest EVC is one of the results, reported with
    its own id and name, whose value is the reported maximum; when the
    results have distinct ids no result has a larger value. *)
Theorem analysis_names_the_largest (rs : list EVCResult) :
  rs <> [] ->
  exists a r,
    analyze_evc_results format_number (map Model rs) = Ok a
    /\ In r rs
    /\ names_the_largest a r
    /\ (NoDup (map segment_id rs) ->
        forall r', In r' rs ->
                   evc_value r' <= max_value (max_evc (summary a))).
Proof.
  intros Hne.
  destruct (analysis_of_models rs)
    as (a & Ha & Hmax & _ & _ & Hid & Hname & _).
  set (values := dict_values (evc_table rs [])) in *.
  assert (Hvalues : values <> []).
  { subst values. unfold dict_values. intros E. apply map_eq_nil in E.
    destruct rs as [| r rs]; [congruence |].
    cbn [evc_table fold_left] in E.
    apply (evc_table_nonempty rs _ (dict_set_nonempty _ _ _) E). }
  destruct (largest_bounds values Hvalues) as [Hin Hupper].
  assert (Hsome : exists r, In r rs /\ evc_value r = largest values).
  { subst values. unfold dict_values in Hin. apply in_map_iff in Hin.
    destruct Hin as ([id v] & E & Hin). cbn [snd] in E. subst v.
    destruct (evc_table_from _ _ _ _ Hin) as [[] | (r & Hr & _ & Hv)].
    exists r. split; assumption. }
  destruct (find (fun r => Qeq_bool (evc_value r) (largest values)) rs)
    as [r |] eqn:Hfind.
  - apply find_some in Hfind. destruct Hfind as [Hr Heq].
    exists a, r. split; [exact Ha |]. split; [exact Hr |]. split.
    + unfold names_the_largest. rewrite Hid, Hname, Hmax.
      repeat split. apply Qeq_bool_iff. exact Heq.
    + intros Hnd r' Hr'. rewrite Hmax. apply Hupper.
      apply (in_dict_values _ (segment_id r')).
      apply evc_table_distinct; assumption.
  - exfalso. destruct Hsome as (r & Hr & Hv).
    pose proof (find_none _ _ Hfind r Hr) as Hno. cbn beta in Hno.
    rewrite Hv in Hno.
    assert (Hrefl : Qeq_bool (largest values) (largest values) = true)
      by (apply Qeq_bool_iff; reflexivity).
    congruence.
Qed.

(** X17.  For every list of result objects [analyze_evc_results]
    returns with a range that is not negative, and every segment of its
    comparison has a value between the reported minimum and maximum and a
    share of the maximum of at most 1. *)
Theorem analysis_compares_within_the_summary (rs : list EVCResult) :
  exists a,
    analyze_evc_results format_number (map Model rs) = Ok a
    /\ 0 <= evc_range (summary a)
    /\ forall id c, In (id, c) (segment_comparison a) -> within_summary a c.
Proof.
  destruct (analysis_of_models rs)
    as (a & Ha & Hmax & Hmin & Hrange & _ & _ & Hcmp).
  set (values := dict_values (evc_table rs [])) in *.
  exists a. split; [exact Ha |]. split.
  - rewrite Hrange. destruct values as [| v0 values'] eqn:E.
    + cbn [largest smallest]. discriminate.
    + assert (Hne : values <> []) by (subst values; congruence).
      rewrite <- E.
      destruct (largest_bounds values Hne) as [_ Hupper].
      assert (Hv0 : In v0 values) by (rewrite E; left; reflexivity).
      pose proof (Hupper v0 Hv0) as H1.
      pose proof (smallest_bounds values v0 Hv0) as H2.
      apply (Qplus_le_l _ _ (smallest values)). ring_simplify.
      apply Qle_trans with v0; assumption.
  - intros id c Hin. destruct (Hcmp id c Hin) as [Htable Hshare].
    pose proof (in_dict_values _ _ _ Htable) as Hv. fold values in Hv.
    assert (Hne : values <> []) by (intros E; rewrite E in Hv; destruct Hv).
    destruct (largest_bounds values Hne) as [_ Hupper].
    unfold within_summary. rewrite Hmin, Hmax, Hshare.
    split; [apply smallest_bounds; exact Hv |].
    split; [apply Hupper; exact Hv |].
    apply ratio_at_most_one. apply Hupper. exact Hv.
Qed.

End Models.

Lemma analysis_names_the_largest_witness :
  exists a r,
    analyze_evc_results no_format (map Model two_results) = Ok a
    /\ In r two_results
    /\ names_the_largest a r
    /\ (NoDup (map segment_id two_results) ->
        forall r', In r' two_results ->
                   evc_value r' <= max_value (max_evc (summary a))).
Proof.
  apply (analysis_names_the_largest no_format two_results).
  discriminate.
Defined.

End AnalysisFacts.

(** ** The total potential *)

Module TotalPotentialFacts.
Import Py Statements PyFacts TotalPotential.
Local Open Scope py_scope.




End TotalPotentialFacts.

(** ** From the scores to the strategies, the plans and the report *)

Module ChainFacts.
Import Py Statements PyFacts PriorityStatements ChainStatements.
Local Open Scope py_scope.

(** *** The strategies *)

Lemma mapM_first_raise {A B : Type} (f : A -> result B) (x : A)
  (l : list A) (e : exn) :
  f x = Raise e -> mapM f (x :: l) = Raise e.
Proof. intros H. cbn [mapM]. rewrite H. reflexivity. Qed.

Lemma strategy_of_not_dict (x : pyval) :
  is_dict x = false -> SegmentStrategies.strategy_of x = Raise AttributeError.
Proof.
  destruct x; cbn [is_dict]; intros H; try discriminate H; reflexivity.
Qed.

(** X19.  [generate_segment_strategies] runs over its argument as it was
    received: whenever the first thing that iterating over the argument
    gives is not a dictionary it raises [AttributeError].  So it raises
    on every text that is not empty, on every list that starts with a
    text, and on the dictionary that [calculate_priority_scores] builds,
    whose keys it would run over. *)
Theorem strategies_need_a_list_of_dictionaries
  (json_loads : string -> option pyval) (priority_scores first : pyval)
  (others : list pyval) :
  py_iter priority_scores = Ok (first :: others) ->
  is_dict first = false ->
  SegmentStrategies.generate_segment_strategies json_loads priority_scores
  = Raise AttributeError.
Proof.
  intros Hit Hfirst. unfold SegmentStrategies.generate_segment_strategies.
  rewrite Hit. cbn [bind].
  apply mapM_first_raise. apply strategy_of_not_dict. exact Hfirst.
Qed.

Lemma strategies_need_a_list_of_dictionaries_witness :
  exists out,
    PriorityEvaluation.calculate_priority_scores no_json sample_segments
    = Ok out
    /\ SegmentStrategies.generate_segment_strategies no_json
         (scores_dict out) = Raise AttributeError.
Proof.
  eexists. split; [vm_compute; reflexivity |].
  apply (strategies_need_a_list_of_dictionaries no_json _
           (PStr "priority_scores") [PStr "weights"]); reflexivity.
Defined.

Lemma template_of_rank (q : Q) :
  SegmentStrategies.lookup_rank SegmentStrategies.strategy_templates
    SegmentStrategies.template_lowest
    (PStr (PriorityEvaluation.rank_of_score q))
  = Ok (template_of_score q).
Proof.
  unfold PriorityEvaluation.rank_of_score, template_of_score.
  destruct (Qle_bool 0.8 q); [reflexivity |].
  destruct (Qle_bool 0.6 q); [reflexivity |].
  destruct (Qle_bool 0.4 q); [reflexivity |].
  destruct (Qle_bool 0.2 q); reflexivity.
Qed.

Lemma strategy_of_score (x : PriorityEvaluation.PriorityScoreInfo) :
  OrderStatements.ranked x ->
  exists s,
    SegmentStrategies.strategy_of (score_dict x) = Ok s /\ follows_score x s.
Proof.
  unfold OrderStatements.ranked. intros Hrank.
  unfold SegmentStrategies.strategy_of.
  change (py_get (score_dict x) "segment_id" PNone)
    with (Ok (PriorityEvaluation.segment_id x) : result pyval).
  change (py_get (score_dict x) "segment_name" PNone)
    with (Ok (PriorityEvaluation.segment_name x) : result pyval).
  change (py_get (score_dict x) "priority_rank" PNone)
    with (Ok (PStr (PriorityEvaluation.priority_rank x)) : result pyval).
  change (py_get (score_dict x) "priority_score" (PNum 0))
    with (Ok (PNum (PriorityEvaluation.priority_score x)) : result pyval).
  pose proof (template_of_rank (PriorityEvaluation.priority_score x)) as Ht.
  rewrite <- Hrank in Ht. cbn [bind]. rewrite Ht. cbn [bind].
  destruct (SegmentStrategies.specifics_for
              SegmentStrategies.segment_specifics
              (SegmentStrategies.t_key_tactics
                 (template_of_score (PriorityEvaluation.priority_score x)),
               SegmentStrategies.default_value_proposition)
              (PriorityEvaluation.segment_id x))
    as [specific_tactics value_proposition].
  eexists. split; [reflexivity |].
  unfold follows_score.
  cbn [SegmentStrategies.segment_id SegmentStrategies.segment_name
       SegmentStrategies.priority_rank SegmentStrategies.priority_score
       SegmentStrategies.approach SegmentStrategies.resource_allocation
       SegmentStrategies.timeline].
  repeat split; reflexivity.
Qed.

Lemma strategies_of_scores :
  forall scores,
    Forall OrderStatements.ranked scores ->
    exists strategies,
      mapM SegmentStrategies.strategy_of (map score_dict scores)
      = Ok strategies
      /\ Forall2 follows_score scores strategies.
Proof.
  induction scores as [| x scores IH]; intros H; cbn [map mapM].
  - exists []. split; [reflexivity | constructor].
  - inversion H as [| ? ? Hx Hrest]; subst.
    destruct (strategy_of_score x Hx) as (s & -> & Hs).
    destruct (IH Hrest) as (strategies & -> & Hall).
    cbn [bind]. exists (s :: strategies).
    split; [reflexivity | constructor; assumption].
Qed.

(** X20.  Given the list of the scores that [calculate_priority_scores]
    returned, [generate_segment_strategies] returns one strategy for each
    scored segment, in the same order -- so from the highest score to the
    lowest -- with its id, name, rank and score, and with the approach,
    the resource allocation and the timeline of the rank that the
    thresholds 0.8, 0.6, 0.4 and 0.2 give to its score; the fallback
    template is never needed. *)
Theorem scored_segments_get_the_strategy_of_their_rank
  (json_loads json_loads' : string -> option pyval) (input : pyval)
  (out : PriorityEvaluation.PriorityScores) :
  PriorityEvaluation.calculate_priority_scores json_loads input = Ok out ->
  exists strategies,
    SegmentStrategies.generate_segment_strategies json_loads'
      (scores_list out) = Ok strategies
    /\ Forall2 follows_score (PriorityEvaluation.priority_scores out)
         strategies.
Proof.
  intros H.
  destruct (PriorityFacts.calculate_priority_scores_ok _ _ _ H)
    as (me & mm & items & scores & _ & _ & _ & Hmap & Hout & _).
  unfold SegmentStrategies.generate_segment_strategies, scores_list.
  cbn [py_iter bind]. apply strategies_of_scores.
  rewrite Hout. apply OrderFacts.sort_desc_ranked.
  apply (OrderFacts.mapM_score_segment_ranked _ _ _ _ Hmap).
Qed.

Lemma scored_segments_get_the_strategy_of_their_rank_witness :
  exists out,
    PriorityEvaluation.calculate_priority_scores no_json sample_segments
    = Ok out
    /\ exists strategies,
         SegmentStrategies.generate_segment_strategies no_json
           (scores_list out) = Ok strategies
         /\ Forall2 follows_score (PriorityEvaluation.priority_scores out)
              strategies.
Proof.
  eexists. split; [vm_compute; reflexivity |].
  apply (scored_segments_get_the_strategy_of_their_rank no_json no_json
           sample_segments).
  vm_compute. reflexivity.
Defined.

(** *** The action plans *)

(** X21.  [create_action_plan] runs over the parsed strategies: the list
    of strategies may come bare, in a dictionary under the key
    segment_strategies, or as a text in braces that is read as such a
    dictionary, and the result is the same. *)
Theorem action_plan_reads_wrapped_strategies
  (json_loads : string -> option pyval) (d : dict) (strategies : list pyval)
  (text : string) :
  dict_get d "segment_strategies" = Some (PList strategies) ->
  FormulaDesign.in_braces text = true ->
  FormulaDesign.loads_with_repair json_loads text = Some (PDict d) ->
  ActionPlans.create_action_plan json_loads (PDict d)
  = ActionPlans.create_action_plan json_loads (PList strategies)
  /\ ActionPlans.create_action_plan json_loads (PStr text)
     = ActionPlans.create_action_plan json_loads (PList strategies).
Proof.
  intros Hd Hb Hl.
  assert (Hun : SegmentStrategies.unwrap "segment_strategies" (PDict d)
                = Ok (PList strategies)).
  { unfold SegmentStrategies.unwrap. cbn [py_contains_key bind].
    unfold dict_mem. rewrite Hd. cbn [py_getitem_key]. rewrite Hd.
    reflexivity. }
  unfold ActionPlans.create_action_plan. split.
  - cbn [SegmentStrategies.parse_wrapped]. rewrite Hun. reflexivity.
  - cbn [SegmentStrategies.parse_wrapped]. rewrite Hb.
    unfold FormulaDesign.loads_with_repair in Hl.
    destruct (json_loads text) as [data |].
    + injection Hl as ->. rewrite Hun. reflexivity.
    + rewrite Hl, Hun. reflexivity.
Qed.

Lemma action_plan_reads_wrapped_strategies_witness :
  ActionPlans.create_action_plan loads_wrapped
    (PDict [("segment_strategies", PList wrapped_strategies)])
  = ActionPlans.create_action_plan loads_wrapped (PList wrapped_strategies)
  /\ ActionPlans.create_action_plan loads_wrapped (PStr wrapped_text)
     = ActionPlans.create_action_plan loads_wrapped
         (PList wrapped_strategies).
Proof.
  apply (action_plan_reads_wrapped_strategies loads_wrapped
           [("segment_strategies", PList wrapped_strategies)]
           wrapped_strategies wrapped_text); reflexivity.
Defined.

Lemma lookup_rank_other {T U : Type} (templates : list (string * T))
  (default template : T) (templates' : list (string * U)) (default' : U)
  (priority_rank : pyval) :
  SegmentStrategies.lookup_rank templates default priority_rank
  = Ok template ->
  exists template',
    SegmentStrategies.lookup_rank templates' default' priority_rank
    = Ok template'.
Proof.
  destruct priority_rank; cbn [SegmentStrategies.lookup_rank]; intros H;
    try discriminate H; eexists; reflexivity.
Qed.

Lemma strategy_of_rank (item : pyval) (s : SegmentStrategies.Strategy) :
  SegmentStrategies.strategy_of item = Ok s ->
  exists template,
    SegmentStrategies.lookup_rank SegmentStrategies.strategy_templates
      SegmentStrategies.template_lowest (SegmentStrategies.priority_rank s)
    = Ok template.
Proof.
  unfold SegmentStrategies.strategy_of. intros H.
  bind_inv H as segment_id _. bind_inv H as segment_name _.
  bind_inv H as priority_rank _. bind_inv H as template Ht.
  destruct (SegmentStrategies.specifics_for _ _ segment_id)
    as [specific_tactics value_proposition].
  bind_inv H as priority_score _. injection H as <-.
  exists template. exact Ht.
Qed.

Lemma plan_of_strategy (item : pyval) (s : SegmentStrategies.Strategy) :
  SegmentStrategies.strategy_of item = Ok s ->
  exists p,
    ActionPlans.plan_of (SegmentStrategies.strategy_dict s) = Ok p
    /\ follows_strategy s p.
Proof.
  intros H. destruct (strategy_of_rank item s H) as [template Ht].
  destruct (lookup_rank_other _ _ _ ActionPlans.action_plan_templates
              ActionPlans.plan_lowest _ Ht) as [plan_template Hp].
  unfold ActionPlans.plan_of.
  change (py_get (SegmentStrategies.strategy_dict s) "segment_id" PNone)
    with (Ok (SegmentStrategies.segment_id s) : result pyval).
  change (py_get (SegmentStrategies.strategy_dict s) "segment_name" PNone)
    with (Ok (SegmentStrategies.segment_name s) : result pyval).
  change (py_get (SegmentStrategies.strategy_dict s) "priority_rank" PNone)
    with (Ok (SegmentStrategies.priority_rank s) : result pyval).
  cbn [bind]. rewrite Hp. cbn [bind].
  destruct (SegmentStrategies.specifics_for ActionPlans.segment_actions
              (ActionPlans.t_immediate_actions plan_template,
               ActionPlans.t_kpis plan_template)
              (SegmentStrategies.segment_id s))
    as [specific_immediate_actions specific_kpis].
  eexists. split; [reflexivity |]. repeat split.
Qed.

Lemma plans_of_strategies :
  forall items strategies,
    mapM SegmentStrategies.strategy_of items = Ok strategies ->
    exists plans,
      mapM ActionPlans.plan_of
        (map SegmentStrategies.strategy_dict strategies) = Ok plans
      /\ Forall2 follows_strategy strategies plans.
Proof.
  induction items as [| item items IH]; intros strategies H;
    cbn [mapM] in H.
  - injection H as <-. exists []. split; [reflexivity | constructor].
  - bind_inv H as s Hs. bind_inv H as rest Hrest. injection H as <-.
    destruct (plan_of_strategy item s Hs) as (p & Hp & Hfollows).
    destruct (IH rest Hrest) as (plans & Hplans & Hall).
    exists (p :: plans). cbn [map mapM]. rewrite Hp, Hplans.
    split; [reflexivity | constructor; assumption].
Qed.

(** X22.  [create_action_plan] accepts whatever
    [generate_segment_strategies] returned, given as the dictionary the
    tool builds: it returns one plan and one recommendation for each
    strategy, the plans in the order of the strategies and with their
    id, name and rank. *)
Theorem every_strategy_gets_a_plan
  (json_loads json_loads' : string -> option pyval) (priority_scores : pyval)
  (strategies : list SegmentStrategies.Strategy) :
  SegmentStrategies.generate_segment_strategies json_loads priority_scores
  = Ok strategies ->
  exists a,
    ActionPlans.create_action_plan json_loads'
      (SegmentStrategies.strategies_dict strategies) = Ok a
    /\ Forall2 follows_strategy strategies (ActionPlans.segment_action_plans a)
    /\ List.length (ActionPlans.segment_recommendations a)
       = List.length strategies.
Proof.
  unfold SegmentStrategies.generate_segment_strategies. intros H.
  bind_inv H as items _.
  destruct (plans_of_strategies items strategies H) as (plans & Hp & Hall).
  unfold ActionPlans.create_action_plan.
  change (SegmentStrategies.parse_wrapped json_loads' "segment_strategies"
            (SegmentStrategies.strategies_dict strategies))
    with (PList (map SegmentStrategies.strategy_dict strategies)).
  cbn [py_iter bind]. rewrite Hp. cbn [bind].
  eexists. split; [reflexivity |].
  cbn [ActionPlans.segment_action_plans ActionPlans.segment_recommendations].
  split; [exact Hall |].
  rewrite length_map. symmetry. apply (Forall2_length Hall).
Qed.

Lemma every_strategy_gets_a_plan_witness :
  exists strategies,
    SegmentStrategies.generate_segment_strategies no_json
      (PList wrapped_strategies) = Ok strategies
    /\ exists a,
         ActionPlans.create_action_plan no_json
           (SegmentStrategies.strategies_dict strategies) = Ok a
         /\ Forall2 follows_strategy strategies
              (ActionPlans.segment_action_plans a)
         /\ List.length (ActionPlans.segment_recommendations a)
            = List.length strategies.
Proof.
  eexists. split; [vm_compute; reflexivity |].
  apply (every_strategy_gets_a_plan no_json no_json
           (PList wrapped_strategies)).
  vm_compute. reflexivity.
Defined.

Lemma last_default {A : Type} (l : list A) (d d' : A) :
  l <> [] -> last l d = last l d'.
Proof.
  induction l as [| x l IH]; intros H; [congruence |].
  destruct l as [| y l]; [reflexivity |].
  apply IH. discriminate.
Qed.

Lemma take_actions_twice (r p q : ActionPlans.ActionPlan) :
  ActionPlans.take_actions (ActionPlans.take_actions r p) q
  = ActionPlans.take_actions r q.
Proof. reflexivity. Qed.

Lemma take_own_actions (r : ActionPlans.ActionPlan) :
  ActionPlans.take_actions r r = r.
Proof. destruct r. reflexivity. Qed.

(** The last loop leaves a recommendation with the actions of the last
    plan of its segment. *)
Lemma refresh_last :
  forall plans r,
    ActionPlans.refresh plans r
    = ActionPlans.take_actions r (last (filter (same_segment r) plans) r).
Proof.
  unfold ActionPlans.refresh.
  induction plans as [| p plans IH]; intros r; cbn [fold_left filter].
  - cbn [last]. symmetry. apply take_own_actions.
  - unfold same_segment at 1.
    destruct (py_eqb (ActionPlans.segment_id p) (ActionPlans.segment_id r))
      eqn:E.
    + rewrite IH.
      change (same_segment (ActionPlans.take_actions r p))
        with (same_segment r).
      rewrite take_actions_twice.
      destruct (filter (same_segment r) plans) as [| x l] eqn:F.
      * reflexivity.
      * f_equal. change (last (p :: x :: l) r) with (last (x :: l) r).
        apply last_default. discriminate.
    + apply IH.
Qed.


(** X23.  A recommendation of [create_action_plan] keeps the id, the name
    and the rank of its own plan, but its actions and KPIs are those of
    the last plan whose segment id equals its own: with one plan for each
    segment id that is its own plan, with several strategies for one id
    every recommendation of that id carries the actions of the last of
    them. *)
Theorem recommendations_carry_the_last_plan_of_their_segment
  (json_loads : string -> option pyval) (segment_strategies : pyval)
  (a : ActionPlans.ActionPlans) :
  ActionPlans.create_action_plan json_loads segment_strategies = Ok a ->
  Forall2
    (fun plan recommendation =>
       ActionPlans.segment_id recommendation = ActionPlans.segment_id plan
       /\ ActionPlans.segment_name recommendation
          = ActionPlans.segment_name plan
       /\ ActionPlans.priority_rank recommendation
          = ActionPlans.priority_rank plan
       /\ carries_actions_of recommendation
            (last_of_segment (ActionPlans.segment_action_plans a) plan))
    (ActionPlans.segment_action_plans a)
    (ActionPlans.segment_recommendations a).
Proof.
  unfold ActionPlans.create_action_plan. intros H.
  bind_inv H as items _. bind_inv H as plans _. injection H as <-.
  cbn [ActionPlans.segment_action_plans ActionPlans.segment_recommendations].
  generalize plans at 1 3 as all_plans.
  intros all_plans. induction plans as [| p plans IH]; cbn [map];
    constructor; [| exact IH].
  rewrite refresh_last. unfold last_of_segment, carries_actions_of.
  cbn [ActionPlans.take_actions ActionPlans.segment_id
       ActionPlans.segment_name ActionPlans.priority_rank
       ActionPlans.immediate_actions ActionPlans.short_term_actions
       ActionPlans.mid_term_actions ActionPlans.kpis].
  repeat split; reflexivity.
Qed.

Lemma recommendations_carry_the_last_plan_of_their_segment_witness :
  exists a,
    ActionPlans.create_action_plan no_json repeated_segment = Ok a
    /\ map ActionPlans.priority_rank (ActionPlans.segment_recommendations a)
       = [PStr "最優先"; PStr "最低優先"]
    /\ map ActionPlans.short_term_actions
         (ActionPlans.segment_recommendations a)
       = [ ActionPlans.t_short_term_actions ActionPlans.plan_lowest;
           ActionPlans.t_short_term_actions ActionPlans.plan_lowest ]
    /\ Forall2
         (fun plan recommendation =>
            ActionPlans.segment_id recommendation
            = ActionPlans.segment_id plan
            /\ ActionPlans.segment_name recommendation
               = ActionPlans.segment_name plan
            /\ ActionPlans.priority_rank recommendation
               = ActionPlans.priority_rank plan
            /\ carries_actions_of recommendation
                 (last_of_segment (ActionPlans.segment_action_plans a) plan))
         (ActionPlans.segment_action_plans a)
         (ActionPlans.segment_recommendations a).
Proof.
  eexists. split; [vm_compute; reflexivity |].
  split; [reflexivity |]. split; [reflexivity |].
  apply (recommendations_carry_the_last_plan_of_their_segment no_json
           repeated_segment).
  vm_compute. reflexivity.
Defined.

(** *** The report *)

Lemma mapM_length {A B : Type} (f : A -> result B) :
  forall (l : list A) (ys : list B),
    mapM f l = Ok ys -> List.length ys = List.length l.
Proof.
  intros l ys H. apply mapM_ok_Forall2 in H.
  symmetry. apply (Forall2_length H).
Qed.

(** With a dictionary for the plans, the search for the plan of a score
    runs over its keys and raises on the first of them. *)
Lemma evaluation_over_keys (plans : dict) (score : pyval) :
  plans <> [] ->
  PriorityReport.evaluation (PDict plans) score = Raise AttributeError.
Proof.
  intros Hne. unfold PriorityReport.evaluation.
  destruct score as [| b | q | s | l | d]; try reflexivity.
  cbn [py_get].
  repeat match goal with
         | |- context [dict_get d ?k] => destruct (dict_get d k)
         end;
    cbn [bind py_iter]; destruct plans as [| [k v] plans];
    try congruence; reflexivity.
Qed.

Lemma evaluations_over_keys (plans : dict) (items : list pyval)
  (evaluations : list PriorityReport.Evaluation) :
  plans <> [] ->
  mapM (PriorityReport.evaluation (PDict plans)) items = Ok evaluations ->
  items = [] /\ evaluations = [].
Proof.
  intros Hne H. destruct items as [| score items].
  - injection H as <-. split; reflexivity.
  - cbn [mapM] in H. rewrite (evaluation_over_keys plans score Hne) in H.
    discriminate H.
Qed.

Lemma annotate_all_truthy (scores strategy scores' : pyval) :
  PriorityReport.annotate_all scores strategy = Ok scores' ->
  py_truthy scores = true -> py_truthy scores' = true.
Proof.
  unfold PriorityReport.annotate_all. intros H Ht.
  bind_inv H as segment_id _. bind_inv H as items Hit.
  bind_inv H as items' Hmap. injection H as <-.
  destruct scores as [| b | q | s | l | d]; try exact Ht.
  cbn [py_iter] in Hit. injection Hit as <-.
  apply mapM_length in Hmap.
  destruct l as [| x l]; [discriminate Ht |].
  destruct items' as [| y items']; [discriminate Hmap | reflexivity].
Qed.

Lemma annotated_truthy :
  forall strategies scores scores',
    EvcTools.foldM PriorityReport.annotate_all scores strategies
    = Ok scores' ->
    py_truthy scores = true -> py_truthy scores' = true.
Proof.
  induction strategies as [| strategy strategies IH];
    intros scores scores' H Ht; cbn [EvcTools.foldM] in H.
  - injection H as <-. exact Ht.
  - bind_inv H as scores1 H1.
    apply (IH _ _ H). apply (annotate_all_truthy _ _ _ H1 Ht).
Qed.

(** What a returning run of the report has gone through. *)
Lemma create_priority_report_ok (json_loads : string -> option pyval)
  (integrated_results priority_scores segment_strategies action_plans : pyval)
  (r : PriorityReport.Report) :
  PriorityReport.create_priority_report json_loads integrated_results
    priority_scores segment_strategies action_plans = Ok r ->
  exists overall_action_plan scores items,
    (match PriorityReport.parse_listed json_loads "action_plans"
             action_plans with
     | PDict _ =>
         py_get (PriorityReport.parse_listed json_loads "action_plans"
                   action_plans) "overall_action_plan" (PDict [])
     | _ => Ok (PDict [])
     end) = Ok overall_action_plan
    /\ (py_truthy (PriorityReport.parse_listed json_loads "priority_scores"
                     priority_scores) = true ->
        py_truthy scores = true)
    /\ py_iter scores = Ok items
    /\ mapM (PriorityReport.evaluation
               (PriorityReport.or_empty
                  (PriorityReport.parse_listed json_loads "action_plans"
                     action_plans)))
         items = Ok (PriorityReport.segment_evaluations r)
    /\ py_get overall_action_plan "resource_allocation_guidelines"
         (PDict [])
       = Ok (PriorityReport.os_resource_allocation
               (PriorityReport.overall_strategy r))
    /\ py_get overall_action_plan "immediate_focus_areas" (PList [])
       = Ok (PriorityReport.os_immediate_focus_areas
               (PriorityReport.overall_strategy r))
    /\ py_get overall_action_plan "quarterly_review_points" (PList [])
       = Ok (PriorityReport.os_quarterly_review_points
               (PriorityReport.overall_strategy r)).
Proof.
  unfold PriorityReport.create_priority_report. intros H.
  bind_inv H as segments _.
  bind_inv H as overall_action_plan Hoverall.
  bind_inv H as scores Hscores.
  bind_inv H as total_segments _.
  bind_inv H as counts _.
  bind_inv H as leaders _.
  bind_inv H as top_priority_segments _.
  bind_inv H as items Hitems.
  bind_inv H as segment_evaluations Hevaluations.
  bind_inv H as resource_allocation H1.
  bind_inv H as immediate_focus_areas H2.
  bind_inv H as quarterly_review_points H3.
  injection H as <-.
  exists overall_action_plan, scores, items.
  cbn [PriorityReport.segment_evaluations PriorityReport.overall_strategy
       PriorityReport.os_resource_allocation
       PriorityReport.os_immediate_focus_areas
       PriorityReport.os_quarterly_review_points].
  repeat split; try assumption.
  intros Ht.
  assert (Hstart : py_truthy
                     (PriorityReport.or_empty
                        (PriorityReport.parse_listed json_loads
                           "priority_scores" priority_scores)) = true).
  { unfold PriorityReport.or_empty. rewrite Ht. exact Ht. }
  destruct (PriorityReport.or_empty
              (PriorityReport.parse_listed json_loads "segment_strategies"
                 segment_strategies)) as [| b | q | s | l | d];
    try (injection Hscores as <-; exact Hstart).
  apply (annotated_truthy _ _ _ Hscores Hstart).
Qed.

(** X24.  [create_priority_report] cannot take the result of
    [create_action_plan] as its action plans: that dictionary has no key
    action_plans, so its keys are run over as if they were plans, and
    with any score at all the report is never returned -- whether the
    dictionary is given itself or as a text that is read back as it. *)
Theorem report_rejects_the_result_of_the_planner
  (json_loads : string -> option pyval)
  (integrated_results priority_scores segment_strategies action_plans : pyval)
  (a : ActionPlans.ActionPlans) (r : PriorityReport.Report) :
  PriorityReport.parse_listed json_loads "action_plans" action_plans
  = ActionPlans.action_plans_dict a ->
  py_truthy (PriorityReport.parse_listed json_loads "priority_scores"
               priority_scores) = true ->
  PriorityReport.create_priority_report json_loads integrated_results
    priority_scores segment_strategies action_plans <> Ok r.
Proof.
  intros Hplans Hscores H.
  destruct (create_priority_report_ok _ _ _ _ _ _ H)
    as (overall & scores & items & _ & Ht & Hit & Hev & _).
  rewrite Hplans in Hev.
  apply evaluations_over_keys in Hev; [| discriminate].
  destruct Hev as [-> _].
  apply (ScorerExceptionFacts.py_iter_truthy _ _ (Ht Hscores) Hit).
  reflexivity.
Qed.

Lemma report_rejects_the_result_of_the_planner_witness :
  exists a,
    ActionPlans.create_action_plan no_json (PList wrapped_strategies) = Ok a
    /\ PriorityReport.create_priority_report no_json (PDict [])
         (PList wrapped_strategies) (PList wrapped_strategies)
         (ActionPlans.action_plans_dict a) = Raise AttributeError
    /\ forall r,
         PriorityReport.create_priority_report no_json (PDict [])
           (PList wrapped_strategies) (PList wrapped_strategies)
           (ActionPlans.action_plans_dict a) <> Ok r.
Proof.
  eexists. split; [vm_compute; reflexivity |].
  split; [vm_compute; reflexivity |].
  intros r.
  eapply (report_rejects_the_result_of_the_planner no_json (PDict [])
            (PList wrapped_strategies) (PList wrapped_strategies)).
  - reflexivity.
  - reflexivity.
Defined.

(** X25.  A report of [create_priority_report] that evaluates at least
    one segment has an empty overall strategy: the overall plan is only
    read from action plans given as a dictionary, and a dictionary that
    is not empty makes the evaluation of the first segment raise. *)
Theorem evaluated_segments_leave_no_overall_strategy
  (json_loads : string -> option pyval)
  (integrated_results priority_scores segment_strategies action_plans : pyval)
  (r : PriorityReport.Report) :
  PriorityReport.create_priority_report json_loads integrated_results
    priority_scores segment_strategies action_plans = Ok r ->
  PriorityReport.segment_evaluations r <> [] ->
  PriorityReport.overall_strategy r = empty_strategy.
Proof.
  intros H Hne.
  destruct (create_priority_report_ok _ _ _ _ _ _ H)
    as (overall & scores & items & Hoverall & _ & _ & Hev & H1 & H2 & H3).
  assert (Hempty : overall = PDict []).
  { destruct (PriorityReport.parse_listed json_loads "action_plans"
                action_plans) as [| b | q | s | l | d];
      try (injection Hoverall as <-; reflexivity).
    destruct d as [| kv d].
    - cbn in Hoverall. injection Hoverall as <-. reflexivity.
    - exfalso. cbn [PriorityReport.or_empty py_truthy] in Hev.
      apply evaluations_over_keys in Hev; [| discriminate].
      apply Hne. apply Hev. }
  subst overall. cbn in H1, H2, H3.
  injection H1 as H1. injection H2 as H2. injection H3 as H3.
  destruct (PriorityReport.overall_strategy r) as [x y z].
  cbn in H1, H2, H3. subst. reflexivity.
Qed.

Lemma evaluated_segments_leave_no_overall_strategy_witness :
  exists r,
    PriorityReport.create_priority_report no_json (PDict [])
      (PList wrapped_strategies) (PList wrapped_strategies)
      (PList [PDict [("segment_id", PStr "s1")]]) = Ok r
    /\ List.length (PriorityReport.segment_evaluations r) = 1%nat
    /\ PriorityReport.overall_strategy r = empty_strategy.
Proof.
  eexists. split; [vm_compute; reflexivity |].
  split; [reflexivity |].
  apply (evaluated_segments_leave_no_overall_strategy no_json (PDict [])
           (PList wrapped_strategies) (PList wrapped_strategies)
           (PList [PDict [("segment_id", PStr "s1")]])).
  - vm_compute. reflexivity.
  - discriminate.
Defined.

End ChainFacts.

(** ** Missing metrics *)

Module MissingMetricsFacts.
Import Py Statements PyFacts PriorityEvaluation PriorityStatements.
Import EdgeStatements PriorityFacts.
Local Open Scope py_scope.










End MissingMetricsFacts.

(** ** The order of the three potentials *)

Module PotentialOrderFacts.
Import Py Statements PyFacts MarketPotential MarketStatements.
Import EdgeStatements MarketFacts.
Local Open Scope py_scope.

Lemma number_at_unique (estimate : pyval) (k : string) (x y : Q) :
  number_at estimate k x -> number_at estimate k y -> x = y.
Proof.
  intros (v & Hv & Ex) (w & Hw & Ey).
  rewrite Hv in Hw. injection Hw as <-. congruence.
Qed.

Lemma products_in_order (c c' a a' e : Q) :
  0 <= c -> c <= c' -> 0 <= a -> a <= a' ->
  (0 <= e -> c * a * e <= c' * a' * e)
  /\ (e <= 0 -> c' * a' * e <= c * a * e).
Proof.
  intros Hc Hcc Ha Haa.
  assert (H : c * a <= c' * a').
  { apply Qle_trans with (c * a').
    - rewrite !(Qmult_comm c). apply Qmult_le_compat_r; assumption.
    - apply Qmult_le_compat_r; [exact Hcc |].
      apply Qle_trans with a; assumption. }
  split; intros He.
  - apply Qmult_le_compat_r; assumption.
  - revert H. generalize (c * a) as x. generalize (c' * a') as y.
    intros y x H. nra.
Qed.

Section Estimators.

Variable json_loads : string -> option pyval.
Variable estimate_companies_with_ai : string -> pyval -> result pyval.
Variable estimate_acquisition_rate_with_ai : string -> pyval -> result pyval.

(** X26.  The three potentials that [calculate_segment_potential]
    returns are in the order of their names only for an EVC value that is
    not negative: with estimates that are in order and not negative,
    min <= expected <= max holds for an EVC value of 0 or more, and the
    order is reversed, max <= expected <= min, for an EVC value of 0 or
    less. *)
Theorem potentials_are_ordered_by_the_sign_of_evc (segment_id : string)
  (evc_result segment_info : pyval) (p : Potential) (e : Q) :
  calculate_segment_potential json_loads estimate_companies_with_ai
    estimate_acquisition_rate_with_ai segment_id evc_result segment_info
  = Ok (PotentialResult p) ->
  ordered_estimate (companies p) ->
  ordered_estimate (acquisition_rate p) ->
  as_num (evc_value p) = Some e ->
  (0 <= e -> ascending (potential_value p))
  /\ (e <= 0 -> descending (potential_value p)).
Proof.
  intros H (c1 & c2 & c3 & Hc1 & Hc2 & Hc3 & Hc0 & Hc12 & Hc23)
    (a1 & a2 & a3 & Ha1 & Ha2 & Ha3 & Ha0 & Ha12 & Ha23) He.
  destruct (calculate_segment_potential_ok _ _ _ _ _ _ _ H)
    as (Hmin & Hexp & Hmax).
  unfold ascending, descending.
  apply potential_at_ok in Hmin.
  destruct Hmin as (x1 & y1 & e1 & Hx1 & Hy1 & He1 & ->).
  apply potential_at_ok in Hexp.
  destruct Hexp as (x2 & y2 & e2 & Hx2 & Hy2 & He2 & ->).
  apply potential_at_ok in Hmax.
  destruct Hmax as (x3 & y3 & e3 & Hx3 & Hy3 & He3 & ->).
  rewrite (number_at_unique _ _ _ _ Hx1 Hc1).
  rewrite (number_at_unique _ _ _ _ Hx2 Hc2).
  rewrite (number_at_unique _ _ _ _ Hx3 Hc3).
  rewrite (number_at_unique _ _ _ _ Hy1 Ha1).
  rewrite (number_at_unique _ _ _ _ Hy2 Ha2).
  rewrite (number_at_unique _ _ _ _ Hy3 Ha3).
  assert (E1 : e1 = e) by congruence.
  assert (E2 : e2 = e) by congruence.
  assert (E3 : e3 = e) by congruence.
  subst e1 e2 e3.
  assert (Hc2' : 0 <= c2) by (apply Qle_trans with c1; assumption).
  assert (Ha2' : 0 <= a2) by (apply Qle_trans with a1; assumption).
  destruct (products_in_order c1 c2 a1 a2 e Hc0 Hc12 Ha0 Ha12) as [P1 N1].
  destruct (products_in_order c2 c3 a2 a3 e Hc2' Hc23 Ha2' Ha23) as [P2 N2].
  split; intros Hsign; split; auto.
Qed.

End Estimators.

Lemma fallback_is_ordered :
  ordered_estimate default_companies
  /\ ordered_estimate default_acquisition_rate.
Proof.
  split.
  - exists 100, 500, 1000.
    repeat split; try (eexists; split; reflexivity); discriminate.
  - exists 0.05, 0.15, 0.30.
    repeat split; try (eexists; split; reflexivity); discriminate.
Qed.

Lemma potentials_are_ordered_by_the_sign_of_evc_witness :
  exists p,
    calculate_segment_potential loads_negative companies_fallback
      acquisition_rate_fallback "s1" (PStr text_evc_negative)
      (PStr text_empty_object) = Ok (PotentialResult p)
    /\ MarketPotential.max (potential_value p) < 0
    /\ descending (potential_value p).
Proof.
  eexists. split; [vm_compute; reflexivity |].
  split; [reflexivity |].
  apply (potentials_are_ordered_by_the_sign_of_evc loads_negative
           companies_fallback acquisition_rate_fallback "s1"
           (PStr text_evc_negative) (PStr text_empty_object) _ (-485000)).
  - vm_compute. reflexivity.
  - apply fallback_is_ordered.
  - apply fallback_is_ordered.
  - reflexivity.
  - discriminate.
Defined.

End PotentialOrderFacts.
